(** * ICRA backend: the retrieval-and-generation pipeline

    A shallow embedding of [knowledge_base.py], [rag_pipeline.py] and the
    part of [config.py] they read, followed by the properties of the
    pipeline that the design document states.

    Conventions of the embedding:
    - a Python [str] is the [string] of its UTF-8 bytes; its code points
      are [Py.chars]. What [str.title] and [str.lower] do to a code point
      outside ASCII is read from the tables of a [Py.unicode];
    - a JSON value read by [json.load] is a [json]; a Python [dict] whose
      iteration order is observable is an association list, one that is
      only looked up by key is a [gmap];
    - a Python [float] distance is the rational it denotes ([Q]);
    - an exception is a value of [exn], and a call that may raise returns
      a [result];
    - code that talks to the vector store or to the generation service runs
      in the monad [M], whose state is the world: the persistent store and
      the log of calls made so far. *)

From Stdlib Require Import ZArith QArith Qabs Ascii String List Sorted.
From stdpp Require Import base gmap strings list sorting pretty.

Local Open Scope Z_scope.
Local Open Scope string_scope.

(** ** Python exceptions and fallible results *)

(** The exceptions that the program can meet. [AuthenticationError] and
    [RateLimitError] are the two classes of [anthropic] that
    [generate_answer] names; [APIError msg] is any other instance [e] of
    [anthropic.APIError], with [msg = str(e)]; [OtherError] is an exception
    of any other class. *)
Inductive exn :=
| KeyError (key : string)
| IndexError
| TypeError
| ValueError
| DuplicateIDError
| AuthenticationError (msg : string)
| RateLimitError (msg : string)
| APIError (msg : string)
| OtherError (name : string).

Inductive result (A : Type) :=
| Ok (a : A)
| Raise (e : exn).
Arguments Ok {A} a.
Arguments Raise {A} e.

Definition rbind {A B} (r : result A) (k : A → result B) : result B :=
  match r with
  | Ok a => k a
  | Raise e => Raise e
  end.

Global Instance result_ret : MRet result := λ A a, Ok a.
Global Instance result_bind : MBind result := λ A B k r, rbind r k.

Definition is_ok {A} (r : result A) : bool :=
  match r with Ok _ => true | Raise _ => false end.

(** ** Python text operations *)

Module Py.

Definition is_upper (c : ascii) : bool :=
  let n := N_of_ascii c in ((65 <=? n) && (n <=? 90))%N.

Definition is_lower (c : ascii) : bool :=
  let n := N_of_ascii c in ((97 <=? n) && (n <=? 122))%N.

Definition is_cased (c : ascii) : bool := is_upper c || is_lower c.

Definition upper (c : ascii) : ascii :=
  if is_lower c then ascii_of_N (N_of_ascii c - 32) else c.

Definition lower (c : ascii) : ascii :=
  if is_upper c then ascii_of_N (N_of_ascii c + 32) else c.

(** [s.replace(old, new)] for one-character [old] and [new]. *)
Fixpoint replace (old new : ascii) (s : string) : string :=
  match s with
  | EmptyString => EmptyString
  | String c s' =>
      String (if Ascii.eqb c old then new else c) (replace old new s')
  end.

(** [s.title()] for a string [s] of ASCII characters: a letter that
    follows a letter is lower-cased, any other letter is upper-cased. *)
Fixpoint title_from (previous_is_cased : bool) (s : string) : string :=
  match s with
  | EmptyString => EmptyString
  | String c s' =>
      String (if previous_is_cased then lower c else upper c)
             (title_from (is_cased c) s')
  end.

Definition title (s : string) : string := title_from false s.

(** [sep.join(parts)]. *)
Definition join (sep : string) (parts : list string) : string :=
  String.concat sep parts.

(** A code point of ASCII is one byte below 128. A code point above takes
    two to four bytes, none of them below 128, of which all but the first
    are from 128 to 191. *)
Definition is_ascii (c : ascii) : bool := (N_of_ascii c <? 128)%N.

Definition is_continuation (c : ascii) : bool :=
  let n := N_of_ascii c in ((128 <=? n) && (n <=? 191))%N.

(** Whether the bytes [s] go on with the code point of the byte before
    them. *)
Definition continues (s : string) : bool :=
  match s with
  | String c _ => is_continuation c
  | EmptyString => false
  end.

(** The code points of a string, each as the string of its bytes: what a
    loop over a [str] visits. *)
Fixpoint chars (s : string) : list string :=
  match s with
  | EmptyString => []
  | String c s' =>
      match chars s' with
      | x :: xs =>
          if negb (is_ascii c) && continues s' then String c x :: xs
          else String c EmptyString :: x :: xs
      | [] => [String c EmptyString]
      end
  end.

(** Whether every character of [s] is of ASCII. *)
Fixpoint ascii_only (s : string) : bool :=
  match s with
  | EmptyString => true
  | String c s' => is_ascii c && ascii_only s'
  end.

(** The ASCII character that a code point is, if it is one. *)
Definition ascii_of_char (c : string) : option ascii :=
  match c with
  | String a EmptyString => if is_ascii a then Some a else None
  | _ => None
  end.

(** What [str.title] and [str.lower] read in the Unicode database of the
    interpreter, for a code point [c] outside ASCII:
    - [IsCased c]: whether [c] is a cased letter;
    - [ToTitleFull c]: the title-case form of [c], one code point or more;
    - [lower_ucs4 before c after]: the lower-case form of [c] where it
      stands between the code points [before] and [after] (the form of a
      capital sigma depends on them). *)
Record unicode := {
  IsCased : string → bool;
  ToTitleFull : string → string;
  lower_ucs4 : list string → string → list string → string;
}.

Definition char_is_cased (u : unicode) (c : string) : bool :=
  match ascii_of_char c with
  | Some a => is_cased a
  | None => IsCased u c
  end.

Definition char_title (u : unicode) (c : string) : string :=
  match ascii_of_char c with
  | Some a => String (upper a) EmptyString
  | None => ToTitleFull u c
  end.

Definition char_lower (u : unicode) (before : list string) (c : string)
    (after : list string) : string :=
  match ascii_of_char c with
  | Some a => String (lower a) EmptyString
  | None => lower_ucs4 u before c after
  end.

Fixpoint title_chars (u : unicode) (before : list string)
    (previous_is_cased : bool) (cs : list string) : list string :=
  match cs with
  | [] => []
  | c :: cs' =>
      (if previous_is_cased then char_lower u before c cs'
       else char_title u c)
        :: title_chars u (before ++ [c]) (char_is_cased u c) cs'
  end.

(** [s.title()]: a code point that follows a cased one is lower-cased, any
    other is title-cased. *)
Definition str_title (u : unicode) (s : string) : string :=
  String.concat EmptyString (title_chars u [] false (chars s)).

Fixpoint lower_chars (u : unicode) (before : list string)
    (cs : list string) : list string :=
  match cs with
  | [] => []
  | c :: cs' => char_lower u before c cs' :: lower_chars u (before ++ [c]) cs'
  end.

(** [s.lower()]. *)
Definition str_lower (u : unicode) (s : string) : string :=
  String.concat EmptyString (lower_chars u [] (chars s)).

(** [enumerate(xs, start)]. *)
Fixpoint enumerate {A} (start : Z) (xs : list A) : list (Z * A) :=
  match xs with
  | [] => []
  | x :: xs' => (start, x) :: enumerate (start + 1) xs'
  end.

(** [zip(xs, ys, zs)]: stops at the shortest argument. *)
Fixpoint zip3 {A B C} (xs : list A) (ys : list B) (zs : list C)
  : list (A * B * C) :=
  match xs, ys, zs with
  | x :: xs', y :: ys', z :: zs' => (x, y, z) :: zip3 xs' ys' zs'
  | _, _, _ => []
  end.

Fixpoint zip2 {A B} (xs : list A) (ys : list B) : list (A * B) :=
  match xs, ys with
  | x :: xs', y :: ys' => (x, y) :: zip2 xs' ys'
  | _, _ => []
  end.

(** The nearest integer to [num / den] for [0 ≤ num], ties to even. *)
Definition round_half_even (num : Z) (den : positive) : Z :=
  let q := num / Z.pos den in
  let r := num mod Z.pos den in
  match (2 * r ?= Z.pos den)%Z with
  | Lt => q
  | Gt => q + 1
  | Eq => if Z.even q then q else q + 1
  end.

Definition digit (n : Z) : ascii :=
  pretty_N_char (Z.to_N (n mod 10)).

Definition four_digits (n : Z) : string :=
  String (digit (n / 1000)) (String (digit (n / 100))
    (String (digit (n / 10)) (String (digit n) EmptyString))).

(** [f"{d:.4f}"] for a finite float [d], given as the rational it
    denotes: the value correctly rounded to four decimal places. The
    infinities, NaN and the negative zero denote no rational and are
    outside the model. *)
Definition format_4f (d : Q) : string :=
  let n := round_half_even (Z.abs (Qnum d) * 10000) (Qden d) in
  (if (Qnum d <? 0)%Z then "-" else EmptyString)
    +:+ pretty (n / 10000) +:+ "." +:+ four_digits (n mod 10000).

Definition utf8_1 (a : N) : string := String (ascii_of_N a) EmptyString.

Definition utf8_2 (a b : N) : string := String (ascii_of_N a) (utf8_1 b).

Definition utf8_3 (a b c : N) : string := String (ascii_of_N a) (utf8_2 b c).

(** The code points that are white space for [str.strip] and
    [str.isspace]: of ASCII, the tab, the line feed, the vertical tab, the
    form feed, the carriage return, the four separators 28 to 31 and the
    space; then U+0085, U+00A0, U+1680, U+2000 to U+200A, U+2028, U+2029,
    U+202F, U+205F and U+3000. *)
Definition whitespace : list string :=
  ((utf8_1 <$> [9; 10; 11; 12; 13; 28; 29; 30; 31; 32]%N)
   ++ [utf8_2 194 133; utf8_2 194 160; utf8_3 225 154 128]
   ++ (utf8_3 226 128
         <$> [128; 129; 130; 131; 132; 133; 134; 135; 136; 137; 138]%N)
   ++ [utf8_3 226 128 168; utf8_3 226 128 169; utf8_3 226 128 175;
       utf8_3 226 129 159; utf8_3 227 128 128])%list.

Definition is_space (c : string) : bool := bool_decide (c ∈ whitespace).

Fixpoint lstrip (cs : list string) : list string :=
  match cs with
  | [] => []
  | c :: cs' => if is_space c then lstrip cs' else cs
  end.

(** [s.strip()]: [s] without the white space at its two ends. *)
Definition strip (s : string) : string :=
  String.concat EmptyString (rev (lstrip (rev (lstrip (chars s))))).

(** [s * n]. *)
Fixpoint repeat (s : string) (n : nat) : string :=
  match n with
  | O => EmptyString
  | S n' => s +:+ repeat s n'
  end.

End Py.

(** ** JSON values, as [json.load] returns them *)

#[warnings="-register-all"] Inductive json :=
| JNull
| JBool (b : bool)
| JInt (n : Z)
| JFloat (q : Q)
| JStr (s : string)
| JList (items : list json)
| JDict (fields : list (string * json)).

(** A campus record, one element of the array in [campus_data.json]:
    a Python [dict] that the code only looks up by key. *)
Abbreviation entry := (gmap string json).

(** ** [config.py] *)

Module config.
Definition CLAUDE_MODEL : string := "claude-sonnet-4-20250514".
Definition CHROMA_COLLECTION_NAME : string := "campus_resources".
Definition TOP_K_RESULTS : Z := 3.
Definition EMBEDDING_MODEL : string := "all-MiniLM-L6-v2".
End config.

(** ** The world: the persistent vector store and the log of calls *)

(** One stored entry of a collection: id, document text and metadata. The
    embedding vector is not kept: the store is queried through the distance
    between a query text and a document text (see [distance] below). *)
Record index_entry := {
  ie_id : string;
  ie_document : string;
  ie_metadata : gmap string json;
}.

(** The result of [collection.query]: one inner list per query text. *)
Module QueryResult.
Record t := {
  ids : list (list string);
  documents : list (list string);
  metadatas : list (list (gmap string json));
  distances : list (list Q);
}.
End QueryResult.

(** The request of [client.messages.create] and the part of its response
    that the pipeline reads: the text of each content block. *)
Record request := {
  model : string;
  max_tokens : Z;
  system : string;
  messages : list (string * string);
}.

Record response := { content : list string }.

(** Every call that leaves the program: to the data file, to the vector
    store, to the generation service. [EntryToDocument] records a call of
    the formatter by the index builder. *)
Inductive event :=
| DeleteCollection (name : string)
| GetOrCreateCollection (name : string)
| Count (name : string)
| LoadCampusData
| EntryToDocument (e : entry)
| Add (name : string) (batch_ids : list json) (batch_documents : list string)
| Query (name : string) (text : string) (n_results : Z)
| AnthropicClient (api_key : string)
| MessagesCreate (req : request).

Record world := {
  campus_json : list entry;
  chroma : gmap string (list index_entry);
  calls : list event;
}.

Definition M (A : Type) : Type := world → result A * world.

Definition ret {A} (a : A) : M A := λ w, (Ok a, w).

Definition bind {A B} (m : M A) (k : A → M B) : M B :=
  λ w, match m w with
       | (Ok a, w') => k a w'
       | (Raise e, w') => (Raise e, w')
       end.

Definition raise {A} (e : exn) : M A := λ w, (Raise e, w).

Definition lift {A} (r : result A) : M A := λ w, (r, w).

(** [try: m except e: handler e]. *)
Definition try_except {A} (m : M A) (handler : exn → M A) : M A :=
  λ w, match m w with
       | (Ok a, w') => (Ok a, w')
       | (Raise e, w') => handler e w'
       end.

Definition call (ev : event) : M unit :=
  λ w, (Ok tt, {| campus_json := campus_json w;
                  chroma := chroma w;
                  calls := (calls w ++ [ev])%list |}).

Definition get_world : M world := λ w, (Ok w, w).

Definition get_store : M (gmap string (list index_entry)) :=
  λ w, (Ok (chroma w), w).

Definition put_store (s : gmap string (list index_entry)) : M unit :=
  λ w, (Ok tt, {| campus_json := campus_json w;
                  chroma := s;
                  calls := calls w |}).

Global Instance M_ret : MRet M := λ A a, ret a.
Global Instance M_bind : MBind M := λ A B k m, bind m k.

(** [xs[0]]. *)
Definition first {A} (xs : list A) : result A :=
  match xs with
  | x :: _ => Ok x
  | [] => Raise IndexError
  end.

(** [d[key]] on a dict that is looked up by key. *)
Definition getitem (d : gmap string json) (key : string) : result json :=
  match d !! key with
  | Some v => Ok v
  | None => Raise (KeyError key)
  end.

(** [xs[i]]. *)
Definition index {A} (xs : list A) (i : nat) : result A :=
  match xs !! i with
  | Some x => Ok x
  | None => Raise IndexError
  end.

(** A list comprehension whose element expression may raise. *)
Fixpoint comprehension {A B} (f : A → result B) (xs : list A)
  : result (list B) :=
  match xs with
  | [] => Ok []
  | x :: xs' => y ← f x; ys ← comprehension f xs'; Ok (y :: ys)
  end.

Definition nl : string := String "010"%char EmptyString.

(** ** A process: the world and what was written to standard output *)

(** [stdout] holds the texts written, in order: one per [print] (with its
    newline) and one per prompt of [input]. The log records of the
    [logging] module go to standard error and are not kept. *)
Record process := {
  stdout : list string;
  env : world;
}.

Definition P (A : Type) : Type := process → result A * process.

Definition P_bind {A B} (m : P A) (k : A → P B) : P B :=
  λ p, match m p with
       | (Ok a, p') => k a p'
       | (Raise e, p') => (Raise e, p')
       end.

Global Instance P_ret : MRet P := λ A a p, (Ok a, p).
Global Instance P_mbind : MBind P := λ A B k m, P_bind m k.

Definition P_raise {A} (e : exn) : P A := λ p, (Raise e, p).

Definition P_lift {A} (r : result A) : P A := λ p, (r, p).

Definition P_try_except {A} (m : P A) (handler : exn → P A) : P A :=
  λ p, match m p with
       | (Ok a, p') => (Ok a, p')
       | (Raise e, p') => handler e p'
       end.

(** A computation on the world, run in the process. *)
Definition run_M {A} (m : M A) : P A :=
  λ p, let (r, w') := m (env p) in (r, {| stdout := stdout p; env := w' |}).

Definition write (text : string) : P unit :=
  λ p, (Ok tt, {| stdout := (stdout p ++ [text])%list; env := env p |}).

(** [print(text)]. *)
Definition print (text : string) : P unit := write (text +:+ nl).

(** [for x in xs: body x]. *)
Fixpoint P_for {A} (xs : list A) (body : A → P unit) : P unit :=
  match xs with
  | [] => mret tt
  | x :: xs' => body x;; P_for xs' body
  end.

(** [sys.exit(1)]. *)
Definition SystemExit : exn := OtherError "SystemExit".

(** ** [server.py]: the response models *)

Module server.
Record Source := { id : string; name : string; type : string }.
Record AskResponse := { answer : string; sources : list Source }.
End server.

(** ** [main.py]: the ANSI colours *)

Definition ESC : string := String "027"%char EmptyString.
Definition BLUE : string := ESC +:+ "[94m".
Definition YELLOW : string := ESC +:+ "[93m".
Definition GREEN : string := ESC +:+ "[92m".
Definition CYAN : string := ESC +:+ "[96m".
Definition RED : string := ESC +:+ "[91m".
Definition DIM : string := ESC +:+ "[2m".
Definition BOLD : string := ESC +:+ "[1m".
Definition RESET : string := ESC +:+ "[0m".

Definition color (text code : string) : string := code +:+ text +:+ RESET.

Definition WELCOME : string :=
  nl +:+ BOLD +:+ Py.repeat "=" 60 +:+ nl
  +:+ "  ICRA — Intelligent Campus Resource Assistant" +:+ nl
  +:+ Py.repeat "=" 60 +:+ RESET +:+ nl
  +:+ nl
  +:+ "I can answer questions about campus facilities and services:" +:+ nl
  +:+ "  • Libraries, computer labs, and makerspaces" +:+ nl
  +:+ "  • Food options and dining hours" +:+ nl
  +:+ "  • Administrative offices (registrar, financial aid, etc.)" +:+ nl
  +:+ "  • Academic departments and faculty contacts" +:+ nl
  +:+ "  • Health, safety, IT help, and more" +:+ nl
  +:+ nl
  +:+ DIM +:+ "Type your question and press Enter." +:+ nl
  +:+ "Type 'quit' or 'exit' to leave." +:+ RESET +:+ nl.

(** ** Sample data *)

Module Sample.

(** [str] of the JSON scalars; the other values do not occur in the sample
    records. *)
Definition str_other (v : json) : string :=
  match v with
  | JNull => "None"
  | JBool true => "True"
  | JBool false => "False"
  | JInt n => pretty n
  | _ => EmptyString
  end.

(** A distance that is easy to compute by hand: a hundredth of the
    difference of the lengths of the two texts. *)
Definition distance (text document : string) : Q :=
  Z.abs (Z.of_nat (String.length text) - Z.of_nat (String.length document))
  # 100.

(** The tables of the Unicode database for the one letter beyond ASCII of
    the sample data, the e with an acute accent. No other code point is
    given a case. *)
Definition unicode : Py.unicode :=
  {| Py.IsCased := λ c, String.eqb c "é" || String.eqb c "É";
     Py.ToTitleFull := λ c, if String.eqb c "é" then "É" else c;
     Py.lower_ucs4 := λ _ c _, if String.eqb c "É" then "é" else c |}.

(** A store that takes a batch of at most 5461 entries, none with an empty
    id, whose metadata values are strings, numbers or booleans. *)
Definition scalar (v : json) : bool :=
  match v with
  | JStr _ | JInt _ | JFloat _ | JBool _ => true
  | _ => false
  end.

Definition accepts (batch : list index_entry) : bool :=
  forallb
    (λ x, negb (String.eqb (ie_id x) EmptyString)
          && forallb (λ kv, scalar kv.2) (map_to_list (ie_metadata x)))
    batch
  && (Z.of_nat (length batch) <=? 5461)%Z.

Definition answers (text : string) (history : list event) (req : request)
  : result response :=
  Ok {| content := [text] |}.

Definition fails (e : exn) (history : list event) (req : request)
  : result response :=
  Raise e.

Definition lib01 : entry :=
  list_to_map
    [("id", JStr "lib01");
     ("name", JStr "Main Library");
     ("type", JStr "facility");
     ("location", JStr "Building A");
     ("hours", JDict [("weekdays", JStr "8am-10pm");
                      ("sat_sun", JStr "10am-6pm")]);
     ("description", JStr "Books and study rooms.");
     ("contact", JStr "library@campus.edu");
     ("additional_info", JList [JStr "Free wifi"; JStr "Printing"])].

Definition gym02 : entry :=
  list_to_map
    [("id", JStr "gym02");
     ("name", JStr "Recreation Center");
     ("type", JStr "facility");
     ("location", JStr "Building R");
     ("hours", JStr "always open");
     ("description", JStr "Gym and pool.");
     ("contact", JStr "rec@campus.edu")].

(** A record whose hours have a key beyond ASCII, and that has no
    [additional_info]. *)
Definition cafe03 : entry :=
  list_to_map
    [("id", JStr "cafe03");
     ("name", JStr "Café");
     ("type", JStr "food");
     ("location", JStr "Building C");
     ("hours", JDict [("été_soir", JStr "18h-22h")]);
     ("description", JStr "Coffee.");
     ("contact", JInt 5550)].

(** [lib01] with a location that is null. *)
Definition nowhere : entry := <["location" := JNull]> lib01.

(** [lib01] without its contact. *)
Definition no_contact : entry := delete "contact" lib01.

Definition stored (i document name : string) : index_entry :=
  {| ie_id := i;
     ie_document := document;
     ie_metadata :=
       list_to_map [("name", JStr name); ("type", JStr "facility")] |}.

Definition library : index_entry :=
  stored "lib01" "Name: Main Library" "Main Library".

Definition gym : index_entry :=
  stored "gym02" "Name: Recreation Center" "Recreation Center".

Definition cafe : index_entry := stored "cafe03" "Name: Cafe" "Cafe".

Definition question : string := "when does the library open".

(** A world with the data file [data] and no collection yet. *)
Definition fresh (data : list entry) : world :=
  {| campus_json := data; chroma := ∅; calls := [] |}.

(** A world whose collection holds [entries]. *)
Definition indexed (entries : list index_entry) : world :=
  {| campus_json := [lib01; gym02];
     chroma := {[ config.CHROMA_COLLECTION_NAME := entries ]};
     calls := [] |}.

Definition two_hits : QueryResult.t :=
  {| QueryResult.ids := [["lib01"; "gym02"]];
     QueryResult.documents := [["Name: Main Library"; "Name: Recreation Center"]];
     QueryResult.metadatas := [[ie_metadata library; ie_metadata gym]];
     QueryResult.distances := [[8 # 100; 3 # 2]] |}.

(** The front ends: pydantic rejects every value that is not a string, the
    relevance is the nearest whole number of percent (the even one of two
    that are as near), and the message of a [KeyError] is its key in
    quotes. *)
Definition coerce_other (v : json) : option string := None.

Definition percent (dist : Q) : string :=
  pretty (Py.round_half_even
            (Z.max 0 (100 * Z.pos (Qden dist) - 50 * Qnum dist))
            (Qden dist)).

Definition exn_str (e : exn) : string :=
  match e with
  | KeyError key => "'" +:+ key +:+ "'"
  | _ => "error"
  end.

(** [lib01] without its type and its contact, and with other keys. *)
Definition no_type_no_contact : entry := delete "type" no_contact.

Definition lib01_moved : entry :=
  <["id" := JStr "lib99"]> (<["floor" := JInt 2]> lib01).

(** A stored entry whose metadata has no name. *)
Definition nameless : index_entry :=
  {| ie_id := "x9";
     ie_document := "Name: ?";
     ie_metadata := list_to_map [("type", JStr "facility")] |}.

Definition two_blocks (history : list event) (req : request)
  : result response :=
  Ok {| content := ["The library opens at 8am."; "Anything else?"] |}.

(** A terminal on which nothing was written yet. *)
Definition terminal (w : world) : process := {| stdout := []; env := w |}.

End Sample.

(** The successful result of a run, if it has one. *)
Definition returned {A} (run : result A * world) : option A :=
  match run.1 with
  | Ok a => Some a
  | Raise _ => None
  end.

(** ** [knowledge_base.py] and [rag_pipeline.py] *)

Module Source.
(** One attribution, the dict [{"id": .., "name": .., "type": ..}]. *)
Record t := { id : string; name : json; type : json }.
End Source.

Module RAGResult.
Record t := {
  answer : string;
  sources : list Source.t;
  retrieved_docs : list string;
  distances : list Q;
}.
End RAGResult.

Section Pipeline.

(** What the program takes from its surroundings:
    - [unicode] holds the tables of the Unicode database that the
      interpreter was built with;
    - [str_other v] is Python's [str(v)] for a JSON value that is not a
      string (for a string, [str] is the identity);
    - [distance query document] is the distance between the embeddings
      of the two texts, under the embedding model of the collection;
    - [empty_batch_ok] tells whether the store accepts an insertion of
      zero entries or rejects it;
    - [accepts batch] tells whether the store takes the entries [batch]
      of one insertion, after its own validation of them: chromadb
      rejects, among others, an empty id, a metadata value that is null,
      a list or a mapping, and a batch above its size limit;
    - [service history req] is what the generation service answers to
      [req] after the calls of [history];
    - [ANTHROPIC_API_KEY] is the credential read from the environment. *)
Variable unicode : Py.unicode.
Variable str_other : json → string.
Variable distance : string → string → Q.
Variable empty_batch_ok : bool.
Variable accepts : list index_entry → bool.
Variable service : list event → request → result response.
Variable ANTHROPIC_API_KEY : option string.

Definition py_str (v : json) : string :=
  match v with
  | JStr s => s
  | _ => str_other v
  end.

(** [iter(v)]: what a [for] loop over the JSON value [v] visits. *)
Definition py_iter (v : json) : result (list json) :=
  match v with
  | JList items => Ok items
  | JStr s => Ok (JStr <$> Py.chars s)
  | JDict fields => Ok ((λ kv, JStr kv.1) <$> fields)
  | _ => Raise TypeError
  end.

(** The data file is read from the world; a file that cannot be read or
    parsed is not modelled. *)
Definition load_campus_data : M (list entry) :=
  call LoadCampusData;;
  w ← get_world;
  ret (campus_json w).

Definition hours_lines (e : entry) : list string :=
  match e !! "hours" with
  | Some (JDict fields) =>
      fold_left
        (λ lines '(period, time),
           let label := Py.str_title unicode (Py.replace "_" " " period) in
           (lines ++ ["  " +:+ label +:+ ": " +:+ py_str time])%list)
        fields []
  | _ => []
  end.

Definition entry_to_document (e : entry) : result string :=
  let hours_lines := hours_lines e in
  let hours_text :=
    match hours_lines with
    | [] => "  Not specified"
    | _ => Py.join nl hours_lines
    end in
  items ← py_iter (default (JList []) (e !! "additional_info"));
  let additional :=
    Py.join nl ((λ item, "  - " +:+ py_str item) <$> items) in
  name ← getitem e "name";
  type ← getitem e "type";
  location ← getitem e "location";
  description ← getitem e "description";
  contact ← getitem e "contact";
  Ok ("Name: " +:+ py_str name +:+ nl
      +:+ "Type: " +:+ py_str type +:+ nl
      +:+ "Location: " +:+ py_str location +:+ nl
      +:+ "Hours:" +:+ nl +:+ hours_text +:+ nl
      +:+ "Description: " +:+ py_str description +:+ nl
      +:+ "Contact: " +:+ py_str contact +:+ nl
      +:+ "Additional Info:" +:+ nl +:+ additional).

(** *** The vector store *)

Definition collection_name : string := config.CHROMA_COLLECTION_NAME.

(** Modelled from the spec: [delete(name)] of the storage capability
    (chromadb's [client.delete_collection], not part of this repository).
    Discarding a collection that does not exist fails. *)
Definition delete_collection (name : string) : M unit :=
  call (DeleteCollection name);;
  store ← get_store;
  match store !! name with
  | Some _ => put_store (delete name store)
  | None => raise ValueError
  end.

(** Modelled from the spec: [open(name) → handle] of the storage
    capability (chromadb's [client.get_or_create_collection]). The handle
    of a collection is its name: the collection itself lives in the
    store. *)
Definition client_get_or_create_collection (name : string) : M string :=
  call (GetOrCreateCollection name);;
  store ← get_store;
  match store !! name with
  | Some _ => ret name
  | None => put_store (<[name := []]> store);; ret name
  end.

(** Modelled from the spec: [count(handle) → int]. *)
Definition count (collection : string) : M Z :=
  call (Count collection);;
  store ← get_store;
  match store !! collection with
  | Some entries => ret (Z.of_nat (length entries))
  | None => raise ValueError
  end.

(** Modelled from the spec: the ids of the store are strings. *)
Definition string_id (v : json) : result string :=
  match v with
  | JStr s => Ok s
  | _ => Raise ValueError
  end.

(** Modelled from the spec: the stored entries of a batch. *)
Definition new_entries (batch_ids documents : list string)
    (metadatas : list (gmap string json)) : list index_entry :=
  (λ '(i, d, m), {| ie_id := i; ie_document := d; ie_metadata := m |})
    <$> Py.zip3 batch_ids documents metadatas.

(** Modelled from the spec: [upsertBatch(handle, entries)], the insertion
    of one batch keyed by id (chromadb's [collection.add]): each document
    is embedded and stored with its id and metadata, in the given order.
    Ids are strings; a batch whose three lists differ in length is
    rejected; an id that occurs twice, in the batch or with the stored
    entries, fails with [DuplicateIDError] and nothing is inserted. What
    happens to a batch of zero entries is left to [empty_batch_ok], and
    what else the store checks of the entries before it takes them, to
    [accepts]: a batch that it does not accept is rejected as a whole. *)
Definition add (collection : string) (documents : list string)
    (batch_ids : list json) (metadatas : list (gmap string json)) : M unit :=
  call (Add collection batch_ids documents);;
  store ← get_store;
  match store !! collection with
  | None => raise ValueError
  | Some entries =>
      sids ← lift (comprehension string_id batch_ids);
      if negb (Nat.eqb (length documents) (length sids)
               && Nat.eqb (length metadatas) (length sids))
      then raise ValueError
      else if Nat.eqb (length sids) 0 && negb empty_batch_ok
      then raise ValueError
      else if negb (bool_decide (NoDup (sids ++ (ie_id <$> entries))%list))
      then raise DuplicateIDError
      else if negb (accepts (new_entries sids documents metadatas))
      then raise ValueError
      else put_store
             (<[collection := (entries ++ new_entries sids documents metadatas)%list]>
                store)
  end.

(** Modelled from the spec: the ranking of the retriever, ascending by
    distance with ties in insertion order. [x], inserted before the
    entries of [sorted], goes before the first one that is not nearer
    than [x]. *)
Fixpoint insert_by_distance (text : string) (x : index_entry)
    (sorted : list index_entry) : list index_entry :=
  match sorted with
  | [] => [x]
  | y :: sorted' =>
      if Qle_bool (distance text (ie_document x))
                  (distance text (ie_document y))
      then x :: y :: sorted'
      else y :: insert_by_distance text x sorted'
  end.

(** Modelled from the spec: all entries, nearest first. *)
Definition nearest_first (text : string) (entries : list index_entry)
  : list index_entry :=
  foldr (insert_by_distance text) [] entries.

(** Modelled from the spec: [query(handle, vector, k) → ranked entries]
    (chromadb's [collection.query] with one query text): the [n_results]
    entries of least distance to the query, nearest first, ties in
    insertion order; all entries when there are fewer. The spec gives
    [n_results > 0] as the contract; the model raises otherwise. *)
Definition query (collection : string) (text : string) (n_results : Z)
  : M QueryResult.t :=
  call (Query collection text n_results);;
  store ← get_store;
  match store !! collection with
  | None => raise ValueError
  | Some entries =>
      if (n_results <=? 0)%Z then raise ValueError
      else
        let hits := take (Z.to_nat n_results) (nearest_first text entries) in
        ret {| QueryResult.ids := [ie_id <$> hits];
               QueryResult.documents := [ie_document <$> hits];
               QueryResult.metadatas := [ie_metadata <$> hits];
               QueryResult.distances :=
                 [(λ x, distance text (ie_document x)) <$> hits] |}
  end.

(** *** [knowledge_base.py], continued *)

(** The body of the loop of [get_or_create_collection] over the loaded
    records, with the three lists it appends to. *)
Fixpoint format_entries (data : list entry)
    (documents : list string) (batch_ids : list json)
    (metadatas : list (gmap string json))
  : M (list string * list json * list (gmap string json)) :=
  match data with
  | [] => ret (documents, batch_ids, metadatas)
  | e :: data' =>
      call (EntryToDocument e);;
      doc_text ← lift (entry_to_document e);
      i ← lift (getitem e "id");
      name ← lift (getitem e "name");
      type ← lift (getitem e "type");
      location ← lift (getitem e "location");
      contact ← lift (getitem e "contact");
      format_entries data'
        (documents ++ [doc_text])%list
        (batch_ids ++ [i])%list
        (metadatas ++ [ <["name" := name]> (<["type" := type]>
                         (<["location" := location]>
                         (<["contact" := contact]> ∅))) ])%list
  end.

(** The embedding function and the persistent client that the source
    builds first are part of the store of the world; building them makes
    no call of its own. *)
Definition get_or_create_collection (reset : bool) : M string :=
  (if reset
   then try_except (delete_collection collection_name) (λ _, ret tt)
   else ret tt);;
  collection ← client_get_or_create_collection collection_name;
  n ← count collection;
  if (n =? 0)%Z then
    data ← load_campus_data;
    '(documents, batch_ids, metadatas) ← format_entries data [] [] [];
    add collection documents batch_ids metadatas;;
    ret collection
  else
    (* the log line of this branch reads [collection.count()] again *)
    count collection;;
    ret collection.

Definition query_knowledge_base (collection : string) (text : string)
    (top_k : Z) : M QueryResult.t :=
  query collection text top_k.

(** *** [rag_pipeline.py] *)

Definition SYSTEM_PROMPT : string :=
  "You are ICRA, the Intelligent Campus Resource Assistant. Your job is to help students, faculty, and visitors find information about campus facilities and services." +:+ nl +:+ nl
  +:+ "Rules:" +:+ nl
  +:+ "- Answer ONLY based on the provided context documents. Do not make up information." +:+ nl
  +:+ "- If the context does not contain enough information to answer, say so honestly and suggest where the user might find help." +:+ nl
  +:+ "- Be concise but helpful. Use bullet points when listing multiple items." +:+ nl
  +:+ "- Always mention the source facility name(s) you used to answer." +:+ nl
  +:+ "- If hours or contact info are in the context, include them in your answer." +:+ nl.

(** One block of the context, for the document of rank [i]. *)
Definition context_block_of (i : Z) (doc : string) (dist : Q) : string :=
  "--- Source " +:+ pretty i +:+ " (similarity distance: "
    +:+ Py.format_4f dist +:+ ") ---" +:+ nl
    +:+ doc +:+ nl.

Definition build_context_block (results : QueryResult.t) : result string :=
  docs ← first (QueryResult.documents results);
  metadatas ← first (QueryResult.metadatas results);
  distances ← first (QueryResult.distances results);
  let blocks :=
    fold_left
      (λ blocks '(i, (doc, meta, dist)),
         (blocks ++ [context_block_of i doc dist])%list)
      (Py.enumerate 1 (Py.zip3 docs metadatas distances)) [] in
  Ok (Py.join nl blocks).

Definition NO_INFORMATION : string :=
  "I couldn't find any relevant information in the campus knowledge base. Please try rephrasing your question or contact Student Services for help.".

Definition KEY_NOT_SET : string :=
  "ERROR: ANTHROPIC_API_KEY is not set. Please add it to your .env file."
    +:+ nl +:+ "See .env.example for the expected format.".

Definition INVALID_KEY : string :=
  "ERROR: Invalid Anthropic API key. Please check your .env file.".

Definition RATE_LIMITED : string :=
  "ERROR: Rate limit exceeded. Please wait a moment and try again.".

Definition API_ERROR_PREFIX : string := "ERROR: Anthropic API error — ".

(** The loop that logs the retrieved entries. The log text is not kept,
    but building it reads [meta['name']] and [meta['type']]. *)
Definition log_retrieval (metadatas : list (gmap string json))
    (distances : list Q) : result unit :=
  comprehension
    (λ '(i, (meta, dist)),
       _ ← getitem meta "name"; _ ← getitem meta "type"; Ok tt)
    (Py.enumerate 1 (Py.zip2 metadatas distances));;
  Ok tt.

(** [anthropic.Anthropic(api_key=..)]: builds the client, contacts
    nothing. *)
Definition Anthropic (api_key : string) : M unit :=
  call (AnthropicClient api_key).

(** [client.messages.create(..)]: one call of the client, logged as one
    event. What the client does inside the call is its own: built with
    its defaults, it may send the request again after a failure, and
    [service] gives the outcome of the call as a whole. *)
Definition messages_create (req : request) : M response :=
  call (MessagesCreate req);;
  w ← get_world;
  lift (service (calls w) req).

Definition source_at (ids : list string)
    (metadatas : list (gmap string json)) (i : nat) : result Source.t :=
  id ← index ids i;
  meta ← index metadatas i;
  name ← getitem meta "name";
  meta' ← index metadatas i;
  type ← getitem meta' "type";
  Ok {| Source.id := id; Source.name := name; Source.type := type |}.

(** [not key] for the value of [os.getenv]: [None] and the empty string
    are false. *)
Definition key_present (key : option string) : option string :=
  match key with
  | Some EmptyString | None => None
  | Some k => Some k
  end.

Definition generate_answer (question : string) (collection : string)
    (top_k : Z) : M RAGResult.t :=
  (* Step 1: retrieve *)
  results ← query_knowledge_base collection question top_k;
  docs ← lift (first (QueryResult.documents results));
  metadatas ← lift (first (QueryResult.metadatas results));
  distances ← lift (first (QueryResult.distances results));
  ids ← lift (first (QueryResult.ids results));
  match docs with
  | [] =>
      ret {| RAGResult.answer := NO_INFORMATION;
             RAGResult.sources := [];
             RAGResult.retrieved_docs := [];
             RAGResult.distances := [] |}
  | _ :: _ =>
      lift (log_retrieval metadatas distances);;
      (* Step 2: augment *)
      context_block ← lift (build_context_block results);
      let user_message :=
        "Context documents:" +:+ nl +:+ nl +:+ context_block +:+ nl +:+ nl
          +:+ "Student question: " +:+ question +:+ nl +:+ nl
          +:+ "Provide a helpful answer based on the context above." in
      (* Step 3: generate *)
      match key_present ANTHROPIC_API_KEY with
      | None =>
          ret {| RAGResult.answer := KEY_NOT_SET;
                 RAGResult.sources := [];
                 RAGResult.retrieved_docs := docs;
                 RAGResult.distances := distances |}
      | Some api_key =>
          Anthropic api_key;;
          answer_text ←
            try_except
              (response ← messages_create
                 {| model := config.CLAUDE_MODEL;
                    max_tokens := 1024;
                    system := SYSTEM_PROMPT;
                    messages := [("user", user_message)] |};
               lift (first (content response)))
              (λ e, match e with
                    | AuthenticationError _ => ret INVALID_KEY
                    | RateLimitError _ => ret RATE_LIMITED
                    | APIError msg => ret (API_ERROR_PREFIX +:+ msg)
                    | _ => raise e
                    end);
          sources ← lift (comprehension (source_at ids metadatas)
                                        (seq 0 (length ids)));
          ret {| RAGResult.answer := answer_text;
                 RAGResult.sources := sources;
                 RAGResult.retrieved_docs := docs;
                 RAGResult.distances := distances |}
      end
  end.

(** *** [server.py] *)

(** What the front ends take from their surroundings:
    - [coerce_other v] is what pydantic makes of a value that is not a
      string in a field declared [str]: a string, or nothing when it
      rejects the value;
    - [percent dist] is the text of
      [f"{max(0, (1 - dist / 2)) * 100:.0f}"], computed in binary floating
      point;
    - [exn_str e] is [str(e)], the message of an exception. *)
Variable coerce_other : json → option string.
Variable percent : Q → string.
Variable exn_str : exn → string.

Definition validate_str (v : json) : result string :=
  match v with
  | JStr s => Ok s
  | _ =>
      match coerce_other v with
      | Some s => Ok s
      | None => Raise (OtherError "ValidationError")
      end
  end.

(** The [Source] model built from the keys of the dict [s]. *)
Definition make_Source (s : Source.t) : result server.Source :=
  name ← validate_str (Source.name s);
  type ← validate_str (Source.type s);
  Ok {| server.id := Source.id s; server.name := name; server.type := type |}.

(** The start-up part of [lifespan]; the handle it returns is the global
    [collection] of the module. *)
Definition lifespan : M string :=
  collection ← get_or_create_collection false;
  (* the log line reads [collection.count()] *)
  count collection;;
  ret collection.

(** [ask(req)], with [question = req.question] and the global
    [collection]. *)
Definition ask (question : string) (collection : string)
  : M server.AskResponse :=
  result ← generate_answer question collection config.TOP_K_RESULTS;
  sources ← lift (comprehension make_Source (RAGResult.sources result));
  ret {| server.answer := RAGResult.answer result;
         server.sources := sources |}.

(** *** [main.py] *)

Definition print_retrieved_docs (result : RAGResult.t) : P unit :=
  print (nl +:+ color "── Retrieved Documents ──" YELLOW);;
  P_for
    (Py.enumerate 1
       (Py.zip2 (RAGResult.sources result) (RAGResult.distances result)))
    (λ '(i, (doc_meta, dist)),
       print ("  " +:+ color ("[" +:+ pretty i +:+ "]") YELLOW +:+ " "
              +:+ color (py_str (Source.name doc_meta)) BOLD +:+ " "
              +:+ DIM +:+ "(" +:+ py_str (Source.type doc_meta)
              +:+ ") — relevance ≈ " +:+ percent dist +:+ "%" +:+ RESET));;
  print EmptyString.

(** An item of [", ".join(..)] must be a string. *)
Definition join_item (v : json) : result string :=
  match v with
  | JStr s => Ok s
  | _ => Raise TypeError
  end.

Definition print_answer (result : RAGResult.t) : P unit :=
  print (color "── Answer ──" GREEN);;
  print (GREEN +:+ RAGResult.answer result +:+ RESET);;
  print EmptyString;;
  match RAGResult.sources result with
  | [] => mret tt
  | _ :: _ =>
      names ← P_lift (comprehension (λ s, join_item (Source.name s))
                        (RAGResult.sources result));
      print (DIM +:+ "Sources: " +:+ Py.join ", " names +:+ RESET)
  end;;
  print EmptyString.

Definition quit_words : list string := ["quit"; "exit"; "q"].

(** The interactive loop of [main], on the lines [inputs] that the user
    types before the end of the input. *)
Fixpoint main_loop (collection : string) (inputs : list string) : P unit :=
  match inputs with
  | [] =>
      (* [input] raises [EOFError] *)
      write (color "You: " BLUE);;
      print (nl +:+ DIM +:+ "Goodbye!" +:+ RESET)
  | line :: inputs' =>
      write (color "You: " BLUE);;
      let question := Py.strip line in
      if String.eqb question EmptyString then main_loop collection inputs'
      else if bool_decide (Py.str_lower unicode question ∈ quit_words) then
        print (DIM +:+ "Goodbye!" +:+ RESET)
      else
        result ← run_M (generate_answer question collection
                          config.TOP_K_RESULTS);
        print_retrieved_docs result;;
        print_answer result;;
        main_loop collection inputs'
  end.

Definition WARNING : string :=
  "WARNING: ANTHROPIC_API_KEY is not set." +:+ nl
  +:+ "Retrieval will still work, but answer generation requires the key."
  +:+ nl
  +:+ "Add it to a .env file — see .env.example for the format." +:+ nl.

Definition main (inputs : list string) : P unit :=
  print WELCOME;;
  match key_present ANTHROPIC_API_KEY with
  | None => print (color WARNING RED)
  | Some _ => mret tt
  end;;
  print (DIM +:+ "Loading knowledge base into ChromaDB..." +:+ RESET);;
  collection ←
    P_try_except
      (run_M (get_or_create_collection false))
      (λ e,
         print (color ("Failed to initialize knowledge base: " +:+ exn_str e)
                  RED);;
         P_raise SystemExit);
  n ← run_M (count collection);
  print (DIM +:+ "Ready! " +:+ pretty n +:+ " documents indexed." +:+ RESET
         +:+ nl);;
  main_loop collection inputs.

(** *** Vocabulary of the statements *)

Definition required_fields : list string :=
  ["name"; "type"; "location"; "description"; "contact"].

(** The hours line of one period, as the formatter renders it. *)
Definition hours_line (period : string) (time : json) : string :=
  "  " +:+ Py.str_title unicode (Py.replace "_" " " period) +:+ ": "
    +:+ py_str time.

(** The text of a document, from the rendered parts. *)
Definition document_text (name type location : json) (hours_text : string)
    (description contact : json) (additional : string) : string :=
  "Name: " +:+ py_str name +:+ nl
  +:+ "Type: " +:+ py_str type +:+ nl
  +:+ "Location: " +:+ py_str location +:+ nl
  +:+ "Hours:" +:+ nl +:+ hours_text +:+ nl
  +:+ "Description: " +:+ py_str description +:+ nl
  +:+ "Contact: " +:+ py_str contact +:+ nl
  +:+ "Additional Info:" +:+ nl +:+ additional.

(** The hours section: one line per period of a non-empty mapping, the
    placeholder line otherwise. *)
Definition hours_section (hours : option json) : string :=
  match hours with
  | Some (JDict (kv :: fields)) =>
      Py.join nl ((λ kv, hours_line kv.1 kv.2) <$> (kv :: fields))
  | _ => "  Not specified"
  end.

(** The blocks of the context for documents of ranks [i], [i + 1], ... *)
Fixpoint context_blocks (i : Z) (docs : list string) (dists : list Q)
  : list string :=
  match docs, dists with
  | doc :: docs', dist :: dists' =>
      context_block_of i doc dist :: context_blocks (i + 1) docs' dists'
  | _, _ => []
  end.

Definition is_digit (c : ascii) : bool :=
  let n := N_of_ascii c in ((48 <=? n) && (n <=? 57))%N.

Fixpoint all_digits (s : string) : bool :=
  match s with
  | EmptyString => true
  | String c s' => is_digit c && all_digits s'
  end.

(** The world after the calls [evs] have been logged. *)
Definition log (w : world) (evs : list event) : world :=
  {| campus_json := campus_json w;
     chroma := chroma w;
     calls := (calls w ++ evs)%list |}.

(** The result of a query that found the entries [hits], for one query
    text. *)
Definition result_of_hits (text : string) (hits : list index_entry)
  : QueryResult.t :=
  {| QueryResult.ids := [ie_id <$> hits];
     QueryResult.documents := [ie_document <$> hits];
     QueryResult.metadatas := [ie_metadata <$> hits];
     QueryResult.distances :=
       [(λ x, distance text (ie_document x)) <$> hits] |}.

(** [nearer text a b]: [a] is at most as far from the query as [b]. *)
Definition nearer (text : string) (a b : index_entry) : Prop :=
  (distance text (ie_document a) <= distance text (ie_document b))%Q.

(** The metadata that the pipeline reads: a name and a type. *)
Definition has_name_and_type (h : index_entry) : Prop :=
  is_Some (ie_metadata h !! "name") ∧ is_Some (ie_metadata h !! "type").

(** The attribution of a retrieved entry. *)
Definition source_of (h : index_entry) : Source.t :=
  {| Source.id := ie_id h;
     Source.name := default JNull (ie_metadata h !! "name");
     Source.type := default JNull (ie_metadata h !! "type") |}.

(** The request that [generate_answer] sends for a question and the
    retrieved entries. *)
Definition request_for (question : string) (hits : list index_entry)
  : request :=
  {| model := config.CLAUDE_MODEL;
     max_tokens := 1024;
     system := SYSTEM_PROMPT;
     messages :=
       [("user",
         "Context documents:" +:+ nl +:+ nl
         +:+ Py.join nl
               (context_blocks 1 (ie_document <$> hits)
                  ((λ x, distance question (ie_document x)) <$> hits))
         +:+ nl +:+ nl
         +:+ "Student question: " +:+ question +:+ nl +:+ nl
         +:+ "Provide a helpful answer based on the context above.")] |}.

(** The calls of the generation step, and what the service answers to
    the request at that point. *)
Definition generation_calls (api_key question : string)
    (hits : list index_entry) : list event :=
  [AnthropicClient api_key; MessagesCreate (request_for question hits)].

Definition outcome_for (w1 : world) (api_key question : string)
    (hits : list index_entry) : result response :=
  service (calls w1 ++ generation_calls api_key question hits)%list
          (request_for question hits).

(** The result of [generate_answer] with the answer text [text]. *)
Definition answer_with (text question : string) (hits : list index_entry)
  : RAGResult.t :=
  {| RAGResult.answer := text;
     RAGResult.sources := source_of <$> hits;
     RAGResult.retrieved_docs := ie_document <$> hits;
     RAGResult.distances :=
       (λ x, distance question (ie_document x)) <$> hits |}.

(** An outcome of the generation call after which [generate_answer]
    has an answer text: a response with at least one content block, or
    one of the three failures that it handles. *)
Definition handled (outcome : result response) : Prop :=
  match outcome with
  | Ok {| content := _ :: _ |}
  | Raise (AuthenticationError _)
  | Raise (RateLimitError _)
  | Raise (APIError _) => True
  | _ => False
  end.

(** A record that the index builder accepts: it can be formatted and its
    id is a string. *)
Definition valid_record (e : entry) : Prop :=
  is_ok (entry_to_document e) = true ∧ ∃ s, e !! "id" = Some (JStr s).

Definition record_id (e : entry) : string :=
  match e !! "id" with
  | Some (JStr s) => s
  | _ => EmptyString
  end.

Definition document_of (e : entry) : string :=
  match entry_to_document e with
  | Ok doc => doc
  | Raise _ => EmptyString
  end.

Definition metadata_of (e : entry) : gmap string json :=
  <["name" := default JNull (e !! "name")]>
    (<["type" := default JNull (e !! "type")]>
       (<["location" := default JNull (e !! "location")]>
          (<["contact" := default JNull (e !! "contact")]> ∅))).

(** The stored entry that the index builder makes of a valid record. *)
Definition index_entry_of (e : entry) : index_entry :=
  {| ie_id := record_id e;
     ie_document := document_of e;
     ie_metadata := metadata_of e |}.

(** The calls of one run of [get_or_create_collection] that builds the
    index from the records [data], and of one run that finds it
    populated. *)
Definition build_calls (data : list entry) : list event :=
  ([GetOrCreateCollection collection_name; Count collection_name;
    LoadCampusData]
   ++ (EntryToDocument <$> data)
   ++ [Add collection_name ((λ e, JStr (record_id e)) <$> data)
         (document_of <$> data)])%list.

Definition skip_calls : list event :=
  [GetOrCreateCollection collection_name; Count collection_name;
   Count collection_name].

Definition is_load (ev : event) : bool :=
  match ev with LoadCampusData => true | _ => false end.

Definition is_format (ev : event) : bool :=
  match ev with EntryToDocument _ => true | _ => false end.

Definition is_add (ev : event) : bool :=
  match ev with Add _ _ _ => true | _ => false end.

(** How many of the calls [t] satisfy [p]. *)
Fixpoint times (p : event → bool) (t : list event) : nat :=
  match t with
  | [] => 0
  | ev :: t' => ((if p ev then 1 else 0) + times p t')%nat
  end.

(** Two runs of [get_or_create_collection], one after the other. *)
Definition run_twice (reset1 reset2 : bool) (w : world)
  : result string * world :=
  get_or_create_collection reset2 (get_or_create_collection reset1 w).2.

(** The world with the store replaced by [store]. *)
Definition set_store (w : world) (store : gmap string (list index_entry))
  : world :=
  {| campus_json := campus_json w; chroma := store; calls := calls w |}.

(** *** The renderings, as the design document words them *)

(** The text of a value: a string stands for itself, any other value for
    what [str] makes of it. *)
Definition text_of (v : json) : string :=
  match v with
  | JStr s => s
  | _ => str_other v
  end.

(** The notes of a record, one per bullet: the elements of the list, none
    when the record has no [additional_info]. A string is taken code point
    by code point and a mapping key by key, as a loop over them does; no
    other value holds notes. *)
Definition notes_of (info : option json) : option (list json) :=
  match info with
  | None => Some []
  | Some (JList items) => Some items
  | Some (JStr s) => Some (JStr <$> Py.chars s)
  | Some (JDict fields) => Some ((λ kv, JStr kv.1) <$> fields)
  | Some _ => None
  end.

Definition small_letters : string := "abcdefghijklmnopqrstuvwxyz".

Definition capital_letters : string := "ABCDEFGHIJKLMNOPQRSTUVWXYZ".

(** The place of the character [a] in [alphabet], from 0. *)
Fixpoint place (a : ascii) (alphabet : string) : option nat :=
  match alphabet with
  | EmptyString => None
  | String b rest => if Ascii.eqb a b then Some 0%nat else S <$> place a rest
  end.

(** The letter of [other] at the place that [a] has in [alphabet]; [a]
    itself when it is not of [alphabet]. *)
Definition counterpart (alphabet other : string) (a : ascii) : ascii :=
  match place a alphabet with
  | Some n => default a (String.get n other)
  | None => a
  end.

Definition capital (a : ascii) : ascii :=
  counterpart small_letters capital_letters a.

Definition small (a : ascii) : ascii :=
  counterpart capital_letters small_letters a.

Definition is_letter (a : ascii) : bool :=
  bool_decide (is_Some (place a small_letters))
  || bool_decide (is_Some (place a capital_letters)).

(** The ASCII character that the code point [c] is: one byte whose high
    bit is not set. *)
Definition one_byte (c : string) : option ascii :=
  match c with
  | String (Ascii _ _ _ _ _ _ _ false as a) EmptyString => Some a
  | _ => None
  end.

(** Whether the code point [c] is a cased letter: a letter of ASCII, or
    what the Unicode database says of a code point outside ASCII. *)
Definition is_cased_letter (c : string) : bool :=
  match one_byte c with
  | Some a => is_letter a
  | None => Py.IsCased unicode c
  end.

(** Title case, code point by code point: the code point [c] at place [i]
    of [cs] is put in lower case when a cased letter stands before it, and
    in title case (a capital) when it starts a word. *)
Definition in_title (cs : list string) (i : nat) (c : string) : string :=
  let inside_word :=
    match i with
    | O => false
    | S j => from_option is_cased_letter false (cs !! j)
    end in
  match one_byte c with
  | Some a => String (if inside_word then small a else capital a) EmptyString
  | None =>
      if inside_word
      then Py.lower_ucs4 unicode (take i cs) c (drop (S i) cs)
      else Py.ToTitleFull unicode c
  end.

(** A space for the underscore, any other code point for itself. *)
Definition spaced (c : string) : string :=
  if String.eqb c "_" then " " else c.

(** The label of an hours period: the key with every underscore replaced
    by a space, in title case. *)
Definition label_of (key : string) : string :=
  let cs := spaced <$> Py.chars key in
  String.concat EmptyString (imap (in_title cs) cs).


(** The value of a decimal digit is its place among the ten digits; a
    numeral is a string of digits that is not empty. *)
Definition digits : string := "0123456789".

Definition digit_value (a : ascii) : option Z := Z.of_nat <$> place a digits.

Fixpoint numeral_from (acc : Z) (s : string) : option Z :=
  match s with
  | EmptyString => Some acc
  | String a s' =>
      match digit_value a with
      | Some d => numeral_from (10 * acc + d) s'
      | None => None
      end
  end.

Definition numeral (s : string) : option Z :=
  match s with
  | EmptyString => None
  | _ => numeral_from 0 s
  end.

(** [to_4_places d text]: [text] is the distance [d] written with four
    decimals. With [n] the whole number nearest to ten thousand times the
    absolute value of [d], the even one when two are as near, [text] is
    the sign of a negative [d], the decimal numeral of [n / 10000], a
    point, and [n mod 10000] in four digits. *)
Definition to_4_places (d : Q) (text : string) : Prop :=
  ∃ (n : Z) (decimals : string),
    (Qabs (inject_Z n - 10000 * Qabs d) <= 1 # 2)%Q
    ∧ ((Qabs (inject_Z n - 10000 * Qabs d) == 1 # 2)%Q → Z.even n = true)
    ∧ String.length decimals = 4%nat
    ∧ numeral decimals = Some (n mod 10000)
    ∧ text = (if Qle_bool 0 d then EmptyString else "-")
             +:+ pretty (n / 10000) +:+ "." +:+ decimals.

(** The block of the context for the document [doc] of rank [i], with the
    distance written as [shown]. *)
Definition block_text (i : Z) (shown doc : string) : string :=
  "--- Source " +:+ pretty i +:+ " (similarity distance: " +:+ shown
    +:+ ") ---" +:+ nl +:+ doc +:+ nl.

(** Modelled from the spec: the failure that the design document names for
    a record that lacks a required field, an exception of a class
    [MalformedRecordError]. No class of this name is defined in the
    code. *)
Definition MalformedRecordError : exn := OtherError "MalformedRecordError".

(** *** Vocabulary of the further properties *)

Fixpoint has_char (c : ascii) (s : string) : bool :=
  match s with
  | EmptyString => false
  | String c' s' => Ascii.eqb c' c || has_char c s'
  end.

(** The keys of a record that the formatter reads. *)
Definition document_fields : list string :=
  ["name"; "type"; "location"; "hours"; "description"; "contact";
   "additional_info"].

(** [keeps R m]: every run of [m], whether it returns or raises, takes a
    world to one that is [R]-related to it. *)
Definition keeps {A} (R : world → world → Prop) (m : M A) : Prop :=
  ∀ w r w', m w = (r, w') → R w w'.

(** The data file is as it was and the log was only appended to. *)
Definition extends (w w' : world) : Prop :=
  campus_json w' = campus_json w ∧ ∃ t, calls w' = (calls w ++ t)%list.

(** Nothing of the store has changed. *)
Definition read_only (w w' : world) : Prop :=
  chroma w' = chroma w ∧ extends w w'.

(** Nothing of the store has changed outside the collection [name]. *)
Definition touches_only (name : string) (w w' : world) : Prop :=
  (∀ k, k ≠ name → chroma w' !! k = chroma w !! k) ∧ extends w w'.

(** A record that passes the loop of the index builder: it can be
    formatted and has an id. *)
Definition loads (e : entry) : Prop :=
  is_ok (entry_to_document e) = true ∧ is_Some (e !! "id").

(** The exception that the loop raises for a record that does not pass. *)
Definition load_error (e : entry) : exn :=
  match entry_to_document e with
  | Raise err => err
  | Ok _ => KeyError "id"
  end.

Definition is_query (ev : event) : bool :=
  match ev with Query _ _ _ => true | _ => false end.

Definition is_request (ev : event) : bool :=
  match ev with MessagesCreate _ => true | _ => false end.

(** The key that the logging loop of [generate_answer] misses in the
    metadata of an entry without a name or without a type. *)
Definition missing_key (h : index_entry) : string :=
  match ie_metadata h !! "name" with
  | None => "name"
  | Some _ => "type"
  end.

(** A record whose name and type are strings. *)
Definition named_in_text (e : entry) : Prop :=
  ∃ name type, e !! "name" = Some (JStr name) ∧ e !! "type" = Some (JStr type).

(** The attribution that [ask] serves for a retrieved entry. *)
Definition served_source (h : index_entry) : server.Source :=
  {| server.id := ie_id h;
     server.name := py_str (default JNull (ie_metadata h !! "name"));
     server.type := py_str (default JNull (ie_metadata h !! "type")) |}.

(** The world after a first start-up on the data file of [w]. *)
Definition started (w : world) : world :=
  log (set_store w
         (<[collection_name := index_entry_of <$> campus_json w]> (chroma w)))
      (build_calls (campus_json w) ++ [Count collection_name])%list.

(** A line of the user that holds nothing but white space, and one that
    holds a word that ends the session. *)
Definition is_blank (line : string) : bool :=
  String.eqb (Py.strip line) EmptyString.

Definition is_quit (line : string) : bool :=
  bool_decide (Py.str_lower unicode (Py.strip line) ∈ quit_words).

(** The questions that the loop of [main] puts to the pipeline, for the
    lines typed: the lines that are not blank, stripped, up to the first
    word that ends the session. *)
Fixpoint questions (inputs : list string) : list string :=
  match inputs with
  | [] => []
  | line :: inputs' =>
      if is_blank line then questions inputs'
      else if is_quit line then []
      else Py.strip line :: questions inputs'
  end.

(** The process after the texts [out] have been written. *)
Definition written (p : process) (out : list string) : process :=
  {| stdout := (stdout p ++ out)%list; env := env p |}.

(** The line of [print_retrieved_docs] for the source of rank [i]. *)
Definition retrieved_line (i : Z) (doc_meta : Source.t) (dist : Q) : string :=
  ("  " +:+ color ("[" +:+ pretty i +:+ "]") YELLOW +:+ " "
   +:+ color (py_str (Source.name doc_meta)) BOLD +:+ " "
   +:+ DIM +:+ "(" +:+ py_str (Source.type doc_meta)
   +:+ ") — relevance ≈ " +:+ percent dist +:+ "%" +:+ RESET) +:+ nl.

(** What [main] prints before it opens the knowledge base. *)
Definition banner : list string :=
  ([WELCOME +:+ nl]
   ++ match key_present ANTHROPIC_API_KEY with
      | None => [color WARNING RED +:+ nl]
      | Some _ => []
      end
   ++ [DIM +:+ "Loading knowledge base into ChromaDB..." +:+ RESET +:+ nl])%list.

(** ** Properties *)

(** *** The document formatter *)

Lemma fold_left_snoc {A B} (step : list B → A → list B) (f : A → B)
    (xs : list A) (acc : list B) :
  (∀ ys x, step ys x = (ys ++ [f x])%list) →
  fold_left step xs acc = (acc ++ (f <$> xs))%list.
Proof.
  intros Hstep. revert acc.
  induction xs as [|x xs IH]; intros acc; simpl.
  - by rewrite app_nil_r.
  - rewrite IH, Hstep. by rewrite <- app_assoc.
Qed.

Lemma hours_lines_dict (e : entry) (fields : list (string * json)) :
  e !! "hours" = Some (JDict fields) →
  hours_lines e = (λ kv, hours_line kv.1 kv.2) <$> fields.
Proof.
  intros H. unfold hours_lines. rewrite H.
  rewrite (fold_left_snoc _ (λ kv, hours_line kv.1 kv.2)); [done|].
  by intros ys [period time].
Qed.

Lemma hours_lines_not_dict (e : entry) :
  (∀ fields, e !! "hours" ≠ Some (JDict fields)) → hours_lines e = [].
Proof.
  intros H. unfold hours_lines.
  destruct (e !! "hours") as [[]|] eqn:E; try done. by destruct (H fields).
Qed.

Lemma py_iter_raise (v : json) (err : exn) :
  py_iter v = Raise err → err = TypeError.
Proof. destruct v; simpl; congruence. Qed.

Lemma getitem_Some (d : gmap string json) (key : string) (v : json) :
  d !! key = Some v → getitem d key = Ok v.
Proof. unfold getitem. by intros ->. Qed.

Lemma getitem_None (d : gmap string json) (key : string) :
  d !! key = None → getitem d key = Raise (KeyError key).
Proof. unfold getitem. by intros ->. Qed.

Lemma hours_text_section (e : entry) :
  match hours_lines e with
  | [] => "  Not specified"
  | _ => Py.join nl (hours_lines e)
  end = hours_section (e !! "hours").
Proof.
  destruct (e !! "hours") as [v|] eqn:E.
  - destruct v; try (rewrite hours_lines_not_dict; [done|congruence]).
    rewrite (hours_lines_dict e fields E). by destruct fields.
  - rewrite hours_lines_not_dict; [done|congruence].
Qed.

Lemma entry_to_document_eq (e : entry) :
  entry_to_document e =
    items ← py_iter (default (JList []) (e !! "additional_info"));
    name ← getitem e "name";
    type ← getitem e "type";
    location ← getitem e "location";
    description ← getitem e "description";
    contact ← getitem e "contact";
    Ok (document_text name type location (hours_section (e !! "hours"))
          description contact
          (Py.join nl ((λ item, "  - " +:+ py_str item) <$> items))).
Proof. unfold entry_to_document. by rewrite hours_text_section. Qed.

(** Title case on ASCII text. *)
Lemma title_char_no_underscore (b : bool) (c : ascii) :
  Ascii.eqb c "_" = false →
  Ascii.eqb (if b then Py.lower c else Py.upper c) "_" = false.
Proof.
  destruct b; destruct c as [[] [] [] [] [] [] [] []]; vm_compute; congruence.
Qed.

Lemma title_char_idem (b : bool) (c : ascii) :
  let f := λ c, if b then Py.lower c else Py.upper c in
  f (f c) = f c ∧ Py.is_cased (f c) = Py.is_cased c.
Proof.
  destruct b; destruct c as [[] [] [] [] [] [] [] []]; vm_compute; done.
Qed.

Lemma title_from_length (b : bool) (s : string) :
  String.length (Py.title_from b s) = String.length s.
Proof. revert b. induction s as [|c s IH]; intros b; simpl; [done|]. by rewrite IH. Qed.

Lemma replace_length (old new : ascii) (s : string) :
  String.length (Py.replace old new s) = String.length s.
Proof. induction s as [|c s IH]; simpl; [done|]. by rewrite IH. Qed.

Lemma replace_no_old (old new : ascii) (s : string) :
  Ascii.eqb new old = false → has_char old (Py.replace old new s) = false.
Proof.
  intros Hne. induction s as [|c s IH]; simpl; [done|]. rewrite IH.
  destruct (Ascii.eqb c old) eqn:E; [by rewrite Hne|by rewrite E].
Qed.

Lemma replace_absent (old new : ascii) (s : string) :
  has_char old s = false → Py.replace old new s = s.
Proof.
  induction s as [|c s IH]; simpl; [done|].
  intros [Hc Hs]%orb_false_iff. by rewrite Hc, IH.
Qed.

Lemma title_from_no_underscore (b : bool) (s : string) :
  has_char "_" s = false → has_char "_" (Py.title_from b s) = false.
Proof.
  revert b. induction s as [|c s IH]; intros b; simpl; [done|].
  intros [Hc Hs]%orb_false_iff.
  by rewrite (title_char_no_underscore b c Hc), IH.
Qed.

Lemma title_from_idem (b : bool) (s : string) :
  Py.title_from b (Py.title_from b s) = Py.title_from b s.
Proof.
  revert b. induction s as [|c s IH]; intros b; simpl; [done|].
  destruct (title_char_idem b c) as [H1 H2]. simpl in H1, H2.
  by rewrite H1, H2, IH.
Qed.

Lemma concat_empty_cons (x : string) (xs : list string) :
  String.concat EmptyString (x :: xs) = x +:+ String.concat EmptyString xs.
Proof.
  destruct xs as [|y ys]; [|done]. cbn [String.concat].
  induction x as [|a x IH]; [done|].
  change (String a x +:+ EmptyString) with (String a (x +:+ EmptyString)).
  by f_equal.
Qed.

Lemma chars_ascii_cons (c : ascii) (s : string) :
  Py.is_ascii c = true →
  Py.chars (String c s) = String c EmptyString :: Py.chars s.
Proof.
  intros Hc. simpl. rewrite Hc. by destruct (Py.chars s).
Qed.

Lemma title_chars_ascii (u : Py.unicode) (s : string) (before : list string)
    (b : bool) :
  Py.ascii_only s = true →
  String.concat EmptyString (Py.title_chars u before b (Py.chars s))
  = Py.title_from b s.
Proof.
  revert before b. induction s as [|c s IH]; intros before b; [done|].
  simpl. intros [Hc Hs]%andb_true_iff.
  change (match Py.chars s with
          | [] => [String c EmptyString]
          | x :: xs =>
              if negb (Py.is_ascii c) && Py.continues s
              then String c x :: xs
              else String c EmptyString :: x :: xs
          end) with (Py.chars (String c s)).
  rewrite (chars_ascii_cons c s Hc). cbn [Py.title_chars].
  rewrite concat_empty_cons, IH by done.
  unfold Py.char_lower, Py.char_title, Py.char_is_cased, Py.ascii_of_char.
  rewrite Hc. by destruct b.
Qed.

Lemma replace_ascii_only (s : string) :
  Py.ascii_only (Py.replace "_" " " s) = Py.ascii_only s.
Proof.
  induction s as [|c s IH]; simpl; [done|]. rewrite IH.
  by destruct (Ascii.eqb_spec c "_") as [->|].
Qed.

Lemma str_title_ascii (u : Py.unicode) (s : string) :
  Py.ascii_only s = true → Py.str_title u s = Py.title s.
Proof. intros Hs. by apply title_chars_ascii. Qed.













Lemma text_of_py_str (v : json) : py_str v = text_of v.
Proof. done. Qed.


Lemma py_iter_notes (info : option json) (items : list json) :
  notes_of info = Some items ↔ py_iter (default (JList []) info) = Ok items.
Proof.
  destruct info as [[]|]; simpl; split; intros H; by simplify_eq.
Qed.




Lemma py_iter_no_notes (info : option json) :
  notes_of info = None → py_iter (default (JList []) info) = Raise TypeError.
Proof. by destruct info as [[]|]. Qed.

Local Ltac missing present k :=
  eexists; split; [reflexivity|]; split; [discriminate|];
  exists present, k; eexists; split; [reflexivity|];
  split; [repeat constructor; eauto|done].

(** C6, amended. A record that lacks one of the required fields [name],
    [type], [location], [description], [contact] is rejected:
    [entry_to_document] raises. When [additional_info] is absent or can be
    iterated, the exception is the [KeyError] of the first required field
    that the record lacks, in the order name, type, location,
    description, contact; when [additional_info] cannot be iterated, it
    is the [TypeError] of the loop over it, which comes first. The
    exception is never a [MalformedRecordError]. *)
Theorem entry_to_document_missing_field (e : entry) (field : string) :
  field ∈ required_fields →
  e !! field = None →
  ∃ err,
    entry_to_document e = Raise err
    ∧ err ≠ MalformedRecordError
    ∧ match notes_of (e !! "additional_info") with
      | None => err = TypeError
      | Some _ =>
          ∃ present key rest,
            required_fields = (present ++ key :: rest)%list
            ∧ Forall (λ k, is_Some (e !! k)) present
            ∧ e !! key = None
            ∧ err = KeyError key
      end.
Proof.
  intros Hreq Hmiss. rewrite entry_to_document_eq.
  destruct (notes_of (e !! "additional_info")) as [items|] eqn:Hnotes.
  2:{ rewrite (py_iter_no_notes _ Hnotes). by exists TypeError. }
  apply py_iter_notes in Hnotes. rewrite Hnotes. simpl.
  unfold required_fields in *.
  destruct (e !! "name") as [name|] eqn:E1;
    [rewrite (getitem_Some _ _ _ E1)
    |rewrite (getitem_None _ _ E1); missing (@nil string) "name"]; simpl.
  destruct (e !! "type") as [type|] eqn:E2;
    [rewrite (getitem_Some _ _ _ E2)
    |rewrite (getitem_None _ _ E2); missing ["name"] "type"]; simpl.
  destruct (e !! "location") as [location|] eqn:E3;
    [rewrite (getitem_Some _ _ _ E3)
    |rewrite (getitem_None _ _ E3); missing ["name"; "type"] "location"];
    simpl.
  destruct (e !! "description") as [description|] eqn:E4;
    [rewrite (getitem_Some _ _ _ E4)
    |rewrite (getitem_None _ _ E4);
     missing ["name"; "type"; "location"] "description"]; simpl.
  destruct (e !! "contact") as [contact|] eqn:E5;
    [rewrite (getitem_Some _ _ _ E5)
    |rewrite (getitem_None _ _ E5);
     missing ["name"; "type"; "location"; "description"] "contact"]; simpl.
  exfalso.
  repeat (apply elem_of_cons in Hreq as [->|Hreq]; [congruence|]).
  by apply elem_of_nil in Hreq.
Qed.

Lemma entry_to_document_ok (e : entry)
    (name type location description contact : json) (items : list json) :
  e !! "name" = Some name →
  e !! "type" = Some type →
  e !! "location" = Some location →
  e !! "description" = Some description →
  e !! "contact" = Some contact →
  py_iter (default (JList []) (e !! "additional_info")) = Ok items →
  entry_to_document e =
    Ok (document_text name type location (hours_section (e !! "hours"))
          description contact
          (Py.join nl ((λ item, "  - " +:+ py_str item) <$> items))).
Proof.
  intros H1 H2 H3 H4 H5 Hit. rewrite entry_to_document_eq, Hit.
  by rewrite (getitem_Some _ _ _ H1), (getitem_Some _ _ _ H2),
    (getitem_Some _ _ _ H3), (getitem_Some _ _ _ H4),
    (getitem_Some _ _ _ H5).
Qed.


(** C10. A record whose [hours] is present but is not a mapping (a plain
    string, say) is formatted all the same: the value is ignored, the
    hours section is the line ["  Not specified"], and the document is
    the one of the same record without [hours]. *)
Theorem entry_to_document_hours_not_mapping (e : entry) (hours : json)
    (name type location description contact : json) (items : list json) :
  e !! "hours" = Some hours →
  (∀ fields, hours ≠ JDict fields) →
  e !! "name" = Some name →
  e !! "type" = Some type →
  e !! "location" = Some location →
  e !! "description" = Some description →
  e !! "contact" = Some contact →
  py_iter (default (JList []) (e !! "additional_info")) = Ok items →
  entry_to_document e =
    Ok ("Name: " +:+ py_str name +:+ nl
        +:+ "Type: " +:+ py_str type +:+ nl
        +:+ "Location: " +:+ py_str location +:+ nl
        +:+ "Hours:" +:+ nl +:+ "  Not specified" +:+ nl
        +:+ "Description: " +:+ py_str description +:+ nl
        +:+ "Contact: " +:+ py_str contact +:+ nl
        +:+ "Additional Info:" +:+ nl
        +:+ Py.join nl ((λ item, "  - " +:+ py_str item) <$> items))
  ∧ entry_to_document (delete "hours" e) = entry_to_document e.
Proof.
  intros Hh Hnd H1 H2 H3 H4 H5 Hit.
  assert (hours_section (e !! "hours") = "  Not specified") as Hsec.
  { rewrite Hh. destruct hours; try done. by destruct (Hnd fields). }
  split.
  - rewrite (entry_to_document_ok e _ _ _ _ _ _ H1 H2 H3 H4 H5 Hit).
    by rewrite Hsec.
  - rewrite (entry_to_document_ok e _ _ _ _ _ _ H1 H2 H3 H4 H5 Hit).
    rewrite (entry_to_document_ok (delete "hours" e)
               name type location description contact items);
      try (by rewrite lookup_delete_ne).
    by rewrite Hsec, lookup_delete_eq.
Qed.

(** *** The context assembler *)

Lemma round_half_even_nearest (num : Z) (den : positive) :
  (0 ≤ num)%Z →
  (0 ≤ Py.round_half_even num den)%Z
  ∧ (2 * Z.abs (Py.round_half_even num den * Z.pos den - num) ≤ Z.pos den)%Z.
Proof.
  intros Hnum. unfold Py.round_half_even.
  pose proof (Z.div_mod num (Z.pos den) ltac:(lia)) as Hdm.
  pose proof (Z.mod_pos_bound num (Z.pos den) ltac:(lia)) as Hmod.
  pose proof (Z.div_pos num (Z.pos den) Hnum ltac:(lia)) as Hdiv.
  set (q := num / Z.pos den) in *. set (r := num mod Z.pos den) in *.
  destruct (Z.compare_spec (2 * r) (Z.pos den)) as [He|Hl|Hg].
  - destruct (Z.even q); split; nia.
  - split; nia.
  - split; nia.
Qed.

Lemma digit_is_digit (n : Z) : is_digit (Py.digit n) = true.
Proof.
  unfold Py.digit.
  pose proof (Z.mod_pos_bound n 10 ltac:(lia)) as Hb.
  assert (Z.to_N (n mod 10) < 10)%N as Hlt by lia.
  destruct (Z.to_N (n mod 10)) as [|p]; [done|].
  do 4 (destruct p as [p|p|]; try done; try lia).
Qed.

Lemma format_4f_shape (d : Q) :
  ∃ sign whole frac,
    Py.format_4f d = sign +:+ whole +:+ "." +:+ frac
    ∧ String.length frac = 4%nat
    ∧ all_digits frac = true.
Proof.
  unfold Py.format_4f. eexists _, _, _. split; [reflexivity|].
  split; [done|]. simpl. by rewrite !digit_is_digit.
Qed.

(** The digits that [format_4f] prints are those of the integer nearest
    to ten thousand times the absolute value of the distance. *)
Lemma format_4f_value (d : Q) :
  ∃ n : Z,
    (0 ≤ n)%Z
    ∧ (2 * Z.abs (n * Z.pos (Qden d) - Z.abs (Qnum d) * 10000)
       ≤ Z.pos (Qden d))%Z
    ∧ Py.format_4f d
      = (if (Qnum d <? 0)%Z then "-" else EmptyString)
          +:+ pretty (n / 10000) +:+ "." +:+ Py.four_digits (n mod 10000).
Proof.
  exists (Py.round_half_even (Z.abs (Qnum d) * 10000) (Qden d)).
  destruct (round_half_even_nearest (Z.abs (Qnum d) * 10000) (Qden d))
    as [H0 H1]; [lia|].
  by repeat split.
Qed.

Lemma fold_left_context_blocks (docs : list string)
    (metas : list (gmap string json)) (dists : list Q)
    (i : Z) (acc : list string) :
  length metas = length docs →
  length dists = length docs →
  fold_left
    (λ blocks '(i, (doc, meta, dist)),
       (blocks ++ [context_block_of i doc dist])%list)
    (Py.enumerate i (Py.zip3 docs metas dists)) acc
  = (acc ++ context_blocks i docs dists)%list.
Proof.
  revert metas dists i acc.
  induction docs as [|doc docs IH]; intros metas dists i acc Hm Hd.
  - simpl. by rewrite app_nil_r.
  - destruct metas as [|meta metas]; [done|].
    destruct dists as [|dist dists]; [done|].
    simpl in *. rewrite IH by lia. by rewrite <- app_assoc.
Qed.

Lemma context_blocks_length (docs : list string) (dists : list Q) (i : Z) :
  length dists = length docs →
  length (context_blocks i docs dists) = length docs.
Proof.
  revert dists i. induction docs as [|doc docs IH]; intros [|dist dists] i;
    simpl; try done.
  intros Hd. by rewrite IH by lia.
Qed.

Lemma context_blocks_lookup (docs : list string) (dists : list Q) (i : Z)
    (j : nat) (doc : string) (dist : Q) :
  docs !! j = Some doc →
  dists !! j = Some dist →
  context_blocks i docs dists !! j
  = Some (context_block_of (i + Z.of_nat j) doc dist).
Proof.
  revert dists i j.
  induction docs as [|doc0 docs IH]; intros [|dist0 dists] i j;
    try (by destruct j).
  destruct j as [|j]; simpl.
  - intros [= ->] [= ->]. by rewrite Z.add_0_r.
  - intros Hdoc Hdist. rewrite (IH _ _ _ Hdoc Hdist). do 2 f_equal. lia.
Qed.

Lemma join_blocks_nonempty (i : Z) (doc : string) (dist : Q)
    (blocks : list string) :
  Py.join nl (context_block_of i doc dist :: blocks) ≠ EmptyString.
Proof. unfold Py.join. simpl. by destruct blocks. Qed.

Lemma round_half_even_tie (num : Z) (den : positive) :
  (0 ≤ num)%Z →
  (2 * Z.abs (Py.round_half_even num den * Z.pos den - num) = Z.pos den)%Z →
  Z.even (Py.round_half_even num den) = true.
Proof.
  intros Hnum. unfold Py.round_half_even.
  pose proof (Z.div_mod num (Z.pos den) ltac:(lia)) as Hdm.
  pose proof (Z.mod_pos_bound num (Z.pos den) ltac:(lia)) as Hmod.
  set (q := num / Z.pos den) in *. set (r := num mod Z.pos den) in *.
  destruct (Z.compare_spec (2 * r) (Z.pos den)) as [He|Hl|Hg].
  - destruct (Z.even q) eqn:Hq; [done|]. intros _.
    rewrite Z.even_add, Hq. done.
  - intros H. nia.
  - intros H. nia.
Qed.

Lemma digit_value_digit (n : Z) : digit_value (Py.digit n) = Some (n mod 10).
Proof.
  unfold Py.digit.
  pose proof (Z.mod_pos_bound n 10 ltac:(lia)) as Hb.
  rewrite <- (Z2N.id (n mod 10)) at 2 by lia.
  assert (Z.to_N (n mod 10) < 10)%N as Hlt by lia.
  destruct (Z.to_N (n mod 10)) as [|p]; [done|].
  do 4 (destruct p as [p|p|]; try done; try lia).
Qed.

Lemma numeral_four_digits (m : Z) :
  (0 ≤ m < 10000)%Z → numeral (Py.four_digits m) = Some m.
Proof.
  intros Hm. unfold Py.four_digits, numeral. cbn [numeral_from].
  rewrite !digit_value_digit. f_equal.
  Z.to_euclidean_division_equations. lia.
Qed.

Lemma to_4_places_format_4f (d : Q) : to_4_places d (Py.format_4f d).
Proof.
  set (n := Py.round_half_even (Z.abs (Qnum d) * 10000) (Qden d)).
  destruct (round_half_even_nearest (Z.abs (Qnum d) * 10000) (Qden d))
    as [Hn Hnear]; [lia|].
  pose proof (round_half_even_tie (Z.abs (Qnum d) * 10000) (Qden d)
                ltac:(lia)) as Htie.
  fold n in Hn, Hnear, Htie.
  assert (Qabs (inject_Z n - 10000 * Qabs d)
          == Z.abs (n * Z.pos (Qden d) - Z.abs (Qnum d) * 10000) # Qden d)%Q
    as Hdiff.
  { destruct d as [num den]. unfold Qabs, Qminus, Qplus, Qopp, Qmult, Qeq,
      inject_Z. simpl. f_equal. lia. }
  exists n, (Py.four_digits (n mod 10000)).
  split; [|split; [|split; [|split]]].
  - rewrite Hdiff. unfold Qle. simpl. lia.
  - intros H. rewrite Hdiff in H. apply Htie. unfold Qeq in H. simpl in H.
    rewrite Z.mul_comm. etrans; [exact H|]. apply Z.mul_1_l.
  - done.
  - apply numeral_four_digits. apply Z.mod_pos_bound. lia.
  - unfold Py.format_4f. fold n. do 2 f_equal.
    unfold Qle_bool. cbn [Qnum Qden]. rewrite Z.mul_0_l, Z.mul_1_r.
    destruct (Z.ltb_spec (Qnum d) 0), (Z.leb_spec 0 (Qnum d)); done || lia.
Qed.

Lemma digit_value_range (a : ascii) (d : Z) :
  digit_value a = Some d → (0 ≤ d ≤ 9)%Z.
Proof.
  destruct a as [[] [] [] [] [] [] [] []]; vm_compute; intros [= <-];
    split; discriminate.
Qed.

Lemma digit_value_inj (a b : ascii) (d : Z) :
  digit_value a = Some d → digit_value b = Some d → a = b.
Proof.
  intros Ha Hb. pose proof (digit_value_range a d Ha) as Hd.
  assert (d = 0 ∨ d = 1 ∨ d = 2 ∨ d = 3 ∨ d = 4 ∨ d = 5 ∨ d = 6 ∨ d = 7
          ∨ d = 8 ∨ d = 9)%Z as Hcases by lia.
  assert (∀ c, digit_value c = Some d → c = Py.digit d) as Hdigit.
  { intros c Hc.
    destruct Hcases as [->|[->|[->|[->|[->|[->|[->|[->|[->| ->]]]]]]]]];
      destruct c as [[] [] [] [] [] [] [] []]; vm_compute in Hc;
      first [discriminate Hc | reflexivity]. }
  by rewrite (Hdigit a Ha), (Hdigit b Hb).
Qed.

Lemma numeral_from_bounds (s : string) (acc v : Z) :
  (0 ≤ acc)%Z →
  numeral_from acc s = Some v →
  (acc * 10 ^ Z.of_nat (String.length s) ≤ v
   < (acc + 1) * 10 ^ Z.of_nat (String.length s))%Z.
Proof.
  revert acc. induction s as [|a s IH]; intros acc Hacc;
    cbn [numeral_from String.length].
  - intros [= <-]. change (10 ^ Z.of_nat 0)%Z with 1%Z. lia.
  - destruct (digit_value a) as [d|] eqn:Hd; [|done].
    pose proof (digit_value_range a d Hd) as Hr. intros Hv.
    apply IH in Hv; [|lia].
    rewrite Nat2Z.inj_succ, Z.pow_succ_r by lia.
    assert (0 < 10 ^ Z.of_nat (String.length s))%Z by (apply Z.pow_pos_nonneg; lia).
    nia.
Qed.

Lemma numeral_from_inj (s1 s2 : string) (acc v : Z) :
  (0 ≤ acc)%Z →
  String.length s1 = String.length s2 →
  numeral_from acc s1 = Some v →
  numeral_from acc s2 = Some v →
  s1 = s2.
Proof.
  revert s2 acc. induction s1 as [|a1 s1 IH]; intros [|a2 s2] acc Hacc;
    cbn [numeral_from String.length]; try done.
  intros [= Hlen].
  destruct (digit_value a1) as [d1|] eqn:Hd1; [|done].
  destruct (digit_value a2) as [d2|] eqn:Hd2; [|done].
  pose proof (digit_value_range a1 d1 Hd1) as Hr1.
  pose proof (digit_value_range a2 d2 Hd2) as Hr2.
  intros H1 H2.
  pose proof (numeral_from_bounds s1 (10 * acc + d1) v ltac:(lia) H1) as B1.
  pose proof (numeral_from_bounds s2 (10 * acc + d2) v ltac:(lia) H2) as B2.
  rewrite Hlen in B1.
  assert (0 < 10 ^ Z.of_nat (String.length s2))%Z by (apply Z.pow_pos_nonneg; lia).
  assert (d1 = d2) as -> by nia.
  f_equal; [by eapply digit_value_inj|].
  by apply (IH s2 (10 * acc + d2)%Z); [lia| | |].
Qed.

Lemma nearest_even_unique (D X n1 n2 : Z) :
  (0 < D)%Z →
  (2 * Z.abs (n1 * D - X) ≤ D)%Z →
  (2 * Z.abs (n2 * D - X) ≤ D)%Z →
  ((2 * Z.abs (n1 * D - X) = D)%Z → Z.even n1 = true) →
  ((2 * Z.abs (n2 * D - X) = D)%Z → Z.even n2 = true) →
  n1 = n2.
Proof.
  intros HD H1 H2 E1 E2.
  assert (∀ a b,
    (a < b)%Z →
    (2 * Z.abs (a * D - X) ≤ D)%Z →
    (2 * Z.abs (b * D - X) ≤ D)%Z →
    ((2 * Z.abs (a * D - X) = D)%Z → Z.even a = true) →
    ((2 * Z.abs (b * D - X) = D)%Z → Z.even b = true) →
    False) as Hlt.
  { intros a b Hab Ha Hb Ea Eb.
    assert (b = a + 1)%Z as -> by nia.
    assert (Z.even a = true) as Hea by (apply Ea; nia).
    assert (Z.even (a + 1) = true) as Heb by (apply Eb; nia).
    rewrite Z.even_add, Hea in Heb. discriminate Heb. }
  destruct (Z.lt_trichotomy n1 n2) as [H|[H|H]]; [|done|].
  - destruct (Hlt n1 n2); done.
  - destruct (Hlt n2 n1); done.
Qed.

Lemma to_4_places_unique (d : Q) (text1 text2 : string) :
  to_4_places d text1 → to_4_places d text2 → text1 = text2.
Proof.
  intros (n1 & dec1 & Hn1 & Ht1 & Hl1 & Hv1 & ->)
         (n2 & dec2 & Hn2 & Ht2 & Hl2 & Hv2 & ->).
  assert (∀ n, Qabs (inject_Z n - 10000 * Qabs d)
               == Z.abs (n * Z.pos (Qden d) - Z.abs (Qnum d) * 10000) # Qden d)%Q
    as Hdiff.
  { intros n. destruct d as [num den].
    unfold Qabs, Qminus, Qplus, Qopp, Qmult, Qeq, inject_Z. simpl.
    f_equal. lia. }
  assert (∀ n,
    (Qabs (inject_Z n - 10000 * Qabs d) <= 1 # 2)%Q →
    ((Qabs (inject_Z n - 10000 * Qabs d) == 1 # 2)%Q → Z.even n = true) →
    (2 * Z.abs (n * Z.pos (Qden d) - Z.abs (Qnum d) * 10000)
     ≤ Z.pos (Qden d))%Z
    ∧ ((2 * Z.abs (n * Z.pos (Qden d) - Z.abs (Qnum d) * 10000)
        = Z.pos (Qden d))%Z → Z.even n = true)) as Hz.
  { intros n Hle Htie. rewrite Hdiff in Hle. unfold Qle in Hle.
    cbn [Qnum Qden] in Hle. split; [lia|].
    intros Heq. apply Htie. rewrite Hdiff. unfold Qeq. cbn [Qnum Qden]. lia. }
  destruct (Hz n1 Hn1 Ht1) as [L1 E1]. destruct (Hz n2 Hn2 Ht2) as [L2 E2].
  assert (n1 = n2) as <-
    by (eapply (nearest_even_unique (Z.pos (Qden d))); [lia|done..]).
  assert (dec1 = dec2) as <-; [|done].
  destruct dec1 as [|a1 dec1]; [done|]. destruct dec2 as [|a2 dec2]; [done|].
  eapply (numeral_from_inj _ _ 0%Z); [lia|congruence|done|done].
Qed.

Lemma context_block_of_text (i : Z) (doc : string) (dist : Q) :
  ∃ shown,
    to_4_places dist shown ∧ context_block_of i doc dist = block_text i shown doc.
Proof. exists (Py.format_4f dist). split; [apply to_4_places_format_4f|done]. Qed.

(** C8. For a retrieval result whose lists have one entry per retrieved
    document, [build_context_block] joins with a newline one block per
    document, in retrieval order. The block of the document at position
    [j] (from 0) is the header line with the rank [j + 1] and the distance
    written with four decimals (the nearest value with four decimals, the
    even one of two that are as near: one text and no other), then the
    document and a newline, so that consecutive blocks are one blank line
    apart. With zero
    documents the result is the empty text, and only then. The result
    depends on nothing but the documents and distances given. *)
Theorem build_context_block_renders (results : QueryResult.t)
    (docs : list string) (metas : list (gmap string json))
    (dists : list Q) :
  first (QueryResult.documents results) = Ok docs →
  first (QueryResult.metadatas results) = Ok metas →
  first (QueryResult.distances results) = Ok dists →
  length metas = length docs →
  length dists = length docs →
  ∃ blocks,
    build_context_block results = Ok (String.concat nl blocks)
    ∧ length blocks = length docs
    ∧ (∀ (j : nat) doc dist,
         docs !! j = Some doc →
         dists !! j = Some dist →
         ∃ shown,
           to_4_places dist shown
           ∧ (∀ other, to_4_places dist other → other = shown)
           ∧ blocks !! j =
               Some ("--- Source " +:+ pretty (Z.of_nat j + 1)
                     +:+ " (similarity distance: " +:+ shown
                     +:+ ") ---" +:+ nl +:+ doc +:+ nl))
    ∧ (docs = [] ↔ build_context_block results = Ok EmptyString)
    ∧ (∀ results',
         first (QueryResult.documents results') = Ok docs →
         first (QueryResult.metadatas results') = Ok metas →
         first (QueryResult.distances results') = Ok dists →
         build_context_block results' = build_context_block results).
Proof.
  intros Hdocs Hmetas Hdists Hm Hd.
  assert (∀ r,
    first (QueryResult.documents r) = Ok docs →
    first (QueryResult.metadatas r) = Ok metas →
    first (QueryResult.distances r) = Ok dists →
    build_context_block r = Ok (Py.join nl (context_blocks 1 docs dists)))
    as Heq.
  { intros r H1 H2 H3. unfold build_context_block.
    rewrite H1, H2, H3. simpl.
    by rewrite fold_left_context_blocks. }
  exists (context_blocks 1 docs dists).
  split; [by apply Heq|]. split; [by apply context_blocks_length|].
  split; [|split].
  - intros j doc dist Hj Hdj.
    destruct (context_block_of_text (1 + Z.of_nat j) doc dist)
      as (shown & Hshown & Hblock).
    exists shown. split; [done|]. split.
    { intros other Hother. by apply (to_4_places_unique dist). }
    rewrite (context_blocks_lookup _ _ _ _ _ _ Hj Hdj), Hblock.
    unfold block_text. by rewrite (Z.add_comm 1).
  - rewrite (Heq results Hdocs Hmetas Hdists). split.
    + by intros ->.
    + destruct docs as [|doc docs]; [done|].
      destruct dists as [|dist dists]; [done|].
      intros [= Hj]. by apply join_blocks_nonempty in Hj.
  - intros r H1 H2 H3.
    by rewrite (Heq r H1 H2 H3), (Heq results Hdocs Hmetas Hdists).
Qed.

(** *** The retriever *)

Lemma log_nil (w : world) : log w [] = w.
Proof. destruct w. unfold log. simpl. by rewrite app_nil_r. Qed.

Lemma log_log (w : world) (evs1 evs2 : list event) :
  log (log w evs1) evs2 = log w (evs1 ++ evs2).
Proof. unfold log. simpl. by rewrite app_assoc. Qed.

Lemma insert_by_distance_perm (text : string) (x : index_entry)
    (l : list index_entry) :
  insert_by_distance text x l ≡ₚ x :: l.
Proof.
  induction l as [|y l IH]; simpl; [done|].
  destruct (Qle_bool _ _); [done|].
  rewrite IH. apply Permutation_swap.
Qed.

Lemma nearest_first_perm (text : string) (l : list index_entry) :
  nearest_first text l ≡ₚ l.
Proof.
  induction l as [|x l IH]; simpl; [done|].
  by rewrite insert_by_distance_perm, IH.
Qed.

Lemma insert_by_distance_hd (text : string) (x a : index_entry)
    (l : list index_entry) :
  nearer text a x → HdRel (nearer text) a l →
  HdRel (nearer text) a (insert_by_distance text x l).
Proof.
  intros Hax Hal. destruct l as [|y l]; simpl.
  - by constructor.
  - destruct (Qle_bool _ _); constructor; [done|].
    by inversion Hal.
Qed.

Lemma insert_by_distance_sorted (text : string) (x : index_entry)
    (l : list index_entry) :
  Sorted (nearer text) l → Sorted (nearer text) (insert_by_distance text x l).
Proof.
  induction 1 as [|y l Hs IH Hhd]; simpl.
  - by repeat constructor.
  - destruct (Qle_bool _ _) eqn:Hle.
    + apply Qle_bool_iff in Hle. by repeat constructor.
    + constructor; [done|].
      apply insert_by_distance_hd; [|done].
      unfold nearer. apply Qlt_le_weak, Qnot_le_lt.
      intros Hxy. apply Qle_bool_iff in Hxy. congruence.
Qed.

Lemma nearest_first_sorted (text : string) (l : list index_entry) :
  Sorted (nearer text) (nearest_first text l).
Proof.
  induction l as [|x l IH]; simpl; [constructor|].
  by apply insert_by_distance_sorted.
Qed.

Lemma Sorted_take {A} (R : relation A) (l : list A) (n : nat) :
  Sorted R l → Sorted R (take n l).
Proof.
  intros Hs. revert n. induction Hs as [|x l Hs IH Hhd]; intros [|n];
    simpl; try constructor; [done|].
  destruct Hhd; destruct n; simpl; by constructor.
Qed.

Lemma query_ok (w : world) (collection text : string) (k : Z)
    (entries : list index_entry) :
  chroma w !! collection = Some entries →
  (0 < k)%Z →
  query collection text k w =
    (Ok (result_of_hits text
           (take (Z.to_nat k) (nearest_first text entries))),
     log w [Query collection text k]).
Proof.
  intros Hc Hk. unfold query, mbind, M_bind, bind, call, get_store. simpl.
  rewrite Hc. by destruct (Z.leb_spec k 0); [lia|].
Qed.

Lemma query_inv (w w1 : world) (collection text : string) (k : Z)
    (results : QueryResult.t) :
  query collection text k w = (Ok results, w1) →
  ∃ entries,
    chroma w !! collection = Some entries
    ∧ (0 < k)%Z
    ∧ results = result_of_hits text
                  (take (Z.to_nat k) (nearest_first text entries))
    ∧ w1 = log w [Query collection text k].
Proof.
  unfold query, mbind, M_bind, bind, call, get_store. simpl.
  destruct (chroma w !! collection) as [entries|] eqn:Hc; [|done].
  destruct (Z.leb_spec k 0); [done|].
  intros [= <- <-]. by exists entries.
Qed.

(** C4. On a collection of the store and for [k > 0],
    [query_knowledge_base] does not raise and returns, for some entries
    [hits] of the collection, their ids, documents, metadata and
    distances, where [hits] has [min k (size of the collection)]
    elements and the distances are in non-decreasing order. When [k] is
    at least the size, [hits] is all the entries; on an empty collection
    the result is empty. The store is left as it was. *)
Theorem query_knowledge_base_top_k (w : world) (collection text : string)
    (k : Z) (entries : list index_entry) :
  chroma w !! collection = Some entries →
  (0 < k)%Z →
  ∃ hits,
    query_knowledge_base collection text k w =
      (Ok {| QueryResult.ids := [ie_id <$> hits];
             QueryResult.documents := [ie_document <$> hits];
             QueryResult.metadatas := [ie_metadata <$> hits];
             QueryResult.distances :=
               [(λ x, distance text (ie_document x)) <$> hits] |},
       log w [Query collection text k])
    ∧ length hits = Nat.min (Z.to_nat k) (length entries)
    ∧ Sorted Qle ((λ x, distance text (ie_document x)) <$> hits)
    ∧ hits ⊆+ entries
    ∧ ((length entries ≤ Z.to_nat k)%nat → hits ≡ₚ entries)
    ∧ (entries = [] → hits = []).
Proof.
  intros Hc Hk. exists (take (Z.to_nat k) (nearest_first text entries)).
  split; [by apply query_ok|].
  split; [by rewrite length_take, (Permutation_length (nearest_first_perm _ _))|].
  split.
  { apply (Sorted_fmap _ (nearer text) Qle); [done|].
    apply Sorted_take, nearest_first_sorted. }
  split.
  { rewrite <- (nearest_first_perm text entries) at 2.
    apply sublist_submseteq, sublist_take. }
  split.
  { intros Hle. rewrite take_ge; [apply nearest_first_perm|].
    by rewrite (Permutation_length (nearest_first_perm _ _)). }
  intros ->. simpl. by rewrite take_nil.
Qed.

(** *** The orchestrator *)

Lemma build_context_block_eq (results : QueryResult.t)
    (docs : list string) (metas : list (gmap string json))
    (dists : list Q) :
  first (QueryResult.documents results) = Ok docs →
  first (QueryResult.metadatas results) = Ok metas →
  first (QueryResult.distances results) = Ok dists →
  length metas = length docs →
  length dists = length docs →
  build_context_block results
  = Ok (Py.join nl (context_blocks 1 docs dists)).
Proof.
  intros H1 H2 H3 Hm Hd. unfold build_context_block.
  rewrite H1, H2, H3. simpl. by rewrite fold_left_context_blocks.
Qed.

Lemma comprehension_ok {A B} (f : A → result B) (g : A → B) (xs : list A) :
  Forall (λ x, f x = Ok (g x)) xs → comprehension f xs = Ok (g <$> xs).
Proof.
  induction 1 as [|x xs Hx _ IH]; simpl; [done|]. by rewrite Hx, IH.
Qed.

Lemma comprehension_seq {A B} (f : nat → result B) (g : A → B)
    (xs : list A) (start : nat) :
  (∀ i x, xs !! i = Some x → f (start + i)%nat = Ok (g x)) →
  comprehension f (seq start (length xs)) = Ok (g <$> xs).
Proof.
  revert start. induction xs as [|x xs IH]; intros start H; simpl; [done|].
  rewrite <- (Nat.add_0_r start) at 1. rewrite (H 0%nat x eq_refl). simpl.
  rewrite (IH (S start)); [done|].
  intros i y Hi. rewrite <- (H (S i) y Hi). f_equal. lia.
Qed.

Lemma log_retrieval_ok (hits : list index_entry) (text : string) (i : Z) :
  Forall has_name_and_type hits →
  comprehension
    (λ '(i, (meta, dist)),
       _ ← getitem meta "name"; _ ← getitem meta "type"; Ok tt)
    (Py.enumerate i
       (Py.zip2 (ie_metadata <$> hits)
                ((λ x, distance text (ie_document x)) <$> hits)))
  = Ok ((λ _, tt) <$> hits).
Proof.
  intros H. revert i. induction H as [|h hits [[n Hn] [t Ht]] _ IH];
    intros i; simpl; [done|].
  rewrite (getitem_Some _ _ _ Hn), (getitem_Some _ _ _ Ht). simpl.
  by rewrite IH.
Qed.

Lemma sources_ok (hits : list index_entry) :
  Forall has_name_and_type hits →
  comprehension
    (source_at (ie_id <$> hits) (ie_metadata <$> hits))
    (seq 0 (length (ie_id <$> hits)))
  = Ok (source_of <$> hits).
Proof.
  intros H. rewrite length_fmap. apply comprehension_seq.
  intros i h Hi. simpl. unfold source_at, index.
  rewrite !list_lookup_fmap, Hi. simpl.
  rewrite Forall_lookup in H. destruct (H i h Hi) as [[n Hn] [t Ht]].
  rewrite (getitem_Some _ _ _ Hn), (getitem_Some _ _ _ Ht). simpl.
  unfold source_of. by rewrite Hn, Ht.
Qed.

Lemma bind_Ok {A B} (m : M A) (k : A → M B) (w w' : world) (a : A) :
  m w = (Ok a, w') → bind m k w = k a w'.
Proof. unfold bind. by intros ->. Qed.

Lemma bind_Raise {A B} (m : M A) (k : A → M B) (w w' : world) (e : exn) :
  m w = (Raise e, w') → bind m k w = (Raise e, w').
Proof. unfold bind. by intros ->. Qed.

Lemma call_run (ev : event) (w : world) : call ev w = (Ok tt, log w [ev]).
Proof. done. Qed.

Lemma messages_create_run (req : request) (w : world) :
  messages_create req w
  = (service (calls w ++ [MessagesCreate req])%list req,
     log w [MessagesCreate req]).
Proof. done. Qed.

Lemma log_retrieval_run (hits : list index_entry) (text : string) :
  Forall has_name_and_type hits →
  log_retrieval (ie_metadata <$> hits)
    ((λ x, distance text (ie_document x)) <$> hits) = Ok tt.
Proof.
  intros H. unfold log_retrieval. by rewrite (log_retrieval_ok _ _ _ H).
Qed.

Lemma generate_answer_run (w w1 : world) (question collection : string)
    (top_k : Z) (hits : list index_entry) :
  query_knowledge_base collection question top_k w
    = (Ok (result_of_hits question hits), w1) →
  hits ≠ [] →
  Forall has_name_and_type hits →
  generate_answer question collection top_k w =
    match key_present ANTHROPIC_API_KEY with
    | None =>
        (Ok {| RAGResult.answer := KEY_NOT_SET;
               RAGResult.sources := [];
               RAGResult.retrieved_docs := ie_document <$> hits;
               RAGResult.distances :=
                 (λ x, distance question (ie_document x)) <$> hits |}, w1)
    | Some api_key =>
        let w3 := log w1 (generation_calls api_key question hits) in
        match outcome_for w1 api_key question hits with
        | Ok {| content := text :: _ |} =>
            (Ok (answer_with text question hits), w3)
        | Ok {| content := [] |} => (Raise IndexError, w3)
        | Raise (AuthenticationError _) =>
            (Ok (answer_with INVALID_KEY question hits), w3)
        | Raise (RateLimitError _) =>
            (Ok (answer_with RATE_LIMITED question hits), w3)
        | Raise (APIError msg) =>
            (Ok (answer_with (API_ERROR_PREFIX +:+ msg) question hits), w3)
        | Raise e => (Raise e, w3)
        end
    end.
Proof.
  intros Hq Hne Hwf.
  unfold generate_answer, mbind, M_bind.
  rewrite (bind_Ok _ _ _ _ _ Hq).
  do 4 (erewrite bind_Ok; [|reflexivity]).
  destruct hits as [|h hits]; [done|].
  cbn [fmap list_fmap].
  erewrite bind_Ok;
    [|exact (f_equal (λ r, (r, w1))
               (log_retrieval_run (h :: hits) question Hwf))].
  assert (build_context_block (result_of_hits question (h :: hits))
          = Ok (Py.join nl
                  (context_blocks 1 (ie_document <$> h :: hits)
                     ((λ x, distance question (ie_document x))
                        <$> h :: hits)))) as Hctx.
  { apply (build_context_block_eq _ _ (ie_metadata <$> h :: hits));
      try done; by rewrite !length_fmap. }
  erewrite bind_Ok; [|exact (f_equal (λ r, (r, w1)) Hctx)].
  destruct (key_present ANTHROPIC_API_KEY) as [api_key|]; [|done].
  unfold Anthropic. rewrite (bind_Ok _ _ _ _ _ (call_run _ _)).
  pose proof (sources_ok (h :: hits) Hwf) as Hsrc.
  unfold outcome_for, generation_calls, request_for, try_except.
  set (req := {| model := _; max_tokens := _; system := _; messages := _ |}).
  unfold bind at 1 2. rewrite messages_create_run.
  replace (calls (log w1 [AnthropicClient api_key]) ++ [MessagesCreate req])%list
    with (calls w1 ++ [AnthropicClient api_key; MessagesCreate req])%list
    by (simpl; by rewrite <- app_assoc).
  rewrite log_log. cbn [app].
  destruct (service _ req) as [[[|text rest]]|e]; cbn [lift first content].
  - done.
  - etrans; [apply bind_Ok; exact (f_equal (λ r, (r, _)) Hsrc)|done].
  - destruct e; try done;
      (etrans; [apply bind_Ok; exact (f_equal (λ r, (r, _)) Hsrc)|done]).
Qed.

(** The entries that the index builder stores carry a name and a type, so
    the entries retrieved from a collection that it built do. *)
Lemma index_entry_of_named (e : entry) : has_name_and_type (index_entry_of e).
Proof.
  split; simpl; unfold metadata_of.
  - rewrite lookup_insert_eq. by eexists.
  - rewrite lookup_insert_ne by done. rewrite lookup_insert_eq. by eexists.
Qed.

Lemma built_hits_named (data : list entry) (text : string) (k : nat) :
  Forall has_name_and_type
    (take k (nearest_first text (index_entry_of <$> data))).
Proof.
  apply Forall_take.
  rewrite (nearest_first_perm text (index_entry_of <$> data)).
  apply Forall_fmap, Forall_forall. intros e _. apply index_entry_of_named.
Qed.

(** C1. When the retrieval returns zero documents, [generate_answer]
    returns the fixed text that asks the user to rephrase the question or
    to contact Student Services, with no sources, no retrieved documents
    and no distances. The only call made is the query: no client of the
    generation service is built and no request is sent. *)
Theorem generate_answer_no_documents (w w1 : world)
    (question collection : string) (top_k : Z) (results : QueryResult.t) :
  query_knowledge_base collection question top_k w = (Ok results, w1) →
  first (QueryResult.documents results) = Ok [] →
  generate_answer question collection top_k w =
    (Ok {| RAGResult.answer :=
             "I couldn't find any relevant information in the campus knowledge base. Please try rephrasing your question or contact Student Services for help.";
           RAGResult.sources := [];
           RAGResult.retrieved_docs := [];
           RAGResult.distances := [] |},
     log w [Query collection question top_k]).
Proof.
  intros Hq Hdocs.
  destruct (query_inv _ _ _ _ _ _ Hq) as (entries & _ & _ & -> & ->).
  injection Hdocs as Hdocs. apply fmap_nil_inv in Hdocs.
  unfold generate_answer, mbind, M_bind.
  rewrite (bind_Ok _ _ _ _ _ Hq), Hdocs.
  by do 4 (erewrite bind_Ok; [|reflexivity]).
Qed.

(** C2. When the retrieval returns at least one document and the API key
    is not set (or is empty), [generate_answer] returns the text that
    names the missing [ANTHROPIC_API_KEY], with no sources. The only call
    made is the query: the key is tested before the client of the
    generation service is built, and no request is sent. *)
Theorem generate_answer_missing_credential (w w1 : world)
    (question collection : string) (top_k : Z) (hits : list index_entry) :
  key_present ANTHROPIC_API_KEY = None →
  query_knowledge_base collection question top_k w
    = (Ok (result_of_hits question hits), w1) →
  hits ≠ [] →
  Forall has_name_and_type hits →
  generate_answer question collection top_k w =
    (Ok {| RAGResult.answer :=
             "ERROR: ANTHROPIC_API_KEY is not set. Please add it to your .env file."
               +:+ nl +:+ "See .env.example for the expected format.";
           RAGResult.sources := [];
           RAGResult.retrieved_docs := ie_document <$> hits;
           RAGResult.distances :=
             (λ x, distance question (ie_document x)) <$> hits |},
     log w [Query collection question top_k]).
Proof.
  intros Hkey Hq Hne Hwf.
  rewrite (generate_answer_run _ _ _ _ _ _ Hq Hne Hwf), Hkey.
  by destruct (query_inv _ _ _ _ _ _ Hq) as (entries & _ & _ & _ & ->).
Qed.

Lemma answer_texts_distinct (msg : string) :
  INVALID_KEY ≠ RATE_LIMITED
  ∧ API_ERROR_PREFIX +:+ msg ≠ INVALID_KEY
  ∧ API_ERROR_PREFIX +:+ msg ≠ RATE_LIMITED.
Proof. by repeat split. Qed.

(** C5, amended. With retrieved documents and an API key, a failure of
    the generation call is turned into an answer in three cases: an
    authentication failure and a rate-limit failure each give a fixed
    text, and any other API error gives a fixed prefix followed by the
    message of the error. The three texts differ from one another
    whatever the message. Any other exception leaves [generate_answer]
    as it is. *)
Theorem generate_answer_generation_failure (w w1 : world)
    (question collection : string) (top_k : Z) (hits : list index_entry)
    (api_key : string) (e : exn) :
  key_present ANTHROPIC_API_KEY = Some api_key →
  query_knowledge_base collection question top_k w
    = (Ok (result_of_hits question hits), w1) →
  hits ≠ [] →
  Forall has_name_and_type hits →
  outcome_for w1 api_key question hits = Raise e →
  generate_answer question collection top_k w =
    (match e with
     | AuthenticationError _ =>
         Ok (answer_with
               "ERROR: Invalid Anthropic API key. Please check your .env file."
               question hits)
     | RateLimitError _ =>
         Ok (answer_with
               "ERROR: Rate limit exceeded. Please wait a moment and try again."
               question hits)
     | APIError msg =>
         Ok (answer_with ("ERROR: Anthropic API error — " +:+ msg)
               question hits)
     | _ => Raise e
     end,
     log w1 (generation_calls api_key question hits))
  ∧ (∀ msg,
       INVALID_KEY ≠ RATE_LIMITED
       ∧ API_ERROR_PREFIX +:+ msg ≠ INVALID_KEY
       ∧ API_ERROR_PREFIX +:+ msg ≠ RATE_LIMITED).
Proof.
  intros Hkey Hq Hne Hwf Hout. split; [|apply answer_texts_distinct].
  rewrite (generate_answer_run _ _ _ _ _ _ Hq Hne Hwf), Hkey. simpl.
  rewrite Hout. by destruct e.
Qed.

(** C9. With [n ≥ 1] retrieved documents and an API key, whether the
    generation call answers or fails with an authentication, rate-limit
    or other API error, [generate_answer] returns a result with [n]
    sources: the source at each position has the id of the entry
    retrieved at that position and the name and type of its metadata.
    The result also carries the retrieved documents and their distances,
    in retrieval order. *)
Theorem generate_answer_attribution (w w1 : world)
    (question collection : string) (top_k : Z) (hits : list index_entry)
    (api_key : string) :
  key_present ANTHROPIC_API_KEY = Some api_key →
  query_knowledge_base collection question top_k w
    = (Ok (result_of_hits question hits), w1) →
  hits ≠ [] →
  Forall has_name_and_type hits →
  handled (outcome_for w1 api_key question hits) →
  ∃ r,
    generate_answer question collection top_k w
      = (Ok r, log w1 (generation_calls api_key question hits))
    ∧ length (RAGResult.sources r) = length hits
    ∧ (∀ (j : nat) h,
         hits !! j = Some h →
         ∃ name type,
           ie_metadata h !! "name" = Some name
           ∧ ie_metadata h !! "type" = Some type
           ∧ RAGResult.sources r !! j
             = Some {| Source.id := ie_id h;
                       Source.name := name;
                       Source.type := type |})
    ∧ RAGResult.retrieved_docs r = ie_document <$> hits
    ∧ RAGResult.distances r
      = (λ x, distance question (ie_document x)) <$> hits.
Proof.
  intros Hkey Hq Hne Hwf Hh.
  assert (∃ text,
    generate_answer question collection top_k w
    = (Ok (answer_with text question hits),
       log w1 (generation_calls api_key question hits))) as [text ->].
  { rewrite (generate_answer_run _ _ _ _ _ _ Hq Hne Hwf), Hkey. simpl.
    destruct (outcome_for _ _ _ _) as [[[|text rest]]|[]];
      try done; eauto. }
  eexists. split; [done|]. simpl.
  split; [by rewrite length_fmap|]. split; [|done].
  intros j h Hj. rewrite Forall_lookup in Hwf.
  destruct (Hwf j h Hj) as [[name Hn] [type Ht]].
  exists name, type. split; [done|]. split; [done|].
  rewrite list_lookup_fmap, Hj. simpl. unfold source_of.
  by rewrite Hn, Ht.
Qed.


(** *** The index builder *)

Lemma times_app (p : event → bool) (t1 t2 : list event) :
  times p (t1 ++ t2) = (times p t1 + times p t2)%nat.
Proof. induction t1 as [|ev t1 IH]; simpl; [done|]. rewrite IH. lia. Qed.

Lemma times_formats (p : event → bool) (data : list entry) :
  (∀ e, p (EntryToDocument e) = true) →
  times p (EntryToDocument <$> data) = length data.
Proof. intros H. induction data; csimpl; [done|]. by rewrite H, IHdata. Qed.

Lemma times_no_formats (p : event → bool) (data : list entry) :
  (∀ e, p (EntryToDocument e) = false) →
  times p (EntryToDocument <$> data) = 0%nat.
Proof. intros H. induction data; csimpl; [done|]. by rewrite H, IHdata. Qed.

Lemma valid_record_fields (e : entry) :
  valid_record e →
  entry_to_document e = Ok (document_of e)
  ∧ getitem e "id" = Ok (JStr (record_id e))
  ∧ getitem e "name" = Ok (default JNull (e !! "name"))
  ∧ getitem e "type" = Ok (default JNull (e !! "type"))
  ∧ getitem e "location" = Ok (default JNull (e !! "location"))
  ∧ getitem e "contact" = Ok (default JNull (e !! "contact")).
Proof.
  intros [Hok [s Hid]]. unfold document_of, record_id. rewrite Hid.
  rewrite (getitem_Some _ _ _ Hid).
  destruct (entry_to_document e) as [doc|err] eqn:Hdoc; [|done].
  rewrite entry_to_document_eq in Hdoc.
  destruct (py_iter _); [|done]. simpl in Hdoc.
  unfold getitem in *.
  destruct (e !! "name"); [|done]. simpl in Hdoc.
  destruct (e !! "type"); [|done]. simpl in Hdoc.
  destruct (e !! "location"); [|done]. simpl in Hdoc.
  destruct (e !! "description"); [|done]. simpl in Hdoc.
  destruct (e !! "contact"); [|done]. done.
Qed.

Lemma format_entries_run (data : list entry) (documents : list string)
    (batch_ids : list json) (metadatas : list (gmap string json))
    (w : world) :
  Forall valid_record data →
  format_entries data documents batch_ids metadatas w =
    (Ok ((documents ++ (document_of <$> data))%list,
         (batch_ids ++ ((λ e, JStr (record_id e)) <$> data))%list,
         (metadatas ++ (metadata_of <$> data))%list),
     log w (EntryToDocument <$> data)).
Proof.
  intros H. revert documents batch_ids metadatas w.
  induction H as [|e data He _ IH]; intros documents batch_ids metadatas w.
  - simpl. by rewrite !app_nil_r, log_nil.
  - destruct (valid_record_fields e He) as (H1 & H2 & H3 & H4 & H5 & H6).
    cbn [format_entries]. unfold mbind, M_bind.
    rewrite (bind_Ok _ _ _ _ _ (call_run _ _)).
    unfold lift at 1. erewrite bind_Ok; [|by rewrite H1].
    unfold lift at 1. erewrite bind_Ok; [|by rewrite H2].
    unfold lift at 1. erewrite bind_Ok; [|by rewrite H3].
    unfold lift at 1. erewrite bind_Ok; [|by rewrite H4].
    unfold lift at 1. erewrite bind_Ok; [|by rewrite H5].
    unfold lift at 1. erewrite bind_Ok; [|by rewrite H6].
    rewrite IH, log_log. cbn [fmap list_fmap app].
    by rewrite <- !app_assoc.
Qed.

Lemma string_ids_ok (sids : list string) :
  comprehension string_id (JStr <$> sids) = Ok sids.
Proof. induction sids as [|s sids IH]; csimpl; [done|]. by rewrite IH. Qed.

Lemma new_entries_of (data : list entry) :
  new_entries (record_id <$> data) (document_of <$> data)
    (metadata_of <$> data)
  = index_entry_of <$> data.
Proof.
  unfold new_entries. induction data as [|e data IH]; csimpl; [done|].
  by rewrite IH.
Qed.

Lemma client_get_or_create_collection_run (name : string) (w : world) :
  client_get_or_create_collection name w =
    (Ok name,
     log (set_store w (match chroma w !! name with
                       | Some _ => chroma w
                       | None => <[name := []]> (chroma w)
                       end))
         [GetOrCreateCollection name]).
Proof.
  unfold client_get_or_create_collection, mbind, M_bind.
  rewrite (bind_Ok _ _ _ _ _ (call_run _ _)).
  unfold bind, get_store, put_store, ret, log, set_store. simpl.
  destruct (chroma w !! name); [|done]. by destruct w.
Qed.

Lemma count_run (collection : string) (w : world)
    (entries : list index_entry) :
  chroma w !! collection = Some entries →
  count collection w
  = (Ok (Z.of_nat (length entries)), log w [Count collection]).
Proof.
  intros H. unfold count, mbind, M_bind.
  rewrite (bind_Ok _ _ _ _ _ (call_run _ _)).
  unfold bind, get_store. simpl. by rewrite H.
Qed.

Lemma add_run (collection : string) (w : world)
    (entries : list index_entry) (sids documents : list string)
    (metadatas : list (gmap string json)) :
  chroma w !! collection = Some entries →
  length documents = length sids →
  length metadatas = length sids →
  sids ≠ [] →
  NoDup (sids ++ (ie_id <$> entries)) →
  accepts (new_entries sids documents metadatas) = true →
  add collection documents (JStr <$> sids) metadatas w =
    (Ok tt,
     log (set_store w
            (<[collection :=
                 (entries ++ new_entries sids documents metadatas)%list]>
               (chroma w)))
         [Add collection (JStr <$> sids) documents]).
Proof.
  intros Hc Hd Hm Hne Hnodup Hacc. unfold add, mbind, M_bind.
  rewrite (bind_Ok _ _ _ _ _ (call_run _ _)).
  unfold bind at 1, get_store. simpl. rewrite Hc.
  unfold lift. rewrite (bind_Ok _ _ _ _ sids (f_equal (λ r, (r, _)) (string_ids_ok sids))).
  rewrite Hd, Hm, !Nat.eqb_refl. simpl.
  destruct sids as [|s sids]; [done|]. cbn [length Nat.eqb andb negb].
  by rewrite bool_decide_eq_true_2, Hacc.
Qed.

Lemma get_or_create_collection_skip (w : world)
    (entries : list index_entry) :
  chroma w !! collection_name = Some entries →
  entries ≠ [] →
  get_or_create_collection false w = (Ok collection_name, log w skip_calls).
Proof.
  intros Hc Hne. unfold get_or_create_collection, mbind, M_bind.
  erewrite bind_Ok; [|reflexivity].
  rewrite (bind_Ok _ _ _ _ _ (client_get_or_create_collection_run _ _)).
  rewrite Hc.
  assert (set_store w (chroma w) = w) as -> by by destruct w.
  erewrite bind_Ok; [|by apply (count_run _ _ entries)].
  destruct entries as [|x entries]; [done|].
  cbn [length]. rewrite Nat2Z.inj_succ.
  destruct (Z.eqb_spec (Z.succ (Z.of_nat (length entries))) 0); [lia|].
  erewrite bind_Ok; [|by apply (count_run _ _ (x :: entries))].
  unfold ret. by rewrite !log_log.
Qed.

Lemma get_or_create_collection_build (w : world) :
  campus_json w ≠ [] →
  Forall valid_record (campus_json w) →
  NoDup (record_id <$> campus_json w) →
  accepts (index_entry_of <$> campus_json w) = true →
  (chroma w !! collection_name = None
   ∨ chroma w !! collection_name = Some []) →
  get_or_create_collection false w =
    (Ok collection_name,
     log (set_store w
            (<[collection_name := index_entry_of <$> campus_json w]>
               (chroma w)))
         (build_calls (campus_json w))).
Proof.
  intros Hne Hvalid Hnodup Hacc Hc.
  unfold get_or_create_collection, mbind, M_bind.
  erewrite bind_Ok; [|reflexivity].
  rewrite (bind_Ok _ _ _ _ _ (client_get_or_create_collection_run _ _)).
  set (store := match chroma w !! collection_name with
                | Some _ => chroma w
                | None => <[collection_name := []]> (chroma w)
                end).
  assert (store !! collection_name = Some []) as Hs.
  { unfold store. destruct Hc as [-> | Hc]; [apply lookup_insert_eq|].
    by rewrite Hc. }
  assert (<[collection_name := index_entry_of <$> campus_json w]> store
          = <[collection_name := index_entry_of <$> campus_json w]>
              (chroma w)) as Hins.
  { unfold store. destruct (chroma w !! collection_name); [done|].
    apply insert_insert_eq. }
  erewrite bind_Ok; [|by apply (count_run _ _ [])].
  change (Z.of_nat (length []) =? 0)%Z with true. cbv iota.
  erewrite bind_Ok; [|reflexivity].
  cbn [log set_store campus_json].
  erewrite bind_Ok; [|by apply format_entries_run].
  cbn [app].
  rewrite (list_fmap_compose record_id JStr).
  erewrite bind_Ok.
  2:{ apply (add_run _ _ []); try done.
      - by rewrite !length_fmap.
      - by rewrite !length_fmap.
      - by destruct (campus_json w).
      - by rewrite app_nil_r.
      - by rewrite new_entries_of. }
  unfold ret. cbn [app]. rewrite new_entries_of.
  unfold log, set_store, build_calls. cbn [campus_json chroma calls].
  rewrite Hins, <- (list_fmap_compose record_id JStr).
  by rewrite <- !app_assoc.
Qed.

(** C3, amended. Called with [reset = False]: on a world whose collection
    holds at least one entry, [get_or_create_collection] returns the
    collection with the store as it was, after opening the collection and
    reading its count, without loading, formatting or inserting. On a
    world whose collection is absent or empty and whose data file holds a
    non-empty list of records that can each be formatted and have a
    string for id, with distinct ids, whose entries the store accepts as
    one batch, two runs in sequence both return the collection; the first
    loads the data once, formats each record once and inserts once, the
    second does none of these; the store after the second run is the
    store after the first, with one entry per record. *)
Theorem get_or_create_collection_idempotent (w : world) :
  campus_json w ≠ [] →
  Forall valid_record (campus_json w) →
  NoDup (record_id <$> campus_json w) →
  accepts (index_entry_of <$> campus_json w) = true →
  (chroma w !! collection_name = None
   ∨ chroma w !! collection_name = Some []) →
  (∀ w' entries,
     chroma w' !! collection_name = Some entries →
     entries ≠ [] →
     get_or_create_collection false w'
     = (Ok collection_name,
        {| campus_json := campus_json w';
           chroma := chroma w';
           calls := (calls w'
                     ++ [GetOrCreateCollection collection_name;
                         Count collection_name;
                         Count collection_name])%list |}))
  ∧ ∃ w1 w2 t1 t2,
      get_or_create_collection false w = (Ok collection_name, w1)
      ∧ get_or_create_collection false w1 = (Ok collection_name, w2)
      ∧ run_twice false false w = (Ok collection_name, w2)
      ∧ calls w1 = (calls w ++ t1)%list
      ∧ calls w2 = (calls w1 ++ t2)%list
      ∧ times is_load t1 = 1%nat
      ∧ times is_format t1 = length (campus_json w)
      ∧ times is_add t1 = 1%nat
      ∧ times is_load t2 = 0%nat
      ∧ times is_format t2 = 0%nat
      ∧ times is_add t2 = 0%nat
      ∧ chroma w1 !! collection_name
        = Some (index_entry_of <$> campus_json w)
      ∧ chroma w2 = chroma w1
      ∧ (count collection_name w1).1
        = Ok (Z.of_nat (length (campus_json w)))
      ∧ (count collection_name w2).1
        = Ok (Z.of_nat (length (campus_json w))).
Proof.
  intros Hne Hvalid Hnodup Hacc Hc.
  split; [intros w' entries; apply get_or_create_collection_skip|].
  pose proof (get_or_create_collection_build w Hne Hvalid Hnodup Hacc Hc)
    as H1.
  set (w1 := log _ (build_calls (campus_json w))) in H1.
  assert (chroma w1 !! collection_name
          = Some (index_entry_of <$> campus_json w)) as Hc1
    by apply lookup_insert_eq.
  assert (index_entry_of <$> campus_json w ≠ []) as Hne1
    by by destruct (campus_json w).
  pose proof (get_or_create_collection_skip w1 _ Hc1 Hne1) as H2.
  exists w1, (log w1 skip_calls), (build_calls (campus_json w)), skip_calls.
  split; [done|]. split; [done|].
  split; [unfold run_twice; by rewrite H1|].
  split; [done|]. split; [done|].
  unfold build_calls. rewrite !times_app.
  rewrite (times_formats is_format), !(times_no_formats is_load),
    !(times_no_formats is_add) by done.
  repeat (split; [done|]).
  split; [by rewrite (count_run _ _ _ Hc1), length_fmap|].
  by rewrite (count_run _ (log w1 skip_calls) _ Hc1), length_fmap.
Qed.

(** ** Further properties *)

(** *** The formatter *)

(** X1. On a key of ASCII characters, the label of an hours period is
    [Py.title] of the key with spaces for underscores. This label has the
    length of the key, contains no underscore, and is left as it is by a
    second normalisation. *)
Theorem hours_label_normal (period : string) :
  String.length (Py.title (Py.replace "_" " " period)) = String.length period
  ∧ has_char "_" (Py.title (Py.replace "_" " " period)) = false
  ∧ Py.title (Py.replace "_" " " (Py.title (Py.replace "_" " " period)))
    = Py.title (Py.replace "_" " " period)
  ∧ (Py.ascii_only period = true →
     ∀ time : string,
       hours_lines (<["hours" := JDict [(period, JStr time)]]> ∅)
       = ["  " +:+ Py.title (Py.replace "_" " " period) +:+ ": " +:+ time]).
Proof.
  assert (has_char "_" (Py.title (Py.replace "_" " " period)) = false) as Hno.
  { apply title_from_no_underscore, replace_no_old. reflexivity. }
  split; [|split; [exact Hno|split]].
  - unfold Py.title. by rewrite title_from_length, replace_length.
  - rewrite (replace_absent _ _ _ Hno). apply title_from_idem.
  - intros Hascii time. unfold hours_lines. rewrite lookup_insert_eq.
    cbn [fold_left app py_str].
    by rewrite str_title_ascii by by rewrite replace_ascii_only.
Qed.

(** X2. When [additional_info] can be iterated, the exception of a record
    that lacks required fields is the [KeyError] of the first of them in
    the order name, type, location, description, contact. *)
Theorem entry_to_document_first_missing (e : entry) (items : list json)
    (present : list string) (key : string) (rest : list string) :
  py_iter (default (JList []) (e !! "additional_info")) = Ok items →
  required_fields = (present ++ key :: rest)%list →
  Forall (λ k, is_Some (e !! k)) present →
  e !! key = None →
  entry_to_document e = Raise (KeyError key).
Proof.
  intros Hit Hsplit Hpresent Hmiss. rewrite entry_to_document_eq, Hit.
  unfold required_fields in Hsplit. unfold getitem. simpl.
  do 5 (destruct present as [|? present]; simpl in Hsplit;
        injection Hsplit as <- Hsplit;
        [by rewrite Hmiss|];
        apply Forall_cons in Hpresent as [[? Hv] Hpresent];
        rewrite Hv; clear Hv; simpl).
  by destruct present.
Qed.

(** X3. The document depends on the seven keys that the formatter reads
    and on nothing else of the record: not on its id, nor on any other
    key. *)
Theorem entry_to_document_reads_only (e e' : entry) :
  Forall (λ k, e' !! k = e !! k) document_fields →
  entry_to_document e' = entry_to_document e.
Proof.
  unfold document_fields. intros H.
  repeat (apply Forall_cons in H as [? H]).
  rewrite !entry_to_document_eq. unfold getitem. by simplify_eq/=; repeat
    match goal with H : _ !! _ = _ |- _ => rewrite H; clear H end.
Qed.

(** *** What a run keeps *)

Lemma extends_refl (w : world) : extends w w.
Proof. split; [done|]. exists []. by rewrite app_nil_r. Qed.

Lemma extends_trans (w1 w2 w3 : world) :
  extends w1 w2 → extends w2 w3 → extends w1 w3.
Proof.
  intros [Hd1 [t1 Ht1]] [Hd2 [t2 Ht2]]. split; [congruence|].
  exists (t1 ++ t2)%list. by rewrite Ht2, Ht1, app_assoc.
Qed.

Lemma extends_log (w : world) (evs : list event) : extends w (log w evs).
Proof. split; [done|]. by exists evs. Qed.

Global Instance read_only_preorder : PreOrder read_only.
Proof.
  split.
  - intros w. split; [done|apply extends_refl].
  - intros w1 w2 w3 [H1 E1] [H2 E2]. split; [congruence|].
    by eapply extends_trans.
Qed.

Global Instance touches_only_preorder (name : string) :
  PreOrder (touches_only name).
Proof.
  split.
  - intros w. split; [done|apply extends_refl].
  - intros w1 w2 w3 [H1 E1] [H2 E2]. split; [|by eapply extends_trans].
    intros k Hk. by rewrite H2, H1.
Qed.

Lemma read_only_touches (name : string) (w w' : world) :
  read_only w w' → touches_only name w w'.
Proof. intros [H E]. split; [|done]. intros k _. by rewrite H. Qed.

Section keeps.
Context (R : world → world → Prop) `{!PreOrder R}.

Lemma keeps_ret {A} (a : A) : keeps R (ret a).
Proof. intros w r w' [= <- <-]. reflexivity. Qed.

Lemma keeps_raise {A} (e : exn) : keeps R (@raise A e).
Proof. intros w r w' [= <- <-]. reflexivity. Qed.

Lemma keeps_lift {A} (x : result A) : keeps R (lift x).
Proof. intros w r w' [= <- <-]. reflexivity. Qed.

Lemma keeps_bind {A B} (m : M A) (k : A → M B) :
  keeps R m → (∀ a, keeps R (k a)) → keeps R (bind m k).
Proof.
  intros Hm Hk w r w'. unfold bind.
  destruct (m w) as [[a|e] w1] eqn:E.
  - intros Hr. etrans; [by eapply Hm|by eapply Hk].
  - intros [= <- <-]. by eapply Hm.
Qed.

Lemma keeps_bind_ok {A B} (m : M A) (k : A → M B) :
  keeps R m →
  (∀ w a w1, m w = (Ok a, w1) → keeps R (k a)) →
  keeps R (bind m k).
Proof.
  intros Hm Hk w r w'. unfold bind.
  destruct (m w) as [[a|e] w1] eqn:E.
  - intros Hr. etrans; [by eapply Hm|by eapply Hk].
  - intros [= <- <-]. by eapply Hm.
Qed.

Lemma keeps_try_except {A} (m : M A) (handler : exn → M A) :
  keeps R m → (∀ e, keeps R (handler e)) → keeps R (try_except m handler).
Proof.
  intros Hm Hh w r w'. unfold try_except.
  destruct (m w) as [[a|e] w1] eqn:E.
  - intros [= <- <-]. by eapply Hm.
  - intros Hr. etrans; [by eapply Hm|by eapply Hh].
Qed.

End keeps.

Lemma keeps_call (ev : event) : keeps read_only (call ev).
Proof.
  intros w r w' [= <- <-]. split; [done|]. apply (extends_log w [ev]).
Qed.

Lemma keeps_weaken {A} (name : string) (m : M A) :
  keeps read_only m → keeps (touches_only name) m.
Proof. intros H w r w' Hr. by eapply read_only_touches, H. Qed.

Lemma keeps_get_store : keeps read_only get_store.
Proof. intros w r w' [= <- <-]. reflexivity. Qed.

Lemma keeps_get_world : keeps read_only get_world.
Proof. intros w r w' [= <- <-]. reflexivity. Qed.

Ltac keeps_step :=
  first
    [ apply keeps_ret; typeclasses eauto
    | apply keeps_raise; typeclasses eauto
    | apply keeps_lift; typeclasses eauto
    | apply keeps_call | apply keeps_get_store | apply keeps_get_world
    | apply keeps_weaken
    | apply keeps_bind; [typeclasses eauto| |intros ?]
    | apply keeps_try_except; [typeclasses eauto| |intros ?] ].

Lemma keeps_count (collection : string) : keeps read_only (count collection).
Proof.
  unfold count, mbind, M_bind. repeat keeps_step.
  destruct (_ !! _); keeps_step.
Qed.

Lemma keeps_query (collection text : string) (k : Z) :
  keeps read_only (query collection text k).
Proof.
  unfold query, mbind, M_bind. repeat keeps_step.
  destruct (_ !! _); [|keeps_step]. destruct (_ <=? _)%Z; keeps_step.
Qed.

Lemma keeps_load_campus_data : keeps read_only load_campus_data.
Proof. unfold load_campus_data, mbind, M_bind. repeat keeps_step. Qed.

Lemma keeps_format_entries (data : list entry) (documents : list string)
    (batch_ids : list json) (metadatas : list (gmap string json)) :
  keeps read_only (format_entries data documents batch_ids metadatas).
Proof.
  revert documents batch_ids metadatas.
  induction data as [|e data IH]; intros documents batch_ids metadatas;
    cbn [format_entries]; unfold mbind, M_bind; [keeps_step|].
  repeat keeps_step. apply IH.
Qed.

Lemma keeps_delete_collection (name : string) :
  keeps (touches_only name) (delete_collection name).
Proof.
  intros w r w'. unfold delete_collection, mbind, M_bind, bind, call, get_store.
  simpl. destruct (chroma w !! name).
  - intros [= <- <-]. split; [|apply (extends_log w [_])].
    intros k Hk. simpl. by rewrite lookup_delete_ne.
  - intros [= <- <-]. split; [done|apply (extends_log w [_])].
Qed.

Lemma keeps_client_get_or_create_collection (name : string) :
  keeps (touches_only name) (client_get_or_create_collection name).
Proof.
  intros w r w'. rewrite client_get_or_create_collection_run.
  intros [= <- <-]. split; [|apply (extends_log w [_])].
  intros k Hk. simpl. destruct (chroma w !! name); [done|].
  by rewrite lookup_insert_ne.
Qed.

Lemma keeps_add (collection : string) (documents : list string)
    (batch_ids : list json) (metadatas : list (gmap string json)) :
  keeps (touches_only collection)
    (add collection documents batch_ids metadatas).
Proof.
  intros w r w'. unfold add, mbind, M_bind.
  rewrite (bind_Ok _ _ _ _ _ (call_run _ _)).
  unfold bind at 1, get_store. cbn [chroma log].
  destruct (chroma w !! collection) as [entries|];
    [|intros [= <- <-]; split; [done|apply (extends_log w [_])]].
  unfold bind, lift. destruct (comprehension string_id batch_ids) as [sids|];
    [|intros [= <- <-]; split; [done|apply (extends_log w [_])]].
  do 4 (destruct (_ : bool);
        [intros [= <- <-]; split; [done|apply (extends_log w [_])]|]).
  intros [= <- <-]. split; [|apply (extends_log w [_])].
  intros k Hk. simpl. by rewrite lookup_insert_ne.
Qed.

(** *** The index builder, further *)

(** X4. Whatever [reset] is and whether it returns or raises,
    [get_or_create_collection] leaves every other collection of the store
    and the data file as they were, and only appends to the log of
    calls. *)
Theorem get_or_create_collection_touches_only (reset : bool) (w : world) :
  (∀ name,
     name ≠ collection_name →
     chroma (get_or_create_collection reset w).2 !! name = chroma w !! name)
  ∧ campus_json (get_or_create_collection reset w).2 = campus_json w
  ∧ ∃ t, calls (get_or_create_collection reset w).2 = (calls w ++ t)%list.
Proof.
  assert (keeps (touches_only collection_name)
            (get_or_create_collection reset)) as Hkeeps.
  { unfold get_or_create_collection, mbind, M_bind.
    apply keeps_bind; [typeclasses eauto| |intros _].
    { destruct reset; [|keeps_step].
      apply keeps_try_except; [typeclasses eauto| |intros ?; keeps_step].
      apply keeps_delete_collection. }
    apply keeps_bind_ok; [typeclasses eauto| |intros w0 collection w1 Hc].
    { apply keeps_client_get_or_create_collection. }
    rewrite client_get_or_create_collection_run in Hc.
    injection Hc as <- _.
    apply keeps_bind; [typeclasses eauto| |intros n].
    { apply keeps_weaken, keeps_count. }
    destruct (n =? 0)%Z.
    - apply keeps_bind; [typeclasses eauto| |intros data].
      { apply keeps_weaken, keeps_load_campus_data. }
      apply keeps_bind; [typeclasses eauto| |intros [[documents ids] metas]].
      { apply keeps_weaken, keeps_format_entries. }
      apply keeps_bind; [typeclasses eauto| |intros _; keeps_step].
      apply keeps_add.
    - apply keeps_bind; [typeclasses eauto| |intros _; keeps_step].
      apply keeps_weaken, keeps_count. }
  destruct (get_or_create_collection reset w) as [r w'] eqn:Hrun.
  by destruct (Hkeeps w r w' Hrun) as (H1 & H2 & H3).
Qed.

Lemma delete_collection_run (w : world) :
  try_except (delete_collection collection_name) (λ _, ret tt) w
  = (Ok tt,
     log (set_store w (delete collection_name (chroma w)))
       [DeleteCollection collection_name]).
Proof.
  unfold try_except, delete_collection, mbind, M_bind, bind, call, get_store,
    put_store, raise, ret, log, set_store.
  simpl. destruct (chroma w !! collection_name) eqn:E; [done|].
  by rewrite delete_id.
Qed.

(** X5. Called with [reset = True] on a data file that holds a non-empty
    list of valid records with distinct ids, whose entries the store
    accepts as one batch, [get_or_create_collection]
    returns a collection made of exactly one entry per record, in the
    order of the file, whatever the collection held before and whether or
    not it existed: the old entries are discarded, and a collection that
    is absent is no error. It asks for the deletion first, then builds as
    a first run does. *)
Theorem get_or_create_collection_reset (w : world) :
  campus_json w ≠ [] →
  Forall valid_record (campus_json w) →
  NoDup (record_id <$> campus_json w) →
  accepts (index_entry_of <$> campus_json w) = true →
  get_or_create_collection true w =
    (Ok collection_name,
     {| campus_json := campus_json w;
        chroma := <[collection_name := index_entry_of <$> campus_json w]>
                    (chroma w);
        calls := (calls w ++ DeleteCollection collection_name
                    :: build_calls (campus_json w))%list |}).
Proof.
  intros Hne Hvalid Hnodup Hacc.
  pose (w0 := log (set_store w (delete collection_name (chroma w)))
                [DeleteCollection collection_name]).
  assert (get_or_create_collection true w = get_or_create_collection false w0)
    as ->.
  { unfold get_or_create_collection, mbind, M_bind.
    rewrite (bind_Ok _ _ _ _ _ (delete_collection_run w)).
    by erewrite (bind_Ok (ret tt)). }
  rewrite (get_or_create_collection_build w0 Hne Hvalid Hnodup Hacc).
  2:{ left. apply lookup_delete_eq. }
  unfold w0, log, set_store. cbn [campus_json chroma calls].
  by rewrite insert_delete_eq, <- app_assoc.
Qed.

Lemma loads_fields (e : entry) :
  loads e →
  entry_to_document e = Ok (document_of e)
  ∧ getitem e "id" = Ok (default JNull (e !! "id"))
  ∧ getitem e "name" = Ok (default JNull (e !! "name"))
  ∧ getitem e "type" = Ok (default JNull (e !! "type"))
  ∧ getitem e "location" = Ok (default JNull (e !! "location"))
  ∧ getitem e "contact" = Ok (default JNull (e !! "contact")).
Proof.
  intros [Hok [i Hid]]. unfold document_of.
  rewrite (getitem_Some _ _ _ Hid), Hid.
  destruct (entry_to_document e) as [doc|err] eqn:Hdoc; [|done].
  rewrite entry_to_document_eq in Hdoc.
  destruct (py_iter _); [|done]. simpl in Hdoc.
  unfold getitem in *.
  destruct (e !! "name"); [|done]. simpl in Hdoc.
  destruct (e !! "type"); [|done]. simpl in Hdoc.
  destruct (e !! "location"); [|done]. simpl in Hdoc.
  destruct (e !! "description"); [|done]. simpl in Hdoc.
  destruct (e !! "contact"); [|done]. done.
Qed.

Lemma format_entries_stops (good : list entry) (bad : entry)
    (rest : list entry) (documents : list string) (batch_ids : list json)
    (metadatas : list (gmap string json)) (w : world) :
  Forall loads good →
  ¬ loads bad →
  format_entries (good ++ bad :: rest)%list documents batch_ids metadatas w
  = (Raise (load_error bad), log w (EntryToDocument <$> (good ++ [bad])%list)).
Proof.
  intros Hgood Hbad. revert documents batch_ids metadatas w.
  induction Hgood as [|e good He _ IH]; intros documents batch_ids metadatas w.
  - cbn [app format_entries]. unfold mbind, M_bind.
    rewrite (bind_Ok _ _ _ _ _ (call_run _ _)).
    unfold load_error, loads in *.
    destruct (entry_to_document bad) as [doc|err] eqn:Hdoc;
      [|by erewrite bind_Raise].
    erewrite bind_Ok; [|reflexivity].
    destruct (bad !! "id") as [i|] eqn:Hid.
    { destruct Hbad. by split. }
    erewrite bind_Raise; [done|]. unfold lift. by rewrite (getitem_None _ _ Hid).
  - destruct (loads_fields e He) as (H1 & H2 & H3 & H4 & H5 & H6).
    cbn [app format_entries]. unfold mbind, M_bind.
    rewrite (bind_Ok _ _ _ _ _ (call_run _ _)).
    unfold lift at 1. erewrite bind_Ok; [|by rewrite H1].
    unfold lift at 1. erewrite bind_Ok; [|by rewrite H2].
    unfold lift at 1. erewrite bind_Ok; [|by rewrite H3].
    unfold lift at 1. erewrite bind_Ok; [|by rewrite H4].
    unfold lift at 1. erewrite bind_Ok; [|by rewrite H5].
    unfold lift at 1. erewrite bind_Ok; [|by rewrite H6].
    by rewrite IH, log_log.
Qed.

(** X6. When the collection is absent or empty and the data file holds a
    record that cannot be formatted or has no id, the run with
    [reset = False] raises the exception of the first such record; the
    records after it are not formatted, no insertion is asked for, and the
    collection is left in the store, empty. *)
Theorem get_or_create_collection_bad_record (w : world)
    (good : list entry) (bad : entry) (rest : list entry) :
  (chroma w !! collection_name = None
   ∨ chroma w !! collection_name = Some []) →
  campus_json w = (good ++ bad :: rest)%list →
  Forall loads good →
  ¬ loads bad →
  get_or_create_collection false w =
    (Raise (load_error bad),
     {| campus_json := campus_json w;
        chroma := <[collection_name := []]> (chroma w);
        calls := (calls w
                  ++ [GetOrCreateCollection collection_name;
                      Count collection_name; LoadCampusData]
                  ++ (EntryToDocument <$> (good ++ [bad])%list))%list |}).
Proof.
  intros Hc Hdata Hgood Hbad.
  unfold get_or_create_collection, mbind, M_bind.
  erewrite bind_Ok; [|reflexivity].
  rewrite (bind_Ok _ _ _ _ _ (client_get_or_create_collection_run _ _)).
  set (store := match chroma w !! collection_name with
                | Some _ => chroma w
                | None => <[collection_name := []]> (chroma w)
                end).
  assert (store = <[collection_name := []]> (chroma w)) as Hs.
  { unfold store. destruct Hc as [-> | Hc]; [done|].
    rewrite Hc. by rewrite insert_id. }
  assert (store !! collection_name = Some []) as Hl
    by (rewrite Hs; apply lookup_insert_eq).
  erewrite bind_Ok; [|by apply (count_run _ _ [])].
  change (Z.of_nat (length []) =? 0)%Z with true. cbv iota.
  erewrite bind_Ok; [|reflexivity].
  cbn [log set_store campus_json]. rewrite Hdata.
  erewrite bind_Raise; [|by apply format_entries_stops].
  unfold log. cbn [campus_json chroma calls].
  cbn [set_store chroma calls]. by rewrite Hs, <- !app_assoc.
Qed.

(** *** The context assembler and the orchestrator, further *)

Lemma enumerate_length {A} (start : Z) (xs : list A) :
  length (Py.enumerate start xs) = length xs.
Proof.
  revert start. induction xs as [|x xs IH]; intros start; simpl; [done|].
  by rewrite IH.
Qed.

Lemma zip3_length {A B C} (xs : list A) (ys : list B) (zs : list C) :
  length (Py.zip3 xs ys zs)
  = Nat.min (length xs) (Nat.min (length ys) (length zs)).
Proof.
  revert ys zs. induction xs as [|x xs IH]; intros [|y ys] [|z zs];
    simpl; try done.
  by rewrite IH.
Qed.

Lemma zip3_blocks_lookup (docs : list string)
    (metas : list (gmap string json)) (dists : list Q) (i : Z) (j : nat)
    (doc : string) (dist : Q) :
  (j < Nat.min (length docs) (Nat.min (length metas) (length dists)))%nat →
  docs !! j = Some doc →
  dists !! j = Some dist →
  ((λ '(i, (doc, meta, dist)), context_block_of i doc dist)
     <$> Py.enumerate i (Py.zip3 docs metas dists)) !! j
  = Some (context_block_of (i + Z.of_nat j) doc dist).
Proof.
  revert metas dists i j.
  induction docs as [|doc0 docs IH]; intros [|meta0 metas] [|dist0 dists] i j;
    simpl; try lia.
  destruct j as [|j]; simpl.
  - intros _ [= ->] [= ->]. by rewrite Z.add_0_r.
  - intros Hj Hdoc Hdist.
    etrans; [exact (IH metas dists (i + 1)%Z j ltac:(lia) Hdoc Hdist)|].
    do 2 f_equal. lia.
Qed.

(** X7. [build_context_block] reads the first inner list of documents, of
    metadata and of distances, and raises [IndexError] when one of the
    three outer lists is empty. Otherwise it never raises, and it makes
    one block for each position up to the length of the shortest of the
    three lists, the block of the document and of the distance at that
    position: what a longer list holds beyond it is silently left out of
    the context. *)
Theorem build_context_block_shortest (results : QueryResult.t) :
  match first (QueryResult.documents results),
        first (QueryResult.metadatas results),
        first (QueryResult.distances results) with
  | Ok docs, Ok metas, Ok dists =>
      ∃ blocks,
        build_context_block results = Ok (String.concat nl blocks)
        ∧ length blocks
          = Nat.min (length docs) (Nat.min (length metas) (length dists))
        ∧ ∀ (j : nat) doc dist,
            (j < length blocks)%nat →
            docs !! j = Some doc →
            dists !! j = Some dist →
            ∃ shown,
              to_4_places dist shown
              ∧ blocks !! j
                = Some ("--- Source " +:+ pretty (Z.of_nat j + 1)
                        +:+ " (similarity distance: " +:+ shown
                        +:+ ") ---" +:+ nl +:+ doc +:+ nl)
  | _, _, _ => build_context_block results = Raise IndexError
  end.
Proof.
  unfold build_context_block.
  destruct (QueryResult.documents results) as [|docs ?]; [done|].
  destruct (QueryResult.metadatas results) as [|metas ?]; [done|].
  destruct (QueryResult.distances results) as [|dists ?]; [done|].
  simpl.
  exists ((λ '(i, (doc, meta, dist)), context_block_of i doc dist)
            <$> Py.enumerate 1 (Py.zip3 docs metas dists)).
  assert (length ((λ '(i, (doc, meta, dist)), context_block_of i doc dist)
                    <$> Py.enumerate 1 (Py.zip3 docs metas dists))
          = Nat.min (length docs) (Nat.min (length metas) (length dists)))
    as Hlen by by rewrite length_fmap, enumerate_length, zip3_length.
  split; [|split; [exact Hlen|]].
  - rewrite (fold_left_snoc _
               (λ '(i, (doc, meta, dist)), context_block_of i doc dist));
      [done|].
    by intros ys [i [[doc meta] dist]].
  - intros j doc dist Hj Hdoc Hdist. rewrite Hlen in Hj.
    destruct (context_block_of_text (1 + Z.of_nat j) doc dist)
      as (shown & Hshown & Hblock).
    exists shown. split; [done|].
    rewrite (zip3_blocks_lookup _ _ _ _ _ _ _ Hj Hdoc Hdist), Hblock.
    unfold block_text. by rewrite (Z.add_comm 1).
Qed.

Lemma query_world (collection text : string) (k : Z) (w : world) :
  (query collection text k w).2 = log w [Query collection text k].
Proof.
  unfold query, mbind, M_bind, bind, call, get_store. simpl.
  destruct (chroma w !! collection); [|done]. by destruct (k <=? 0)%Z.
Qed.

Lemma comprehension_length {A B} (f : A → result B) (xs : list A)
    (ys : list B) :
  comprehension f xs = Ok ys → length ys = length xs.
Proof.
  revert ys. induction xs as [|x xs IH]; intros ys; simpl.
  - by intros [= <-].
  - destruct (f x); [|done]. simpl.
    destruct (comprehension f xs) as [ys'|]; [|done]. simpl.
    intros [= <-]. simpl. by rewrite (IH ys').
Qed.

(** The runs of [generate_answer], by cases. *)
Lemma generate_answer_cases (question collection : string) (top_k : Z)
    (w : world) :
  let w1 := log w [Query collection question top_k] in
  let run := generate_answer question collection top_k w in
  (run.2 = w1
   ∧ ∀ r, run.1 = Ok r →
          RAGResult.sources r = []
          ∧ (length (RAGResult.retrieved_docs r) ≤ Z.to_nat top_k)%nat)
  ∨ (∃ api_key hits,
       key_present ANTHROPIC_API_KEY = Some api_key
       ∧ (length hits ≤ Z.to_nat top_k)%nat
       ∧ run.2 = log w1 (generation_calls api_key question hits)
       ∧ ∀ r, run.1 = Ok r →
              length (RAGResult.sources r) = length hits
              ∧ RAGResult.retrieved_docs r = ie_document <$> hits
              ∧ length (RAGResult.distances r) = length hits).
Proof.
  intros w1 run. unfold run.
  destruct (query_knowledge_base collection question top_k w)
    as [[results|e] w1'] eqn:Hq.
  2:{ left. unfold generate_answer, mbind, M_bind.
      erewrite bind_Raise; [|exact Hq].
      pose proof (query_world collection question top_k w) as Hw.
      unfold query_knowledge_base in Hq. rewrite Hq in Hw.
      simpl in Hw. by rewrite Hw. }
  destruct (query_inv _ _ _ _ _ _ Hq) as (entries & Hc & Hk & -> & ->).
  remember (take (Z.to_nat top_k) (nearest_first question entries))
    as hits eqn:Hhits.
  assert (length hits ≤ Z.to_nat top_k)%nat as Hlen
    by (rewrite Hhits, length_take; lia).
  clear Hhits.
  unfold generate_answer, mbind, M_bind.
  rewrite (bind_Ok _ _ _ _ _ Hq).
  do 4 (erewrite bind_Ok; [|reflexivity]).
  destruct hits as [|h hits].
  { left. split; [done|]. intros r [= <-]. simpl. split; [done|lia]. }
  cbn [fmap list_fmap].
  destruct (log_retrieval _ _) as [[]|e] eqn:Hlog.
  2:{ left. by erewrite bind_Raise; [|reflexivity]. }
  erewrite bind_Ok; [|reflexivity].
  assert (build_context_block (result_of_hits question (h :: hits))
          = Ok (Py.join nl
                  (context_blocks 1 (ie_document <$> h :: hits)
                     ((λ x, distance question (ie_document x))
                        <$> h :: hits)))) as Hctx.
  { apply (build_context_block_eq _ _ (ie_metadata <$> h :: hits));
      try done; by rewrite !length_fmap. }
  erewrite bind_Ok; [|exact (f_equal (λ r, (r, w1)) Hctx)].
  destruct (key_present ANTHROPIC_API_KEY) as [api_key|] eqn:Hkey.
  2:{ left. split; [done|]. intros r [= <-]. simpl. split; [done|].
      by rewrite length_fmap. }
  right. exists api_key, (h :: hits). split; [done|]. split; [done|].
  unfold Anthropic. rewrite (bind_Ok _ _ _ _ _ (call_run _ _)).
  unfold generation_calls, request_for.
  set (req := {| model := _; max_tokens := _; system := _; messages := _ |}).
  match goal with
  | |- (?e).2 = _ ∧ _ =>
      assert (∃ out,
                e = (out, log w1 [AnthropicClient api_key; MessagesCreate req])
                ∧ ∀ r, out = Ok r →
                       length (RAGResult.sources r) = length (h :: hits)
                       ∧ RAGResult.retrieved_docs r = ie_document <$> h :: hits
                       ∧ length (RAGResult.distances r) = length (h :: hits))
        as (out & -> & Hout); [|done]
  end.
  assert (∀ text : string,
    ∃ out,
      bind
        (lift (comprehension
                 (source_at (ie_id h :: (ie_id <$> hits))
                    (ie_metadata h :: (ie_metadata <$> hits)))
                 (seq 0 (length (ie_id h :: (ie_id <$> hits))))))
        (λ sources,
           ret {| RAGResult.answer := text;
                  RAGResult.sources := sources;
                  RAGResult.retrieved_docs :=
                    ie_document h :: (ie_document <$> hits);
                  RAGResult.distances :=
                    distance question (ie_document h)
                    :: ((λ x, distance question (ie_document x)) <$> hits) |})
        (log w1 [AnthropicClient api_key; MessagesCreate req])
      = (out, log w1 [AnthropicClient api_key; MessagesCreate req])
      ∧ ∀ r, out = Ok r →
             length (RAGResult.sources r) = length (h :: hits)
             ∧ RAGResult.retrieved_docs r = ie_document <$> h :: hits
             ∧ length (RAGResult.distances r) = length (h :: hits))
    as Hrest.
  { intros text. unfold bind, lift, ret.
    destruct (comprehension _ _) as [sources|] eqn:Hc';
      (eexists; split; [reflexivity|]); [|done].
    intros r [= <-]. simpl. split; [|split; [done|by rewrite length_fmap]].
    rewrite (comprehension_length _ _ _ Hc'), length_seq. simpl.
    by rewrite length_fmap. }
  unfold try_except. unfold bind at 1 2.
  rewrite messages_create_run, log_log. cbn [app].
  destruct (service _ req) as [[[|text rest]]|e]; cbn [lift first content].
  - eexists. split; [reflexivity|]. intros r Hr. discriminate Hr.
  - apply Hrest.
  - destruct e;
      first [apply Hrest
            |eexists; split; [reflexivity|]; intros r Hr; discriminate Hr].
Qed.

(** X8. Whatever it is given and whether it returns or raises,
    [generate_answer] changes neither the store nor the data file; it
    makes exactly one query, and at most one call of
    [client.messages.create], which it does not repeat, always after
    building a client with a key that is set. *)
Theorem generate_answer_calls (question collection : string) (top_k : Z)
    (w : world) :
  let w' := (generate_answer question collection top_k w).2 in
  chroma w' = chroma w
  ∧ campus_json w' = campus_json w
  ∧ (calls w' = (calls w ++ [Query collection question top_k])%list
     ∨ ∃ api_key req,
         key_present ANTHROPIC_API_KEY = Some api_key
         ∧ calls w'
           = (calls w ++ [Query collection question top_k;
                          AnthropicClient api_key;
                          MessagesCreate req])%list).
Proof.
  destruct (generate_answer_cases question collection top_k w)
    as [[-> _] | (api_key & hits & Hkey & _ & -> & _)]; simpl.
  - split; [done|]. split; [done|]. by left.
  - split; [done|]. split; [done|]. right.
    exists api_key, (request_for question hits). split; [done|].
    by rewrite <- app_assoc.
Qed.

(** X9. A result of [generate_answer] never has more sources, nor more
    retrieved documents, than the [top_k] asked for. *)
Theorem generate_answer_at_most_top_k (question collection : string)
    (top_k : Z) (w w' : world) (r : RAGResult.t) :
  generate_answer question collection top_k w = (Ok r, w') →
  (length (RAGResult.sources r) ≤ Z.to_nat top_k)%nat
  ∧ (length (RAGResult.retrieved_docs r) ≤ Z.to_nat top_k)%nat.
Proof.
  intros Hrun.
  destruct (generate_answer_cases question collection top_k w)
    as [[_ H] | (api_key & hits & _ & Hlen & _ & H)];
    rewrite Hrun in H.
  - destruct (H r eq_refl) as [H1 H2]. rewrite H1. simpl. split; [lia|done].
  - destruct (H r eq_refl) as (H1 & H2 & _). by rewrite H1, H2, length_fmap.
Qed.

Lemma log_retrieval_stops (good : list index_entry) (bad : index_entry)
    (rest : list index_entry) (text : string) (i : Z) :
  Forall has_name_and_type good →
  ¬ has_name_and_type bad →
  comprehension
    (λ '(i, (meta, dist)),
       _ ← getitem meta "name"; _ ← getitem meta "type"; Ok tt)
    (Py.enumerate i
       (Py.zip2 (ie_metadata <$> (good ++ bad :: rest)%list)
          ((λ x, distance text (ie_document x))
             <$> (good ++ bad :: rest)%list)))
  = Raise (KeyError (missing_key bad)).
Proof.
  intros Hgood Hbad. revert i.
  induction Hgood as [|h good [[n Hn] [t Ht]] _ IH]; intros i; simpl.
  - unfold missing_key, has_name_and_type, getitem in *.
    destruct (ie_metadata bad !! "name") as [n|]; [|done]. simpl.
    destruct (ie_metadata bad !! "type") as [t|] eqn:Ht; [|done].
    destruct Hbad. by split.
  - rewrite (getitem_Some _ _ _ Hn), (getitem_Some _ _ _ Ht). simpl.
    by rewrite IH.
Qed.

(** X10. When the metadata of a retrieved entry lacks the name or the
    type, [generate_answer] raises the [KeyError] of that key for the
    first such entry, from the loop that logs the retrieval: whether or
    not the API key is set, no client is built and no request is sent. *)
Theorem generate_answer_unnamed_entry (w w1 : world)
    (question collection : string) (top_k : Z)
    (good : list index_entry) (bad : index_entry) (rest : list index_entry) :
  query_knowledge_base collection question top_k w
    = (Ok (result_of_hits question (good ++ bad :: rest)%list), w1) →
  Forall has_name_and_type good →
  ¬ has_name_and_type bad →
  generate_answer question collection top_k w
  = (Raise (KeyError (missing_key bad)),
     log w [Query collection question top_k]).
Proof.
  intros Hq Hgood Hbad.
  destruct (query_inv _ _ _ _ _ _ Hq) as (entries & _ & _ & _ & ->).
  unfold generate_answer, mbind, M_bind.
  rewrite (bind_Ok _ _ _ _ _ Hq).
  do 4 (erewrite bind_Ok; [|reflexivity]).
  destruct (ie_document <$> (good ++ bad :: rest)%list) as [|d ds] eqn:Hd.
  { by destruct good. }
  erewrite bind_Raise; [done|]. unfold lift, log_retrieval.
  by rewrite (log_retrieval_stops good bad rest question 1 Hgood Hbad).
Qed.

(** X11. With retrieved entries and an API key, when the generation
    service answers, the answer text is the text of the first content
    block of the response, whatever blocks follow it; a response without
    any content block makes [generate_answer] raise [IndexError], after
    the one call of [client.messages.create]. *)
Theorem generate_answer_first_block (w w1 : world)
    (question collection : string) (top_k : Z) (hits : list index_entry)
    (api_key : string) (resp : response) :
  key_present ANTHROPIC_API_KEY = Some api_key →
  query_knowledge_base collection question top_k w
    = (Ok (result_of_hits question hits), w1) →
  hits ≠ [] →
  Forall has_name_and_type hits →
  outcome_for w1 api_key question hits = Ok resp →
  generate_answer question collection top_k w =
    (match content resp with
     | text :: _ =>
         Ok {| RAGResult.answer := text;
               RAGResult.sources := source_of <$> hits;
               RAGResult.retrieved_docs := ie_document <$> hits;
               RAGResult.distances :=
                 (λ x, distance question (ie_document x)) <$> hits |}
     | [] => Raise IndexError
     end,
     log w1 (generation_calls api_key question hits)).
Proof.
  intros Hkey Hq Hne Hwf Hout.
  rewrite (generate_answer_run _ _ _ _ _ _ Hq Hne Hwf), Hkey. simpl.
  rewrite Hout. by destruct resp as [[|text rest]].
Qed.

(** *** The HTTP front end *)

(** X12. A response of [ask] never lists more than three sources (the
    value of [TOP_K_RESULTS]), and a call of [ask], whether it returns or
    raises, leaves the store as it was. *)
Theorem ask_at_most_three (question collection : string) (w : world) :
  chroma (ask question collection w).2 = chroma w
  ∧ ∀ resp, (ask question collection w).1 = Ok resp →
            (length (server.sources resp) ≤ 3)%nat.
Proof.
  pose proof (generate_answer_calls question collection
                config.TOP_K_RESULTS w) as [Hstore _].
  unfold ask, mbind, M_bind, bind.
  destruct (generate_answer _ _ _ w) as [[r|e] w1] eqn:Hrun;
    simpl in Hstore; [|done].
  unfold lift, ret.
  destruct (comprehension make_Source _) as [sources|] eqn:Hs; simpl; [|done].
  split; [done|]. intros resp [= <-]. simpl.
  rewrite (comprehension_length _ _ _ Hs).
  apply (generate_answer_at_most_top_k _ _ _ _ _ _ Hrun).
Qed.

Lemma lifespan_run (w : world) :
  campus_json w ≠ [] →
  Forall valid_record (campus_json w) →
  NoDup (record_id <$> campus_json w) →
  accepts (index_entry_of <$> campus_json w) = true →
  (chroma w !! collection_name = None
   ∨ chroma w !! collection_name = Some []) →
  lifespan w = (Ok collection_name, started w).
Proof.
  intros Hne Hvalid Hnodup Hacc Hc. unfold lifespan, mbind, M_bind.
  rewrite (bind_Ok _ _ _ _ _
             (get_or_create_collection_build w Hne Hvalid Hnodup Hacc Hc)).
  erewrite bind_Ok.
  2:{ apply (count_run _ _ (index_entry_of <$> campus_json w)).
      apply lookup_insert_eq. }
  unfold ret, started. by rewrite log_log.
Qed.

Lemma make_Source_served (hits : list index_entry) :
  Forall (λ h, ∃ name type,
            ie_metadata h !! "name" = Some (JStr name)
            ∧ ie_metadata h !! "type" = Some (JStr type)) hits →
  comprehension make_Source (source_of <$> hits) = Ok (served_source <$> hits).
Proof.
  induction 1 as [|h hits (name & type & Hn & Ht) _ IH]; csimpl; [done|].
  rewrite IH. unfold make_Source, source_of, served_source. simpl.
  by rewrite Hn, Ht.
Qed.

(** X13. Start-up, then a question. On a data file that holds a non-empty
    list of valid records with distinct ids and with names and types that
    are strings, whose entries the store accepts as one batch, and with
    no collection yet (or an empty one), [lifespan]
    returns the collection; with an API key, whenever the generation call
    for the question answers with a content block or fails in one of the
    three handled ways, [ask] returns a response whose sources are the
    id, name and type of the [min 3 n] nearest of the [n] records, nearest
    first. *)
Theorem ask_after_lifespan (w : world) (question api_key : string) :
  let hits :=
    take 3 (nearest_first question (index_entry_of <$> campus_json w)) in
  campus_json w ≠ [] →
  Forall valid_record (campus_json w) →
  NoDup (record_id <$> campus_json w) →
  accepts (index_entry_of <$> campus_json w) = true →
  (chroma w !! collection_name = None
   ∨ chroma w !! collection_name = Some []) →
  Forall named_in_text (campus_json w) →
  key_present ANTHROPIC_API_KEY = Some api_key →
  handled
    (outcome_for
       (log (started w)
          [Query collection_name question config.TOP_K_RESULTS])
       api_key question hits) →
  lifespan w = (Ok collection_name, started w)
  ∧ ∃ resp w2,
      ask question collection_name (started w) = (Ok resp, w2)
      ∧ server.sources resp = served_source <$> hits
      ∧ length (server.sources resp)
        = Nat.min 3 (length (campus_json w)).
Proof.
  intros hits Hne Hvalid Hnodup Hacc Hc Hnamed Hkey Hout.
  split; [by apply lifespan_run|].
  assert (chroma (started w) !! collection_name
          = Some (index_entry_of <$> campus_json w)) as Hc1
    by apply lookup_insert_eq.
  pose proof (query_ok (started w) collection_name question
                config.TOP_K_RESULTS _ Hc1 eq_refl) as Hq.
  change (take (Z.to_nat config.TOP_K_RESULTS) _) with hits in Hq.
  assert (length hits = Nat.min 3 (length (campus_json w))) as Hlen.
  { unfold hits.
    by rewrite length_take, (Permutation_length (nearest_first_perm _ _)),
      length_fmap. }
  assert (hits ≠ []) as Hhits.
  { intros Heq. rewrite Heq in Hlen. simpl in Hlen.
    destruct (campus_json w); [done|]. simpl in Hlen. lia. }
  assert (Forall has_name_and_type hits) as Hwf by apply built_hits_named.
  assert (Forall (λ h, ∃ name type,
                    ie_metadata h !! "name" = Some (JStr name)
                    ∧ ie_metadata h !! "type" = Some (JStr type)) hits)
    as Hstr.
  { unfold hits. apply Forall_take.
    rewrite (nearest_first_perm question (index_entry_of <$> campus_json w)).
    apply Forall_fmap. eapply Forall_impl; [exact Hnamed|].
    intros e (name & type & Hn & Ht). exists name, type. simpl.
    unfold metadata_of. rewrite lookup_insert_eq.
    rewrite lookup_insert_ne by done. rewrite lookup_insert_eq.
    by rewrite Hn, Ht. }
  assert (∃ text,
    generate_answer question collection_name config.TOP_K_RESULTS (started w)
    = (Ok (answer_with text question hits),
       log (log (started w)
              [Query collection_name question config.TOP_K_RESULTS])
           (generation_calls api_key question hits))) as [text Hrun].
  { rewrite (generate_answer_run _ _ _ _ _ _ Hq Hhits Hwf), Hkey. simpl.
    destruct (outcome_for _ _ _ _) as [[[|text rest]]|[]];
      try done; eauto. }
  unfold ask, mbind, M_bind. rewrite (bind_Ok _ _ _ _ _ Hrun).
  erewrite bind_Ok;
    [|exact (f_equal (λ r, (r, _)) (make_Source_served hits Hstr))].
  unfold ret. eexists _, _. split; [done|]. simpl.
  split; [done|]. by rewrite length_fmap.
Qed.

(** *** The terminal front end *)

Lemma written_nil (p : process) : written p [] = p.
Proof. destruct p. unfold written. simpl. by rewrite app_nil_r. Qed.

Lemma written_written (p : process) (out1 out2 : list string) :
  written (written p out1) out2 = written p (out1 ++ out2).
Proof. unfold written. simpl. by rewrite app_assoc. Qed.

Lemma P_bind_Ok {A B} (m : P A) (k : A → P B) (p p' : process) (a : A) :
  m p = (Ok a, p') → P_bind m k p = k a p'.
Proof. unfold P_bind. by intros ->. Qed.

Lemma P_bind_Raise {A B} (m : P A) (k : A → P B) (p p' : process) (e : exn) :
  m p = (Raise e, p') → P_bind m k p = (Raise e, p').
Proof. unfold P_bind. by intros ->. Qed.

Lemma P_bind_ext {A B} (m : P A) (k1 k2 : A → P B) (p : process) :
  (∀ a p', k1 a p' = k2 a p') → P_bind m k1 p = P_bind m k2 p.
Proof. intros H. unfold P_bind. by destruct (m p) as [[a|e] p']. Qed.

Lemma print_run (text : string) (p : process) :
  print text p = (Ok tt, written p [text +:+ nl]).
Proof. done. Qed.

Lemma write_run (text : string) (p : process) :
  write text p = (Ok tt, written p [text]).
Proof. done. Qed.

Lemma P_for_print {A} (xs : list A) (body : A → P unit) (f : A → string)
    (p : process) :
  (∀ x p, body x p = (Ok tt, written p [f x])) →
  P_for xs body p = (Ok tt, written p (f <$> xs)).
Proof.
  intros Hbody. revert p. induction xs as [|x xs IH]; intros p; csimpl.
  - by rewrite written_nil.
  - unfold mbind, P_mbind. rewrite (P_bind_Ok _ _ _ _ _ (Hbody x p)).
    by rewrite IH, written_written.
Qed.

Lemma zip2_length {A B} (xs : list A) (ys : list B) :
  length (Py.zip2 xs ys) = Nat.min (length xs) (length ys).
Proof.
  revert ys. induction xs as [|x xs IH]; intros [|y ys]; simpl; try done.
  by rewrite IH.
Qed.

(** X14. [print_retrieved_docs] never raises and leaves the world alone.
    It writes the heading, then one line per pair of a source and a
    distance, then an empty line: as many lines as the shorter of the two
    lists has elements, so none when the result has no sources. *)
Theorem print_retrieved_docs_lines (result : RAGResult.t) (p : process) :
  ∃ lines,
    print_retrieved_docs result p =
      (Ok tt,
       {| stdout :=
            (stdout p
             ++ [nl +:+ color "── Retrieved Documents ──" YELLOW +:+ nl]
             ++ lines ++ [nl])%list;
          env := env p |})
    ∧ length lines
      = Nat.min (length (RAGResult.sources result))
                (length (RAGResult.distances result))
    ∧ (RAGResult.sources result = [] → lines = []).
Proof.
  exists ((λ '(i, (doc_meta, dist)), retrieved_line i doc_meta dist)
            <$> Py.enumerate 1
                  (Py.zip2 (RAGResult.sources result)
                     (RAGResult.distances result))).
  split; [|split].
  - unfold print_retrieved_docs, mbind, P_mbind.
    rewrite (P_bind_Ok _ _ _ _ _ (print_run _ _)).
    erewrite P_bind_Ok.
    2:{ apply (P_for_print _ _
                 (λ '(i, (doc_meta, dist)), retrieved_line i doc_meta dist)).
        by intros [i [doc_meta dist]] p0. }
    rewrite print_run, !written_written. unfold written. simpl.
    reflexivity.
  - by rewrite length_fmap, enumerate_length, zip2_length.
  - by intros ->.
Qed.

(** X15. Without an API key, the result that [generate_answer] returns
    makes [print_retrieved_docs] list nothing, whether or not documents
    were retrieved: the heading is followed by the empty line. *)
Theorem print_retrieved_docs_without_key (question collection : string)
    (top_k : Z) (w w' : world) (result : RAGResult.t) (p : process) :
  key_present ANTHROPIC_API_KEY = None →
  generate_answer question collection top_k w = (Ok result, w') →
  print_retrieved_docs result p =
    (Ok tt,
     {| stdout :=
          (stdout p
           ++ [nl +:+ color "── Retrieved Documents ──" YELLOW +:+ nl; nl])%list;
        env := env p |}).
Proof.
  intros Hkey Hrun.
  assert (RAGResult.sources result = []) as Hs.
  { destruct (generate_answer_cases question collection top_k w)
      as [[_ H] | (api_key & hits & Hk & _)]; [|congruence].
    rewrite Hrun in H. by destruct (H result eq_refl). }
  destruct (print_retrieved_docs_lines result p) as (lines & -> & _ & Hl).
  by rewrite (Hl Hs).
Qed.

(** X21. For a result that [generate_answer] returns,
    [print_retrieved_docs] lists every source: it writes as many lines,
    between the heading and the empty line, as the result has sources. *)
Theorem print_retrieved_docs_lists_sources (question collection : string)
    (top_k : Z) (w w' : world) (result : RAGResult.t) (p : process) :
  generate_answer question collection top_k w = (Ok result, w') →
  ∃ lines,
    print_retrieved_docs result p =
      (Ok tt,
       {| stdout :=
            (stdout p
             ++ [nl +:+ color "── Retrieved Documents ──" YELLOW +:+ nl]
             ++ lines ++ [nl])%list;
          env := env p |})
    ∧ length lines = length (RAGResult.sources result).
Proof.
  intros Hrun.
  destruct (print_retrieved_docs_lines result p) as (lines & Hp & Hlen & Hl).
  exists lines. split; [done|]. rewrite Hlen.
  destruct (generate_answer_cases question collection top_k w)
    as [[_ H] | (api_key & hits & _ & _ & _ & H)]; rewrite Hrun in H.
  - destruct (H result eq_refl) as [-> _]. done.
  - destruct (H result eq_refl) as (-> & _ & ->). lia.
Qed.

Lemma join_names_raise (sources : list Source.t) :
  Exists (λ s, ∀ name, Source.name s ≠ JStr name) sources →
  comprehension (λ s, join_item (Source.name s)) sources = Raise TypeError.
Proof.
  induction 1 as [s sources Hs|s sources _ IH]; simpl.
  - destruct (Source.name s); try done. by destruct (Hs s0).
  - rewrite IH. by destruct (Source.name s).
Qed.

(** X16. When the name of a source is not a string, [print_answer] raises
    [TypeError] from the joining of the names: the answer has been
    printed, the line of sources has not, and the world is as it was. *)
Theorem print_answer_name_not_text (result : RAGResult.t) (p : process) :
  Exists (λ s, ∀ name, Source.name s ≠ JStr name)
    (RAGResult.sources result) →
  print_answer result p =
    (Raise TypeError,
     {| stdout :=
          (stdout p
           ++ [color "── Answer ──" GREEN +:+ nl;
               (GREEN +:+ RAGResult.answer result +:+ RESET) +:+ nl;
               nl])%list;
        env := env p |}).
Proof.
  intros Hbad. unfold print_answer, mbind, P_mbind.
  do 3 rewrite (P_bind_Ok _ _ _ _ _ (print_run _ _)).
  rewrite !written_written.
  erewrite P_bind_Raise; [done|].
  destruct (RAGResult.sources result) as [|s sources] eqn:Hs.
  { by apply Exists_nil in Hbad. }
  erewrite P_bind_Raise; [done|].
  unfold P_lift. by rewrite (join_names_raise _ Hbad).
Qed.

Lemma print_answer_env (result : RAGResult.t) (p : process) :
  env (print_answer result p).2 = env p.
Proof.
  unfold print_answer, mbind, P_mbind.
  do 3 rewrite (P_bind_Ok _ _ _ _ _ (print_run _ _)).
  unfold P_bind at 1.
  destruct (RAGResult.sources result) as [|s sources]; [done|].
  unfold P_bind, P_lift.
  by destruct (comprehension _ (s :: sources)).
Qed.

Lemma print_retrieved_docs_env (result : RAGResult.t) (p : process) :
  ∃ p', print_retrieved_docs result p = (Ok tt, p') ∧ env p' = env p.
Proof.
  destruct (print_retrieved_docs_lines result p) as (lines & -> & _).
  by eexists.
Qed.

(** X17. The loop of [main] stops at the first line that, stripped and in
    lower case, is [quit], [exit] or [q]: what is typed after it is never
    read, so the run is the same as if the input ended there. *)
Theorem main_loop_stops_at_quit (collection : string)
    (before : list string) (line : string) (after : list string)
    (p : process) :
  is_blank line = false →
  is_quit line = true →
  main_loop collection (before ++ line :: after)%list p
  = main_loop collection (before ++ [line])%list p.
Proof.
  intros Hblank Hquit. revert p.
  induction before as [|l before IH]; intros p; cbn [app main_loop].
  - unfold mbind, P_mbind. rewrite !(P_bind_Ok _ _ _ _ _ (write_run _ _)).
    unfold is_blank, is_quit in *. by rewrite Hblank, Hquit.
  - unfold mbind, P_mbind. rewrite !(P_bind_Ok _ _ _ _ _ (write_run _ _)).
    destruct (String.eqb _ _); [apply IH|].
    destruct (bool_decide _); [done|].
    apply P_bind_ext; intros r p1.
    apply P_bind_ext; intros _ p2.
    apply P_bind_ext; intros _ p3.
    apply IH.
Qed.

Lemma filter_query_calls (collection text : string) (k : Z)
    (api_key : string) (req : request) :
  List.filter is_query [Query collection text k] = [Query collection text k]
  ∧ List.filter is_query
      [Query collection text k; AnthropicClient api_key; MessagesCreate req]
    = [Query collection text k].
Proof. done. Qed.

Lemma run_M_run {A} (m : M A) (p : process) (r : result A) (w1 : world) :
  m (env p) = (r, w1) → run_M m p = (r, {| stdout := stdout p; env := w1 |}).
Proof. unfold run_M. by intros ->. Qed.

Lemma main_loop_run (collection : string) (inputs : list string)
    (p : process) :
  ∃ res p' t,
    main_loop collection inputs p = (res, p')
    ∧ chroma (env p') = chroma (env p)
    ∧ campus_json (env p') = campus_json (env p)
    ∧ calls (env p') = (calls (env p) ++ t)%list
    ∧ (res = Ok tt →
       List.filter is_query t
       = (λ q, Query collection q config.TOP_K_RESULTS) <$> questions inputs).
Proof.
  revert p. induction inputs as [|line inputs IH]; intros p;
    cbn [main_loop questions]; unfold mbind, P_mbind.
  - eexists _, _, []. split; [reflexivity|]. simpl.
    by rewrite app_nil_r.
  - rewrite (P_bind_Ok _ _ _ _ _ (write_run _ _)).
    unfold is_blank, is_quit.
    destruct (String.eqb _ _).
    { destruct (IH (written p [color "You: " BLUE]))
        as (res & p' & t & Hrun & H). by exists res, p', t. }
    destruct (bool_decide _).
    { eexists _, _, []. split; [reflexivity|]. simpl.
      by rewrite app_nil_r. }
    pose proof (generate_answer_calls (Py.strip line) collection
                  config.TOP_K_RESULTS (env p)) as (Hs & Hd & Hcalls).
    destruct (generate_answer (Py.strip line) collection
                config.TOP_K_RESULTS (env p)) as [[r|e] w1] eqn:Hrun;
      cbn [snd] in Hs, Hd, Hcalls.
    2:{ erewrite P_bind_Raise; [|by apply run_M_run].
        destruct Hcalls as [Hc | (k & req & _ & Hc)];
          by eexists _, _, _. }
    erewrite P_bind_Ok; [|by apply run_M_run].
    match goal with
    | |- context [P_bind (print_retrieved_docs r) _ ?q] =>
        destruct (print_retrieved_docs_env r q) as (p2 & Hp2 & He2)
    end.
    rewrite (P_bind_Ok _ _ _ _ _ Hp2).
    pose proof (print_answer_env r p2) as He3.
    destruct (print_answer r p2) as [[[]|e] p3] eqn:Hp3; cbn [snd] in He3.
    2:{ rewrite (P_bind_Raise _ _ _ _ _ Hp3). rewrite <- He3 in He2.
        simpl in He2.
        destruct Hcalls as [Hc | (k & req & _ & Hc)];
          eexists _, _, _; (split; [reflexivity|]); rewrite He2;
          by rewrite Hs, Hd, Hc. }
    rewrite (P_bind_Ok _ _ _ _ _ Hp3).
    destruct (IH p3) as (res & p' & t & Hloop & IH1 & IH2 & IH3 & IH4).
    rewrite Hloop. rewrite He3, He2 in IH1, IH2, IH3. simpl in IH1, IH2, IH3.
    destruct Hcalls as [Hc | (k & req & _ & Hc)];
      eexists _, _, _; (split; [reflexivity|]);
      (split; [by rewrite IH1|]); (split; [by rewrite IH2|]);
      (split; [by rewrite IH3, Hc, <- app_assoc|]);
      intros Hok; rewrite List.filter_app, (IH4 Hok); done.
Qed.

(** X18. Whatever is typed and however the run ends, the loop of [main]
    leaves the store and the data file as they were. When it ends without
    an exception, the queries made are exactly those of the questions
    typed, in order, each for [TOP_K_RESULTS] entries: a blank line makes
    no query, and neither does anything after the word that ends the
    session. *)
Theorem main_loop_queries (collection : string) (inputs : list string)
    (p : process) :
  chroma (env (main_loop collection inputs p).2) = chroma (env p)
  ∧ campus_json (env (main_loop collection inputs p).2)
    = campus_json (env p)
  ∧ ∃ t,
      calls (env (main_loop collection inputs p).2)
      = (calls (env p) ++ t)%list
      ∧ ((main_loop collection inputs p).1 = Ok tt →
         List.filter is_query t
         = (λ q, Query collection q config.TOP_K_RESULTS)
             <$> questions inputs).
Proof.
  destruct (main_loop_run collection inputs p)
    as (res & p' & t & -> & H1 & H2 & H3 & H4).
  split; [done|]. split; [done|]. by exists t.
Qed.

Lemma main_banner {A} (k : P A) (p : process) :
  P_bind (print WELCOME)
    (λ _, P_bind
            match key_present ANTHROPIC_API_KEY with
            | None => print (color WARNING RED)
            | Some _ => mret tt
            end
            (λ _, P_bind
                    (print (DIM +:+ "Loading knowledge base into ChromaDB..."
                            +:+ RESET))
                    (λ _, k))) p
  = k (written p banner).
Proof.
  rewrite (P_bind_Ok _ _ _ _ _ (print_run _ _)). unfold banner.
  destruct (key_present ANTHROPIC_API_KEY).
  - erewrite P_bind_Ok; [|reflexivity].
    rewrite (P_bind_Ok _ _ _ _ _ (print_run _ _)).
    by rewrite written_written.
  - rewrite (P_bind_Ok _ _ _ _ _ (print_run _ _)).
    rewrite (P_bind_Ok _ _ _ _ _ (print_run _ _)).
    by rewrite !written_written.
Qed.

(** X19. When the knowledge base cannot be opened or built, [main] prints
    the message of the exception and exits with [SystemExit]: nothing of
    the input is read, no prompt is written and no question is put,
    whatever was typed. *)
Theorem main_build_failure (inputs : list string) (p : process) (e : exn)
    (w' : world) :
  get_or_create_collection false (env p) = (Raise e, w') →
  main inputs p =
    (Raise SystemExit,
     {| stdout :=
          (stdout p ++ banner
           ++ [color ("Failed to initialize knowledge base: " +:+ exn_str e)
                 RED +:+ nl])%list;
        env := w' |}).
Proof.
  intros Hbuild. unfold main, mbind, P_mbind. rewrite main_banner.
  erewrite P_bind_Raise; [done|].
  unfold P_try_except, run_M. cbn [env written]. rewrite Hbuild.
  rewrite (P_bind_Ok _ _ _ _ _ (print_run _ _)).
  unfold P_raise, written. simpl. by rewrite <- app_assoc.
Qed.

(** X20. On a first start, with a data file that holds a non-empty list of
    valid records with distinct ids, whose entries the store accepts as
    one batch, [main] builds the index, prints that
    as many documents are indexed as the file has records, and enters the
    loop with the collection. *)
Theorem main_first_start (inputs : list string) (p : process) :
  campus_json (env p) ≠ [] →
  Forall valid_record (campus_json (env p)) →
  NoDup (record_id <$> campus_json (env p)) →
  accepts (index_entry_of <$> campus_json (env p)) = true →
  (chroma (env p) !! collection_name = None
   ∨ chroma (env p) !! collection_name = Some []) →
  main inputs p =
    main_loop collection_name inputs
      {| stdout :=
           (stdout p ++ banner
            ++ [(DIM +:+ "Ready! "
                 +:+ pretty (Z.of_nat (length (campus_json (env p))))
                 +:+ " documents indexed." +:+ RESET +:+ nl) +:+ nl])%list;
         env := started (env p) |}.
Proof.
  intros Hne Hvalid Hnodup Hacc Hc. unfold main, mbind, P_mbind.
  rewrite main_banner.
  pose proof (get_or_create_collection_build (env p) Hne Hvalid Hnodup Hacc
                Hc) as Hbuild.
  erewrite P_bind_Ok.
  2:{ unfold P_try_except, run_M. cbn [env written]. by rewrite Hbuild. }
  erewrite P_bind_Ok.
  2:{ unfold run_M. cbn [env].
      erewrite (count_run _ _ (index_entry_of <$> campus_json (env p)));
        [done|apply lookup_insert_eq]. }
  rewrite (P_bind_Ok _ _ _ _ _ (print_run _ _)).
  f_equal. unfold written, started. cbn [stdout env].
  by rewrite log_log, length_fmap, <- !app_assoc.
Qed.

End Pipeline.

(** ** The properties on the sample data *)

Example title_mon_fri : Py.title (Py.replace "_" " " "mon_fri") = "Mon Fri".
Proof. reflexivity. Qed.

Example title_mixed : Py.title "1st fLOOR o'neil" = "1St Floor O'Neil".
Proof. reflexivity. Qed.

Example format_4f_rounds_down : Py.format_4f (1 # 32) = "0.0312".
Proof. vm_compute. reflexivity. Qed.

Example format_4f_rounds_up : Py.format_4f (3 # 32) = "0.0938".
Proof. vm_compute. reflexivity. Qed.

Example format_4f_pads : Py.format_4f (3 # 2) = "1.5000".
Proof. vm_compute. reflexivity. Qed.

Example format_4f_negative : Py.format_4f (-1 # 100000) = "-0.0000".
Proof. vm_compute. reflexivity. Qed.

Example lib01_document :
  entry_to_document Sample.unicode Sample.str_other Sample.lib01 =
    Ok ("Name: Main Library" +:+ nl
        +:+ "Type: facility" +:+ nl
        +:+ "Location: Building A" +:+ nl
        +:+ "Hours:" +:+ nl
        +:+ "  Weekdays: 8am-10pm" +:+ nl
        +:+ "  Sat Sun: 10am-6pm" +:+ nl
        +:+ "Description: Books and study rooms." +:+ nl
        +:+ "Contact: library@campus.edu" +:+ nl
        +:+ "Additional Info:" +:+ nl
        +:+ "  - Free wifi" +:+ nl
        +:+ "  - Printing").
Proof. vm_compute. reflexivity. Qed.

Example two_hits_context :
  build_context_block Sample.two_hits =
    Ok ("--- Source 1 (similarity distance: 0.0800) ---" +:+ nl
        +:+ "Name: Main Library" +:+ nl
        +:+ nl
        +:+ "--- Source 2 (similarity distance: 1.5000) ---" +:+ nl
        +:+ "Name: Recreation Center" +:+ nl).
Proof. vm_compute. reflexivity. Qed.

(** A key beyond ASCII: the label of [été_soir] is [Été Soir]. The number
    of the contact is written as [str] writes it, and a record without
    notes has the heading of the notes and nothing under it. *)
Example cafe03_document :
  entry_to_document Sample.unicode Sample.str_other Sample.cafe03 =
    Ok ("Name: Café" +:+ nl
        +:+ "Type: food" +:+ nl
        +:+ "Location: Building C" +:+ nl
        +:+ "Hours:" +:+ nl
        +:+ "  Été Soir: 18h-22h" +:+ nl
        +:+ "Description: Coffee." +:+ nl
        +:+ "Contact: 5550" +:+ nl
        +:+ "Additional Info:" +:+ nl).
Proof. vm_compute. reflexivity. Qed.

Example label_of_mixed :
  label_of Sample.unicode "1st_fLOOR o'neil" = "1St Floor O'Neil".
Proof. vm_compute. reflexivity. Qed.

(** White space beyond ASCII is stripped as well: a no-break space before
    the word and an ideographic space after it. *)
Example strip_unicode_spaces :
  Py.strip (Py.utf8_2 194 160 +:+ " QUIT" +:+ Py.utf8_3 227 128 128) = "QUIT".
Proof. vm_compute. reflexivity. Qed.

Example quit_after_no_break_space :
  is_quit Sample.unicode (Py.utf8_2 194 160 +:+ "Quit") = true
  ∧ is_blank (Py.utf8_3 227 128 128 +:+ " ") = true.
Proof. split; vm_compute; reflexivity. Qed.

(** The word after a no-break space ends the session: the line after it
    is no question. *)
Example questions_until_quit :
  questions Sample.unicode
    ["  "; "when does the library open"; Py.utf8_2 194 160 +:+ "quit";
     "and the gym?"]
  = ["when does the library open"].
Proof. vm_compute. reflexivity. Qed.

(** A code point of several bytes is one element of a loop over the
    string. *)
Example chars_cafe : Py.chars "Café!" = ["C"; "a"; "f"; "é"; "!"].
Proof. vm_compute. reflexivity. Qed.

(** The index built from the one record [lib01], then a question: the
    answer is attributed to the library. *)
Example ask_main_library :
  RAGResult.sources
    <$> returned
          (generate_answer Sample.distance
             (Sample.answers "The Main Library opens at 8am on weekdays.")
             (Some "sk-test") Sample.question
             config.CHROMA_COLLECTION_NAME config.TOP_K_RESULTS
             (get_or_create_collection Sample.unicode Sample.str_other false Sample.accepts false
                (Sample.fresh [Sample.lib01])).2)
  = Some [{| Source.id := "lib01";
             Source.name := JStr "Main Library";
             Source.type := JStr "facility" |}].
Proof. vm_compute. reflexivity. Qed.

(** An empty data file: the question gets the fixed text and no source. *)
Example ask_empty_corpus :
  returned
    (generate_answer Sample.distance (Sample.answers "unused")
       (Some "sk-test") Sample.question
       config.CHROMA_COLLECTION_NAME config.TOP_K_RESULTS
       (get_or_create_collection Sample.unicode Sample.str_other true Sample.accepts false
          (Sample.fresh [])).2)
  = Some {| RAGResult.answer := NO_INFORMATION;
            RAGResult.sources := [];
            RAGResult.retrieved_docs := [];
            RAGResult.distances := [] |}.
Proof. vm_compute. reflexivity. Qed.

(** The record without a contact is rejected with the [KeyError] of the
    field. *)
Lemma entry_to_document_missing_field_witness :
  "contact" ∈ required_fields
  ∧ Sample.no_contact !! "contact" = None
  ∧ entry_to_document Sample.unicode Sample.str_other Sample.no_contact
    = Raise (KeyError "contact")
  ∧ ∃ err,
      entry_to_document Sample.unicode Sample.str_other Sample.no_contact
      = Raise err
      ∧ err ≠ MalformedRecordError.
Proof.
  assert ("contact" ∈ required_fields) as Hreq
    by (apply list_elem_of_In; simpl; auto 10).
  assert (Sample.no_contact !! "contact" = None) as Hmiss by reflexivity.
  split; [exact Hreq|]. split; [exact Hmiss|]. split; [reflexivity|].
  destruct (entry_to_document_missing_field Sample.unicode Sample.str_other
              Sample.no_contact "contact" Hreq Hmiss)
    as (err & Herr & Hclass & _).
  exists err. split; [exact Herr|exact Hclass].
Defined.


(** [gym02] has the string ["always open"] for hours. *)
Lemma entry_to_document_hours_not_mapping_witness :
  Sample.gym02 !! "hours" = Some (JStr "always open")
  ∧ entry_to_document Sample.unicode Sample.str_other (delete "hours" Sample.gym02)
    = entry_to_document Sample.unicode Sample.str_other Sample.gym02.
Proof.
  split; [reflexivity|].
  exact (proj2 (entry_to_document_hours_not_mapping Sample.unicode Sample.str_other
                  Sample.gym02 (JStr "always open")
                  (JStr "Recreation Center") (JStr "facility")
                  (JStr "Building R") (JStr "Gym and pool.")
                  (JStr "rec@campus.edu") []
                  eq_refl ltac:(discriminate)
                  eq_refl eq_refl eq_refl eq_refl eq_refl eq_refl)).
Defined.

Example to_4_places_pads : to_4_places (3 # 2) "1.5000".
Proof.
  exists 15000%Z, "5000". split; [by vm_compute|].
  split; [done|]. by repeat split.
Qed.

(** Two distances that are floats and lie half way between two values of
    four decimals: 1/32 is 0.03125 and 3/32 is 0.09375. *)
Example to_4_places_tie_down : to_4_places (1 # 32) "0.0312".
Proof.
  exists 312%Z, "0312". split; [by vm_compute|].
  split; [done|]. by repeat split.
Qed.

Example to_4_places_tie_up : to_4_places (3 # 32) "0.0938".
Proof.
  exists 938%Z, "0938". split; [by vm_compute|].
  split; [done|]. by repeat split.
Qed.

Example to_4_places_negative : to_4_places (-1 # 100000) "-0.0000".
Proof.
  exists 0%Z, "0000". split; [by vm_compute|].
  split; [done|]. by repeat split.
Qed.

(** The context of the two hits, to the letter: the second block carries
    the distance 3/2 as [1.5000]. *)
Lemma build_context_block_renders_witness :
  first (QueryResult.documents Sample.two_hits)
    = Ok ["Name: Main Library"; "Name: Recreation Center"]
  ∧ build_context_block Sample.two_hits
    = Ok ("--- Source 1 (similarity distance: 0.0800) ---" +:+ nl
          +:+ "Name: Main Library" +:+ nl
          +:+ nl
          +:+ "--- Source 2 (similarity distance: 1.5000) ---" +:+ nl
          +:+ "Name: Recreation Center" +:+ nl)
  ∧ ∃ blocks,
      build_context_block Sample.two_hits = Ok (String.concat nl blocks)
      ∧ length blocks = 2%nat
      ∧ blocks !! 1%nat
        = Some ("--- Source 2 (similarity distance: 1.5000) ---" +:+ nl
                +:+ "Name: Recreation Center" +:+ nl).
Proof.
  split; [reflexivity|]. split; [reflexivity|].
  destruct (build_context_block_renders Sample.two_hits
              ["Name: Main Library"; "Name: Recreation Center"]
              [ie_metadata Sample.library; ie_metadata Sample.gym]
              [8 # 100; 3 # 2]
              eq_refl eq_refl eq_refl eq_refl eq_refl)
    as (blocks & Hb & Hlen & Hblock & _).
  destruct (Hblock 1%nat "Name: Recreation Center" (3 # 2) eq_refl eq_refl)
    as (shown & _ & Honly & Hj).
  rewrite <- (Honly "1.5000" to_4_places_pads) in Hj.
  exists blocks. split; [exact Hb|]. split; [exact Hlen|exact Hj].
Defined.

(** Three entries, two requested. *)
Lemma query_knowledge_base_top_k_witness :
  chroma (Sample.indexed [Sample.gym; Sample.library; Sample.cafe])
    !! config.CHROMA_COLLECTION_NAME
    = Some [Sample.gym; Sample.library; Sample.cafe]
  ∧ ∃ hits,
      length hits = 2%nat
      ∧ Sorted Qle
          ((λ x, Sample.distance Sample.question (ie_document x)) <$> hits).
Proof.
  assert (chroma (Sample.indexed [Sample.gym; Sample.library; Sample.cafe])
            !! config.CHROMA_COLLECTION_NAME
          = Some [Sample.gym; Sample.library; Sample.cafe]) as Hc
    by reflexivity.
  split; [exact Hc|].
  destruct (query_knowledge_base_top_k Sample.distance _
              config.CHROMA_COLLECTION_NAME Sample.question 2 _ Hc
              ltac:(reflexivity))
    as (hits & _ & Hlen & Hsorted & _).
  exists hits. split; [exact Hlen|exact Hsorted].
Defined.

(** An empty collection: the query finds nothing. *)
Lemma generate_answer_no_documents_witness :
  query_knowledge_base Sample.distance config.CHROMA_COLLECTION_NAME
    Sample.question 3 (Sample.indexed [])
  = (Ok (result_of_hits Sample.distance Sample.question []),
     log (Sample.indexed [])
       [Query config.CHROMA_COLLECTION_NAME Sample.question 3])
  ∧ RAGResult.sources
      <$> returned
            (generate_answer Sample.distance (Sample.answers "unused")
               (Some "sk-test") Sample.question
               config.CHROMA_COLLECTION_NAME 3 (Sample.indexed []))
    = Some [].
Proof.
  split; [reflexivity|].
  rewrite (generate_answer_no_documents Sample.distance
             (Sample.answers "unused") (Some "sk-test")
             (Sample.indexed []) _ Sample.question
             config.CHROMA_COLLECTION_NAME 3 _ eq_refl eq_refl).
  reflexivity.
Defined.

Lemma sample_hits_named :
  Forall has_name_and_type [Sample.gym; Sample.library].
Proof. repeat constructor; by eexists. Qed.

Lemma sample_query :
  query_knowledge_base Sample.distance config.CHROMA_COLLECTION_NAME
    Sample.question 3 (Sample.indexed [Sample.library; Sample.gym])
  = (Ok (result_of_hits Sample.distance Sample.question
           [Sample.gym; Sample.library]),
     log (Sample.indexed [Sample.library; Sample.gym])
       [Query config.CHROMA_COLLECTION_NAME Sample.question 3]).
Proof. reflexivity. Qed.

(** Two entries retrieved, no API key. *)
Lemma generate_answer_missing_credential_witness :
  key_present None = None
  ∧ RAGResult.sources
      <$> returned
            (generate_answer Sample.distance (Sample.answers "unused") None
               Sample.question config.CHROMA_COLLECTION_NAME 3
               (Sample.indexed [Sample.library; Sample.gym]))
    = Some [].
Proof.
  split; [reflexivity|].
  rewrite (generate_answer_missing_credential Sample.distance
             (Sample.answers "unused") None _ _ Sample.question
             config.CHROMA_COLLECTION_NAME 3 [Sample.gym; Sample.library]
             eq_refl sample_query ltac:(discriminate) sample_hits_named).
  reflexivity.
Defined.

(** Two entries retrieved, and a service that fails with an API error. *)
Lemma generate_answer_generation_failure_witness :
  outcome_for Sample.distance (Sample.fails (APIError "overloaded"))
    (log (Sample.indexed [Sample.library; Sample.gym])
       [Query config.CHROMA_COLLECTION_NAME Sample.question 3])
    "sk-test" Sample.question [Sample.gym; Sample.library]
  = Raise (APIError "overloaded")
  ∧ RAGResult.answer
      <$> returned
            (generate_answer Sample.distance
               (Sample.fails (APIError "overloaded")) (Some "sk-test")
               Sample.question config.CHROMA_COLLECTION_NAME 3
               (Sample.indexed [Sample.library; Sample.gym]))
    = Some "ERROR: Anthropic API error — overloaded".
Proof.
  split; [reflexivity|].
  rewrite (proj1 (generate_answer_generation_failure Sample.distance
                    (Sample.fails (APIError "overloaded")) (Some "sk-test")
                    _ _ Sample.question config.CHROMA_COLLECTION_NAME 3
                    [Sample.gym; Sample.library] "sk-test"
                    (APIError "overloaded")
                    eq_refl sample_query ltac:(discriminate)
                    sample_hits_named eq_refl)).
  reflexivity.
Defined.

(** Two entries retrieved, and a service that is out of its rate limit. *)
Lemma generate_answer_attribution_witness :
  handled
    (outcome_for Sample.distance (Sample.fails (RateLimitError "429"))
       (log (Sample.indexed [Sample.library; Sample.gym])
          [Query config.CHROMA_COLLECTION_NAME Sample.question 3])
       "sk-test" Sample.question [Sample.gym; Sample.library])
  ∧ ∃ r,
      returned
        (generate_answer Sample.distance
           (Sample.fails (RateLimitError "429")) (Some "sk-test")
           Sample.question config.CHROMA_COLLECTION_NAME 3
           (Sample.indexed [Sample.library; Sample.gym]))
      = Some r
      ∧ length (RAGResult.sources r) = 2%nat.
Proof.
  split; [exact I|].
  destruct (generate_answer_attribution Sample.distance
              (Sample.fails (RateLimitError "429")) (Some "sk-test")
              _ _ Sample.question config.CHROMA_COLLECTION_NAME 3
              [Sample.gym; Sample.library] "sk-test"
              eq_refl sample_query ltac:(discriminate)
              sample_hits_named I)
    as (r & Hr & Hlen & _).
  exists r. split; [|exact Hlen].
  unfold returned. rewrite Hr. reflexivity.
Defined.

Lemma sample_records_valid :
  Forall (valid_record Sample.unicode Sample.str_other) [Sample.lib01; Sample.gym02].
Proof. repeat constructor; by eexists. Qed.

Lemma sample_ids_distinct :
  NoDup (record_id <$> [Sample.lib01; Sample.gym02]).
Proof. apply (bool_decide_unpack _). reflexivity. Qed.

Lemma sample_batch_accepted :
  Sample.accepts
    (index_entry_of Sample.unicode Sample.str_other
       <$> [Sample.lib01; Sample.gym02])
  = true.
Proof. vm_compute. reflexivity. Qed.

(** Two records, no collection yet, a store that rejects empty batches. *)
Lemma get_or_create_collection_idempotent_witness :
  campus_json (Sample.fresh [Sample.lib01; Sample.gym02]) ≠ []
  ∧ chroma (Sample.fresh [Sample.lib01; Sample.gym02]) !! collection_name
    = None
  ∧ ∃ w2,
      run_twice Sample.unicode Sample.str_other false
        Sample.accepts false false
        (Sample.fresh [Sample.lib01; Sample.gym02])
      = (Ok collection_name, w2).
Proof.
  assert (campus_json (Sample.fresh [Sample.lib01; Sample.gym02]) ≠ [])
    as Hne by discriminate.
  assert (chroma (Sample.fresh [Sample.lib01; Sample.gym02])
            !! collection_name = None) as Hc by reflexivity.
  split; [exact Hne|]. split; [exact Hc|].
  destruct (proj2 (get_or_create_collection_idempotent Sample.unicode
             Sample.str_other false Sample.accepts
                     (Sample.fresh [Sample.lib01; Sample.gym02])
                     Hne sample_records_valid sample_ids_distinct
                     sample_batch_accepted (or_introl Hc)))
    as (w1 & w2 & t1 & t2 & _ & _ & Htwice & _).
  exists w2. exact Htwice.
Defined.

(** C3, as stated, fails in two ways. With an empty data file the
    collection stays empty, so each of two runs loads the data and asks for
    an insertion, whether the store accepts the empty batch or rejects it.
    With [reset = True] on the second run, a populated collection is
    discarded and built again. *)
Lemma get_or_create_collection_repeats_work :
  (times is_load
     (calls (run_twice Sample.unicode Sample.str_other true
        Sample.accepts false false
               (Sample.fresh [])).2) = 2%nat
   ∧ times is_add
       (calls (run_twice Sample.unicode Sample.str_other true
        Sample.accepts false false
                 (Sample.fresh [])).2) = 2%nat)
  ∧ (times is_load
       (calls (run_twice Sample.unicode Sample.str_other false
        Sample.accepts false false
                 (Sample.fresh [])).2) = 2%nat
     ∧ times is_add
         (calls (run_twice Sample.unicode Sample.str_other false
        Sample.accepts false false
                   (Sample.fresh [])).2) = 2%nat)
  ∧ (times is_load
       (calls (run_twice Sample.unicode Sample.str_other false
        Sample.accepts false true
                 (Sample.fresh [Sample.lib01; Sample.gym02])).2) = 2%nat
     ∧ times is_add
         (calls (run_twice Sample.unicode Sample.str_other false
        Sample.accepts false true
                   (Sample.fresh [Sample.lib01; Sample.gym02])).2) = 2%nat).
Proof. repeat split; vm_compute; reflexivity. Qed.

(** A record with a null location can be formatted and has a string for
    id, but the sample store does not accept its entry: each of two runs
    raises, after loading the data and asking for the insertion. *)
Example rejected_batch_repeats_work :
  (run_twice Sample.unicode Sample.str_other false Sample.accepts false false
     (Sample.fresh [Sample.nowhere])).1
  = Raise ValueError
  ∧ times is_load
      (calls (run_twice Sample.unicode Sample.str_other false Sample.accepts
                false false (Sample.fresh [Sample.nowhere])).2) = 2%nat
  ∧ times is_add
      (calls (run_twice Sample.unicode Sample.str_other false Sample.accepts
                false false (Sample.fresh [Sample.nowhere])).2) = 2%nat.
Proof. repeat split; vm_compute; reflexivity. Qed.

(** C5, as stated, fails for the third kind of failure: the answer to an
    API error carries the message of the error, so no one text is the
    answer to all of them. *)
Lemma api_error_answer_not_fixed :
  ¬ ∃ fixed : string, ∀ msg : string,
      RAGResult.answer
        <$> returned
              (generate_answer Sample.distance
                 (Sample.fails (APIError msg)) (Some "sk-test")
                 Sample.question config.CHROMA_COLLECTION_NAME 3
                 (Sample.indexed [Sample.library; Sample.gym]))
      = Some fixed.
Proof.
  intros [fixed H].
  pose proof (H "overloaded") as H1. pose proof (H "timeout") as H2.
  vm_compute in H1, H2. congruence.
Qed.

(** C6, as stated, fails: the record without a contact lacks a required
    field, and the exception that the formatter raises for it is the
    built-in [KeyError] of the field, not a [MalformedRecordError]. *)
Lemma entry_to_document_raises_key_error :
  entry_to_document Sample.unicode Sample.str_other Sample.no_contact
    = Raise (KeyError "contact")
  ∧ ¬ ∀ (e : entry) (field : string),
        field ∈ required_fields →
        e !! field = None →
        entry_to_document Sample.unicode Sample.str_other e
        = Raise MalformedRecordError.
Proof.
  split; [reflexivity|]. intros H.
  assert ("contact" ∈ required_fields) as Hreq
    by (apply list_elem_of_In; simpl; auto 10).
  specialize (H Sample.no_contact "contact" Hreq eq_refl).
  vm_compute in H. discriminate H.
Qed.

(** ** The further properties on the sample data *)

Lemma entry_to_document_first_missing_witness :
  Sample.no_type_no_contact !! "type" = None
  ∧ Sample.no_type_no_contact !! "contact" = None
  ∧ entry_to_document Sample.unicode Sample.str_other Sample.no_type_no_contact
    = Raise (KeyError "type").
Proof.
  split; [reflexivity|]. split; [reflexivity|].
  apply (entry_to_document_first_missing Sample.unicode Sample.str_other
           Sample.no_type_no_contact [JStr "Free wifi"; JStr "Printing"]
           ["name"] "type" ["location"; "description"; "contact"]).
  - reflexivity.
  - reflexivity.
  - repeat constructor. by eexists.
  - reflexivity.
Defined.

(** [lib01_moved] is [lib01] under another id and with a floor number. *)
Lemma entry_to_document_reads_only_witness :
  Sample.lib01_moved !! "id" ≠ Sample.lib01 !! "id"
  ∧ entry_to_document Sample.unicode Sample.str_other Sample.lib01_moved
    = entry_to_document Sample.unicode Sample.str_other Sample.lib01.
Proof.
  split; [discriminate|].
  apply entry_to_document_reads_only.
  repeat (constructor; [reflexivity|]). constructor.
Defined.

(** The collection holds the cafe; the data file holds the library and
    the recreation center. *)
Lemma get_or_create_collection_reset_witness :
  chroma (Sample.indexed [Sample.cafe]) !! collection_name
    = Some [Sample.cafe]
  ∧ ie_id
      <$> default []
            (chroma
               (get_or_create_collection Sample.unicode Sample.str_other false Sample.accepts true
                  (Sample.indexed [Sample.cafe])).2
             !! collection_name)
    = ["lib01"; "gym02"].
Proof.
  split; [reflexivity|].
  rewrite (get_or_create_collection_reset Sample.unicode
             Sample.str_other false Sample.accepts
             (Sample.indexed [Sample.cafe])
             ltac:(discriminate) sample_records_valid sample_ids_distinct
             sample_batch_accepted).
  reflexivity.
Defined.

Lemma sample_lib01_loads : Forall (loads Sample.unicode Sample.str_other) [Sample.lib01].
Proof. repeat constructor. by eexists. Qed.

Lemma sample_no_contact_fails : ¬ loads Sample.unicode Sample.str_other Sample.no_contact.
Proof. intros [H _]. vm_compute in H. discriminate H. Qed.

(** The second of three records has no contact. *)
Lemma get_or_create_collection_bad_record_witness :
  (get_or_create_collection Sample.unicode Sample.str_other false Sample.accepts false
     (Sample.fresh [Sample.lib01; Sample.no_contact; Sample.gym02])).1
  = Raise (KeyError "contact").
Proof.
  rewrite (get_or_create_collection_bad_record Sample.unicode
             Sample.str_other false Sample.accepts
             (Sample.fresh [Sample.lib01; Sample.no_contact; Sample.gym02])
             [Sample.lib01] Sample.no_contact [Sample.gym02]
             (or_introl eq_refl) eq_refl
             sample_lib01_loads sample_no_contact_fails).
  reflexivity.
Defined.

Lemma sample_run_answered :
  generate_answer Sample.distance (Sample.answers "It opens at 8am.")
    (Some "sk-test") Sample.question config.CHROMA_COLLECTION_NAME 3
    (Sample.indexed [Sample.library; Sample.gym])
  = (Ok (answer_with Sample.distance "It opens at 8am." Sample.question
           [Sample.gym; Sample.library]),
     (generate_answer Sample.distance (Sample.answers "It opens at 8am.")
        (Some "sk-test") Sample.question config.CHROMA_COLLECTION_NAME 3
        (Sample.indexed [Sample.library; Sample.gym])).2).
Proof. vm_compute. reflexivity. Qed.

Lemma generate_answer_at_most_top_k_witness :
  (length
     (RAGResult.sources
        (answer_with Sample.distance "It opens at 8am." Sample.question
           [Sample.gym; Sample.library])) ≤ 3)%nat.
Proof.
  exact (proj1 (generate_answer_at_most_top_k _ _ _ _ _ _ _ _ _
                  sample_run_answered)).
Defined.

Lemma sample_query_nameless :
  query_knowledge_base Sample.distance config.CHROMA_COLLECTION_NAME
    Sample.question 3 (Sample.indexed [Sample.nameless; Sample.library])
  = (Ok (result_of_hits Sample.distance Sample.question
           ([Sample.library] ++ Sample.nameless :: [])%list),
     log (Sample.indexed [Sample.nameless; Sample.library])
       [Query config.CHROMA_COLLECTION_NAME Sample.question 3]).
Proof. reflexivity. Qed.

Lemma sample_nameless : ¬ has_name_and_type Sample.nameless.
Proof. intros [[name H] _]. vm_compute in H. discriminate H. Qed.

Lemma sample_library_named : Forall has_name_and_type [Sample.library].
Proof. repeat constructor; by eexists. Qed.

(** The second of the two entries retrieved has no name. *)
Lemma generate_answer_unnamed_entry_witness :
  (generate_answer Sample.distance (Sample.answers "unused") (Some "sk-test")
     Sample.question config.CHROMA_COLLECTION_NAME 3
     (Sample.indexed [Sample.nameless; Sample.library])).1
  = Raise (KeyError "name").
Proof.
  rewrite (generate_answer_unnamed_entry Sample.distance
             (Sample.answers "unused") (Some "sk-test") _ _ _ _ _
             [Sample.library] Sample.nameless []
             sample_query_nameless sample_library_named sample_nameless).
  reflexivity.
Defined.

(** A response of two content blocks. *)
Lemma generate_answer_first_block_witness :
  RAGResult.answer
    <$> returned
          (generate_answer Sample.distance Sample.two_blocks (Some "sk-test")
             Sample.question config.CHROMA_COLLECTION_NAME 3
             (Sample.indexed [Sample.library; Sample.gym]))
  = Some "The library opens at 8am.".
Proof.
  rewrite (generate_answer_first_block Sample.distance Sample.two_blocks
             (Some "sk-test") _ _ _ _ _ [Sample.gym; Sample.library]
             "sk-test" _ eq_refl sample_query ltac:(discriminate)
             sample_hits_named eq_refl).
  reflexivity.
Defined.

Lemma sample_records_named :
  Forall named_in_text [Sample.lib01; Sample.gym02].
Proof. repeat constructor; by eexists _, _. Qed.

(** A first start on the two records, then the question. *)
Lemma ask_after_lifespan_witness :
  ∃ resp w2,
    ask Sample.distance (Sample.answers "It opens at 8am.") (Some "sk-test")
      Sample.coerce_other Sample.question collection_name
      (started Sample.unicode Sample.str_other (Sample.fresh [Sample.lib01; Sample.gym02]))
    = (Ok resp, w2)
    ∧ length (server.sources resp) = 2%nat.
Proof.
  destruct (ask_after_lifespan Sample.unicode Sample.str_other
              Sample.distance false Sample.accepts
              (Sample.answers "It opens at 8am.") (Some "sk-test")
              Sample.coerce_other
              (Sample.fresh [Sample.lib01; Sample.gym02])
              Sample.question "sk-test"
              ltac:(discriminate) sample_records_valid sample_ids_distinct
              sample_batch_accepted (or_introl eq_refl) sample_records_named
              eq_refl I)
    as (_ & resp & w2 & Hask & _ & Hlen).
  exists resp, w2. split; [exact Hask|exact Hlen].
Defined.

Lemma sample_run_without_key :
  generate_answer Sample.distance (Sample.answers "unused") None
    Sample.question config.CHROMA_COLLECTION_NAME 3
    (Sample.indexed [Sample.library; Sample.gym])
  = (Ok {| RAGResult.answer := KEY_NOT_SET;
           RAGResult.sources := [];
           RAGResult.retrieved_docs :=
             ["Name: Recreation Center"; "Name: Main Library"];
           RAGResult.distances := [3 # 100; 8 # 100] |},
     log (Sample.indexed [Sample.library; Sample.gym])
       [Query config.CHROMA_COLLECTION_NAME Sample.question 3]).
Proof. reflexivity. Qed.

(** Two documents retrieved, no API key: the listing is empty. *)
Lemma print_retrieved_docs_without_key_witness :
  stdout
    (print_retrieved_docs Sample.str_other Sample.percent
       {| RAGResult.answer := KEY_NOT_SET;
          RAGResult.sources := [];
          RAGResult.retrieved_docs :=
            ["Name: Recreation Center"; "Name: Main Library"];
          RAGResult.distances := [3 # 100; 8 # 100] |}
       (Sample.terminal (Sample.indexed []))).2
  = [nl +:+ color "── Retrieved Documents ──" YELLOW +:+ nl; nl].
Proof.
  rewrite (print_retrieved_docs_without_key Sample.str_other Sample.distance
             (Sample.answers "unused") None Sample.percent
             _ _ _ _ _ _ (Sample.terminal (Sample.indexed []))
             eq_refl sample_run_without_key).
  reflexivity.
Defined.

(** A source whose name is the number 5. *)
Lemma print_answer_name_not_text_witness :
  (print_answer
     {| RAGResult.answer := "Room 5 is open.";
        RAGResult.sources :=
          [{| Source.id := "r5"; Source.name := JInt 5;
              Source.type := JStr "room" |}];
        RAGResult.retrieved_docs := ["Name: 5"];
        RAGResult.distances := [1 # 4] |}
     (Sample.terminal (Sample.indexed []))).1
  = Raise TypeError.
Proof.
  rewrite print_answer_name_not_text; [reflexivity|].
  apply Exists_cons_hd. intros name. discriminate.
Defined.

(** A blank line, a question, the word after a no-break space, and a line
    after it. *)
Lemma main_loop_stops_at_quit_witness :
  is_quit Sample.unicode (Py.utf8_2 194 160 +:+ "Quit ") = true
  ∧ main_loop Sample.unicode Sample.str_other Sample.distance
      (Sample.answers "At 8am.") (Some "sk-test") Sample.percent
      collection_name
      (["  "; "when does the library open"]
       ++ (Py.utf8_2 194 160 +:+ "Quit ") :: ["and the gym?"])%list
      (Sample.terminal (Sample.indexed [Sample.library]))
    = main_loop Sample.unicode Sample.str_other Sample.distance
        (Sample.answers "At 8am.") (Some "sk-test") Sample.percent
        collection_name
        (["  "; "when does the library open"]
         ++ [Py.utf8_2 194 160 +:+ "Quit "])%list
        (Sample.terminal (Sample.indexed [Sample.library])).
Proof.
  split; [reflexivity|].
  apply main_loop_stops_at_quit; reflexivity.
Defined.

Lemma sample_build_fails :
  get_or_create_collection Sample.unicode Sample.str_other false Sample.accepts false
    (env (Sample.terminal (Sample.fresh [Sample.no_contact])))
  = (Raise (KeyError "contact"),
     (get_or_create_collection Sample.unicode Sample.str_other false Sample.accepts false
        (Sample.fresh [Sample.no_contact])).2).
Proof. vm_compute. reflexivity. Qed.

(** The only record of the data file has no contact. *)
Lemma main_build_failure_witness :
  (main Sample.unicode Sample.str_other Sample.distance false
     Sample.accepts (Sample.answers "unused")
     (Some "sk-test") Sample.percent Sample.exn_str
     ["when does the library open"]
     (Sample.terminal (Sample.fresh [Sample.no_contact]))).1
  = Raise SystemExit.
Proof.
  rewrite (main_build_failure Sample.unicode Sample.str_other
             Sample.distance false Sample.accepts
             (Sample.answers "unused") (Some "sk-test") Sample.percent
             Sample.exn_str _ _ _ _ sample_build_fails).
  reflexivity.
Defined.

(** A first start on the two records; the user leaves at once. *)
Lemma main_first_start_witness :
  (main Sample.unicode Sample.str_other Sample.distance false
     Sample.accepts (Sample.answers "unused")
     (Some "sk-test") Sample.percent Sample.exn_str ["q"]
     (Sample.terminal (Sample.fresh [Sample.lib01; Sample.gym02]))).1
  = Ok tt.
Proof.
  rewrite (main_first_start Sample.unicode Sample.str_other
             Sample.distance false Sample.accepts
             (Sample.answers "unused") (Some "sk-test") Sample.percent
             Sample.exn_str ["q"]
             (Sample.terminal (Sample.fresh [Sample.lib01; Sample.gym02]))
             ltac:(discriminate) sample_records_valid sample_ids_distinct
             sample_batch_accepted (or_introl eq_refl)).
  reflexivity.
Defined.

(** The two sources of the answered run are both listed. *)
Lemma print_retrieved_docs_lists_sources_witness :
  ∃ lines,
    stdout
      (print_retrieved_docs Sample.str_other Sample.percent
         (answer_with Sample.distance "It opens at 8am." Sample.question
            [Sample.gym; Sample.library])
         (Sample.terminal (Sample.indexed []))).2
    = ([nl +:+ color "── Retrieved Documents ──" YELLOW +:+ nl]
       ++ lines ++ [nl])%list
    ∧ length lines = 2%nat.
Proof.
  destruct (print_retrieved_docs_lists_sources Sample.str_other
              Sample.distance (Sample.answers "It opens at 8am.")
              (Some "sk-test") Sample.percent _ _ _ _ _ _
              (Sample.terminal (Sample.indexed [])) sample_run_answered)
    as (lines & Hp & Hlen).
  exists lines. rewrite Hp. split; [reflexivity|exact Hlen].
Defined.

(** The label of the key [sat_sun]. *)
Lemma hours_label_normal_witness :
  Py.ascii_only "sat_sun" = true
  ∧ hours_lines Sample.unicode Sample.str_other
      (<["hours" := JDict [("sat_sun", JStr "10am-6pm")]]> ∅)
    = ["  Sat Sun: 10am-6pm"].
Proof.
  split; [reflexivity|].
  rewrite (proj2 (proj2 (proj2
             (hours_label_normal Sample.unicode Sample.str_other "sat_sun")))
             eq_refl "10am-6pm").
  reflexivity.
Defined.
